(** * Topological distance bounds for distance geometry

    A shallow embedding of [Code/GraphMol/DistGeomHelpers/BoundsMatrixBuilder.cpp]
    (namespace [RDKit::DGeomHelpers]): the bounds writer [_checkAndSetBounds],
    the five passes ([set12Bounds], [set13Bounds], [set14Bounds],
    [set15Bounds], [setLowerBoundVDW]) and the two [setTopolBounds] entry
    points, followed by the properties of the specification that concern them.

    Conventions of the embedding.
    - A [double] is an exact rational ([Q]): every finite double is one, and
      rounding is not modelled.  Division by zero follows [Q] (it yields 0).
    - [unsigned int] and [std::uint64_t] products that the source uses as keys
      or flat indices are written with their wrap-around ([u32], [u64]).
    - Atom and bond indices are [nat] (positions in the atom and bond lists).
    - Exceptions keep the writes made before them: a computation maps a state
      to a result (value or exception) together with the state reached. *)

From Stdlib Require Import QArith Qabs Qround ZArith NArith List Bool Lia Lqa String.
Import ListNotations.

Open Scope Q_scope.

(** ** Numbers *)

Definition Qltb (x y : Q) : bool := negb (Qle_bool y x).

Definition u32 (n : N) : N := (n mod 4294967296)%N.
Definition u64 (n : N) : N := (n mod 18446744073709551616)%N.

(** The constants at the head of the file. *)
Definition DIST12_DELTA : Q := 0.01.
Definition DIST13_TOL : Q := 0.04.
Definition GEN_DIST_TOL : Q := 0.06.
Definition DIST15_TOL : Q := 0.08.
Definition VDW_SCALE_15 : Q := 0.7.
Definition MAX_UPPER : Q := 1000.
Definition minMacrocycleRingSize : nat := 9.

(** [M_PI] of <cmath>: the double nearest to pi, as the rational it is. *)
Definition M_PI : Q := 884279719003555 # 281474976710656.

(** ** Exceptions *)

Inductive Exn : Type :=
| Invariant (msg : string)            (* CHECK_INVARIANT, PRECONDITION, URANGE_CHECK *)
| ValueErrorException (msg : string).

Inductive Result (A : Type) : Type :=
| Ok (a : A)
| Throw (e : Exn).
Arguments Ok {A} a.
Arguments Throw {A} e.

(** ** The bounds matrix *)

(** Modelled from the spec: [DistGeom::BoundsMatrix] (DistGeom/BoundsMatrix.h
    is not among the sources).  One square table packs both views: the lower
    triangle holds the lower bounds, the upper triangle the upper bounds, so
    both views are symmetric in the pair by construction.  The range checks
    of the accessors are not modelled. *)
Record BoundsMatrix : Type := {
  numRows : nat;
  getVal : nat -> nat -> Q
}.

Definition setVal (m : BoundsMatrix) (i j : nat) (v : Q) : BoundsMatrix :=
  {| numRows := numRows m;
     getVal := fun r c => if ((r =? i) && (c =? j))%nat%bool then v else getVal m r c |}.

Definition getUpperBound (m : BoundsMatrix) (i j : nat) : Q :=
  if (i <? j)%nat then getVal m i j else getVal m j i.

Definition getLowerBound (m : BoundsMatrix) (i j : nat) : Q :=
  if (i <? j)%nat then getVal m j i else getVal m i j.

Definition setUpperBound (m : BoundsMatrix) (i j : nat) (v : Q) : BoundsMatrix :=
  if (i <? j)%nat then setVal m i j v else setVal m j i v.

Definition setLowerBound (m : BoundsMatrix) (i j : nat) (v : Q) : BoundsMatrix :=
  if (i <? j)%nat then setVal m j i v else setVal m i j v.

(** ** The bounds writer *)

Definition _checkAndSetBounds (i j : nat) (lb ub : Q) (mmat : BoundsMatrix)
  : Result BoundsMatrix :=
  (* get the existing bounds *)
  let clb := getLowerBound mmat i j in
  let cub := getUpperBound mmat i j in
  if negb (Qltb lb ub)
  then Throw (Invariant "upper bound not greater than lower bound")
  else if negb (Qltb DIST12_DELTA lb || Qltb DIST12_DELTA clb)
  then Throw (Invariant "bad lower bound")
  else
    let mmat1 :=
      if Qle_bool clb DIST12_DELTA then setLowerBound mmat i j lb
      else if Qltb lb clb && Qltb DIST12_DELTA lb
           then setLowerBound mmat i j lb  (* conservative bound setting *)
           else mmat in
    let mmat2 :=
      if Qle_bool MAX_UPPER cub then setUpperBound mmat1 i j ub
      else if Qltb cub ub && Qltb ub MAX_UPPER
           then setUpperBound mmat1 i j ub
           else mmat1 in
    Ok mmat2.

(** [initBoundsMat]: every pair below the diagonal gets the default bounds. *)
Definition initBoundsMat (mmat : BoundsMatrix) (defaultMin defaultMax : Q)
  : BoundsMatrix :=
  let npt := numRows mmat in
  fold_left
    (fun m i =>
       fold_left
         (fun m j => setLowerBound (setUpperBound m i j defaultMax) i j defaultMin)
         (seq 0 i) m)
    (seq 1 (npt - 1)) mmat.

(** ** The molecule view

    Modelled from the spec: the molecular graph ([ROMol], [Atom], [Bond],
    [RingInfo]; their headers are not among the sources).  The model keeps
    what section 6 of the specification lists as the read-only interface. *)

Inductive HybridizationType : Type :=
| SP | SP2 | SP3 | SP3D | SP3D2 | HYB_OTHER.

Definition hyb_eqb (a b : HybridizationType) : bool :=
  match a, b with
  | SP, SP | SP2, SP2 | SP3, SP3 | SP3D, SP3D | SP3D2, SP3D2
  | HYB_OTHER, HYB_OTHER => true
  | _, _ => false
  end.

Inductive BondType : Type :=
| SINGLE | DOUBLE | TRIPLE | AROMATIC | BT_OTHER.

Definition bt_eqb (a b : BondType) : bool :=
  match a, b with
  | SINGLE, SINGLE | DOUBLE, DOUBLE | TRIPLE, TRIPLE | AROMATIC, AROMATIC
  | BT_OTHER, BT_OTHER => true
  | _, _ => false
  end.

(** The stereo tags in their declaration order; the two atropisomer tags
    stand for the tags beyond STEREOTRANS. *)
Inductive BondStereo : Type :=
| STEREONONE | STEREOANY | STEREOZ | STEREOE | STEREOCIS | STEREOTRANS
| STEREOATROPCW | STEREOATROPCCW.

Definition stereoRank (s : BondStereo) : nat :=
  match s with
  | STEREONONE => 0 | STEREOANY => 1 | STEREOZ => 2 | STEREOE => 3
  | STEREOCIS => 4 | STEREOTRANS => 5 | STEREOATROPCW => 6
  | STEREOATROPCCW => 7
  end.

Definition stereo_eqb (a b : BondStereo) : bool :=
  (stereoRank a =? stereoRank b)%nat.

Record Atom : Type := {
  atomIdx : nat;                       (* getIdx() *)
  atomicNum : nat;                     (* getAtomicNum() *)
  hybridization : HybridizationType;   (* getHybridization() *)
  totalNumHs : nat;                    (* getTotalNumHs(true) *)
  nonTetrahedralStereo : bool;         (* Chirality::hasNonTetrahedralStereo *)
  chiralPermutation : bool             (* hasProp(_chiralPermutation) *)
}.

Record Bond : Type := {
  bondIdx : nat;                       (* getIdx() *)
  beginAtomIdx : nat;
  endAtomIdx : nat;
  bondType : BondType;
  bondTypeAsDouble : Q;
  isConjugated : bool;
  stereo : BondStereo;
  stereoAtoms : list Z                 (* INT_VECT *)
}.

Record RingInfo : Type := {
  isInitialized : bool;
  atomRings : list (list nat);
  bondRings : list (list nat)
}.

Record ROMol : Type := {
  atoms : list Atom;
  bonds : list Bond;
  ringInfo : RingInfo
}.

Definition getNumAtoms (mol : ROMol) : nat := List.length (atoms mol).
Definition getNumBonds (mol : ROMol) : nat := List.length (bonds mol).

Definition getAtomWithIdx (mol : ROMol) (idx : nat) : Result Atom :=
  match nth_error (atoms mol) idx with
  | Some a => Ok a
  | None => Throw (Invariant "Range Error")
  end.

(** An atom index read from an [int] table: a negative entry converts to an
    unsigned value beyond every atom. *)
Definition getAtomWithIdxZ (mol : ROMol) (idx : Z) : Result Atom :=
  if (idx <? 0)%Z then Throw (Invariant "Range Error")
  else getAtomWithIdx mol (Z.to_nat idx).

Definition getBondWithIdx (mol : ROMol) (idx : nat) : Result Bond :=
  match nth_error (bonds mol) idx with
  | Some b => Ok b
  | None => Throw (Invariant "Range Error")
  end.

Definition getOtherAtomIdx (b : Bond) (thisIdx : nat) : Result nat :=
  if (beginAtomIdx b =? thisIdx)%nat then Ok (endAtomIdx b)
  else if (endAtomIdx b =? thisIdx)%nat then Ok (beginAtomIdx b)
  else Throw (Invariant "bad index").

Definition joins (b : Bond) (a1 a2 : nat) : bool :=
  ((beginAtomIdx b =? a1) && (endAtomIdx b =? a2)
   || (beginAtomIdx b =? a2) && (endAtomIdx b =? a1))%nat%bool.

Definition getBondBetweenAtoms (mol : ROMol) (a1 a2 : nat) : option Bond :=
  find (fun b => joins b a1 a2) (bonds mol).

(** The bonds at an atom, in bond order. *)
Definition atomBonds (mol : ROMol) (a : nat) : list Bond :=
  filter (fun b => (beginAtomIdx b =? a) || (endAtomIdx b =? a))%nat%bool
         (bonds mol).

Definition getDegree (mol : ROMol) (a : nat) : nat :=
  List.length (atomBonds mol a).

Definition isSome {A : Type} (o : option A) : bool :=
  match o with Some _ => true | None => false end.

Definition memb (x : nat) (l : list nat) : bool := existsb (Nat.eqb x) l.
Definition membN (x : N) (l : list N) : bool := existsb (N.eqb x) l.

Definition numAtomRings (mol : ROMol) (a : nat) : nat :=
  List.length (filter (memb a) (atomRings (ringInfo mol))).

Definition numBondRings (mol : ROMol) (b : nat) : nat :=
  List.length (filter (memb b) (bondRings (ringInfo mol))).

Definition isAtomInRingOfSize (mol : ROMol) (a size : nat) : bool :=
  existsb (fun r => (List.length r =? size)%nat && memb a r)
          (atomRings (ringInfo mol)).

Definition isBondInRingOfSize (mol : ROMol) (b size : nat) : bool :=
  existsb (fun r => (List.length r =? size)%nat && memb b r)
          (bondRings (ringInfo mol)).

(** ** External collaborators

    The force-field parameters, the periodic table, the distance-in-bonds
    matrix, the geometry helpers of Geometry/Utils.h, the ideal ligand angle
    of the stereo model and the functions of <cmath> are parameters of the
    development. *)
Record Oracles : Type := {
  AtomicParams : Type;
  getAtomTypes : ROMol -> list (option AtomicParams) * bool;
  calcBondRestLength : Q -> AtomicParams -> AtomicParams -> Q;
  getRvdw : nat -> Q;
  getDistanceMat : ROMol -> N -> Q;             (* flat, row-major *)
  compute13Dist : Q -> Q -> Q -> Q;
  compute14DistCis : Q -> Q -> Q -> Q -> Q -> Q;
  compute14DistTrans : Q -> Q -> Q -> Q -> Q -> Q;
  compute14Dist3D : Q -> Q -> Q -> Q -> Q -> Q -> Q;
  getIdealAngleBetweenLigands : ROMol -> Atom -> Atom -> Atom -> Q;
  cos : Q -> Q;
  sin : Q -> Q;
  sqrt : Q -> Q;
  acos : Q -> Q
}.

(** ** Accumulated data *)

Inductive Path14Type : Type := CIS | TRANS | OTHER.

Record Path14Configuration : Type := {
  bid1 : nat; bid2 : nat; bid3 : nat;
  type : Path14Type
}.

(** The sizes of the two symmetric matrices are not modelled (they are the
    number of bonds by construction). *)
Record ComputedData : Type := {
  bondLengths : list Q;
  bondAdj : nat -> nat -> Z;           (* symmetric, -1 when unset *)
  bondAngles : nat -> nat -> Q;        (* symmetric, -1.0 when unset *)
  paths14 : list Path14Configuration;
  cisPaths : list N;
  transPaths : list N;
  set15Atoms : list N                  (* the bits that are set *)
}.

(** [SymmMatrix::setVal]: one cell per unordered pair. *)
Definition symSet {A : Type} (f : nat -> nat -> A) (i j : nat) (v : A)
  : nat -> nat -> A :=
  fun r c =>
    if ((Nat.max r c =? Nat.max i j) && (Nat.min r c =? Nat.min i j))%nat%bool
    then v else f r c.

Fixpoint vecSet {A : Type} (l : list A) (i : nat) (v : A) : list A :=
  match l, i with
  | [], _ => []
  | _ :: t, O => v :: t
  | h :: t, S k => h :: vecSet t k v
  end.

Definition newComputedData (nAtoms nBonds : nat) : ComputedData :=
  {| bondLengths := repeat 0 nBonds;
     bondAdj := fun _ _ => (-1)%Z;
     bondAngles := fun _ _ => -1;
     paths14 := [];
     cisPaths := [];
     transPaths := [];
     set15Atoms := [] |}.

(** ** State and computations *)

(** The arguments of one successful [_checkAndSetBounds] call. *)
Record CasCall : Type := {
  cas_i : nat; cas_j : nat; cas_lb : Q; cas_ub : Q
}.

(** The state of a run: the bounds matrix, the accumulated data, and a
    history variable [casLog] that is not in the source: it records the
    successful [_checkAndSetBounds] calls in order.  Nothing reads it. *)
Record State : Type := {
  mmat : BoundsMatrix;
  accumData : ComputedData;
  casLog : list CasCall
}.

Definition M (A : Type) : Type := State -> Result A * State.

Definition ret {A : Type} (a : A) : M A := fun st => (Ok a, st).

Definition throw {A : Type} (e : Exn) : M A := fun st => (Throw e, st).

Definition bind {A B : Type} (c : M A) (k : A -> M B) : M B :=
  fun st =>
    match c st with
    | (Ok a, st') => k a st'
    | (Throw e, st') => (Throw e, st')
    end.

Declare Scope comp_scope.
Delimit Scope comp_scope with comp.
Notation "x <- c ;; k" := (bind c (fun x => k))
  (at level 61, c at next level, right associativity) : comp_scope.
Notation "c ;; k" := (bind c (fun _ => k))
  (at level 61, right associativity) : comp_scope.
Notation "' pat <- c ;; k" :=
  (bind c (fun x => match x with pat => k end))
  (at level 61, pat pattern, c at next level, right associativity) : comp_scope.
Open Scope comp_scope.

Definition liftR {A : Type} (r : Result A) : M A :=
  fun st => (r, st).

Definition gets {A : Type} (f : State -> A) : M A :=
  fun st => (Ok (f st), st).

Definition getMat : M BoundsMatrix := gets mmat.
Definition getAccum : M ComputedData := gets accumData.

Definition modifyAccum (f : ComputedData -> ComputedData) : M unit :=
  fun st =>
    (Ok tt, {| mmat := mmat st; accumData := f (accumData st);
               casLog := casLog st |}).

(** [mmat->setUpperBound] and [mmat->setLowerBound] called directly. *)
Definition mmat_setUpperBound (i j : nat) (v : Q) : M unit :=
  fun st =>
    (Ok tt, {| mmat := setUpperBound (mmat st) i j v;
               accumData := accumData st; casLog := casLog st |}).

Definition mmat_setLowerBound (i j : nat) (v : Q) : M unit :=
  fun st =>
    (Ok tt, {| mmat := setLowerBound (mmat st) i j v;
               accumData := accumData st; casLog := casLog st |}).

(** A call of [_checkAndSetBounds] on the matrix of the state. *)
Definition call_checkAndSetBounds (i j : nat) (lb ub : Q) : M unit :=
  fun st =>
    match _checkAndSetBounds i j lb ub (mmat st) with
    | Ok m' =>
        (Ok tt, {| mmat := m'; accumData := accumData st;
                   casLog := casLog st ++
                     [{| cas_i := i; cas_j := j; cas_lb := lb; cas_ub := ub |}] |})
    | Throw e => (Throw e, st)
    end.

Definition CHECK_INVARIANT (b : bool) (msg : string) : M unit :=
  if b then ret tt else throw (Invariant msg).

Definition PRECONDITION (b : bool) (msg : string) : M unit :=
  if b then ret tt else throw (Invariant msg).

Fixpoint forM_ {A : Type} (l : list A) (body : A -> M unit) : M unit :=
  match l with
  | [] => ret tt
  | x :: t => body x ;; forM_ t body
  end.

Fixpoint foldM {A B : Type} (body : B -> A -> M B) (l : list A) (b : B) : M B :=
  match l with
  | [] => ret b
  | x :: t => b' <- body b x ;; foldM body t b'
  end.

(** Flat index [row * npt + col] computed in [unsigned int]. *)
Definition flatIdx (row npt col : nat) : N :=
  u32 (N.of_nat row * N.of_nat npt + N.of_nat col).

(** [static_cast<unsigned long>(b1) * nb * nb + b2 * nb + b3] with [nb] and
    the bond indices [unsigned int]: the middle product is a 32-bit one. *)
Definition pathKey (nb b1 b2 b3 : nat) : N :=
  u64 (N.of_nat b1 * N.of_nat nb * N.of_nat nb
       + u32 (N.of_nat b2 * N.of_nat nb) + N.of_nat b3).

(** The same key computed with [nb] a [std::uint64_t] (in [set14Bounds]). *)
Definition pathKey64 (nb b1 b2 b3 : nat) : N :=
  u64 (N.of_nat b1 * N.of_nat nb * N.of_nat nb
       + N.of_nat b2 * N.of_nat nb + N.of_nat b3).

Definition pairKey64 (nb b1 b2 : nat) : N :=
  u64 (N.of_nat b1 * N.of_nat nb + N.of_nat b2).

(** [static_cast<size_t>(std::pow(std::numeric_limits<std::uint64_t>::max(),
    1. / 3))]: the cube root of 2^64 is 2642245.9..., truncated. *)
Definition MAX_NUM_BONDS : N := 2642245.

Definition Q_of_nat (n : nat) : Q := inject_Z (Z.of_nat n).

Definition insertCisPath (nb b1 b2 b3 : nat) : M unit :=
  modifyAccum (fun a =>
    {| bondLengths := bondLengths a; bondAdj := bondAdj a;
       bondAngles := bondAngles a; paths14 := paths14 a;
       cisPaths := pathKey nb b3 b2 b1 :: pathKey nb b1 b2 b3 :: cisPaths a;
       transPaths := transPaths a; set15Atoms := set15Atoms a |}).

Definition insertTransPath (nb b1 b2 b3 : nat) : M unit :=
  modifyAccum (fun a =>
    {| bondLengths := bondLengths a; bondAdj := bondAdj a;
       bondAngles := bondAngles a; paths14 := paths14 a;
       cisPaths := cisPaths a;
       transPaths := pathKey nb b3 b2 b1 :: pathKey nb b1 b2 b3 :: transPaths a;
       set15Atoms := set15Atoms a |}).

Definition push_path14 (p : Path14Configuration) : M unit :=
  modifyAccum (fun a =>
    {| bondLengths := bondLengths a; bondAdj := bondAdj a;
       bondAngles := bondAngles a; paths14 := paths14 a ++ [p];
       cisPaths := cisPaths a; transPaths := transPaths a;
       set15Atoms := set15Atoms a |}).

Definition set_bondLength (b : nat) (bl : Q) : M unit :=
  modifyAccum (fun a =>
    {| bondLengths := vecSet (bondLengths a) b bl; bondAdj := bondAdj a;
       bondAngles := bondAngles a; paths14 := paths14 a;
       cisPaths := cisPaths a; transPaths := transPaths a;
       set15Atoms := set15Atoms a |}).

(** [bondAngles->setVal(b1, b2, angle); bondAdj->setVal(b1, b2, aid)]. *)
Definition set_angle_adj (b1 b2 : nat) (angle : Q) (aid : nat) : M unit :=
  modifyAccum (fun a =>
    {| bondLengths := bondLengths a;
       bondAdj := symSet (bondAdj a) b1 b2 (Z.of_nat aid);
       bondAngles := symSet (bondAngles a) b1 b2 angle;
       paths14 := paths14 a;
       cisPaths := cisPaths a; transPaths := transPaths a;
       set15Atoms := set15Atoms a |}).

Definition mark_set15Atoms (k1 k2 : N) : M unit :=
  modifyAccum (fun a =>
    {| bondLengths := bondLengths a; bondAdj := bondAdj a;
       bondAngles := bondAngles a; paths14 := paths14 a;
       cisPaths := cisPaths a; transPaths := transPaths a;
       set15Atoms := k2 :: k1 :: set15Atoms a |}).

Definition bondLength (a : ComputedData) (b : nat) : Q :=
  nth b (bondLengths a) 0.

Section DGeomHelpers.

Variable O : Oracles.

(** ** Pass 1: 1-2 bounds *)

(** The body of the second loop of [set12Bounds]. *)
Definition set12Bounds_bond (mol : ROMol)
    (atomParams : list (option (AtomicParams O))) (squishAtoms : list nat)
    (bond : Bond) : M unit :=
  let begId := beginAtomIdx bond in
  let endId := endAtomIdx bond in
  let bOrder := bondTypeAsDouble bond in
  let crude : M unit :=
    (* we don't have parameters for one of the atoms... so we're forced to
       use very crude bounds *)
    a1 <- liftR (getAtomWithIdx mol begId) ;;
    let vw1 := getRvdw O (atomicNum a1) in
    a2 <- liftR (getAtomWithIdx mol endId) ;;
    let vw2 := getRvdw O (atomicNum a2) in
    let bl := (vw1 + vw2) / 2 in
    set_bondLength (bondIdx bond) bl ;;
    mmat_setUpperBound begId endId (1.5 * bl) ;;
    mmat_setLowerBound begId endId (0.5 * bl) in
  match nth begId atomParams None, nth endId atomParams None with
  | Some p1, Some p2 =>
      if Qltb 0 bOrder then
        let bl := calcBondRestLength O bOrder p1 p2 in
        let extraSquish :=
          if memb begId squishAtoms || memb endId squishAtoms
          then 0.2 (* empirical *) else 0 in
        set_bondLength (bondIdx bond) bl ;;
        mmat_setUpperBound begId endId (bl + extraSquish + DIST12_DELTA) ;;
        mmat_setLowerBound begId endId (bl - extraSquish - DIST12_DELTA)
      else crude
  | _, _ => crude
  end.

(** The body of the first loop of [set12Bounds]: larger heteroatoms in
    conjugated 5 rings. *)
Definition set12Bounds_squish (mol : ROMol) (squishAtoms : list nat)
    (bond : Bond) : M (list nat) :=
  if isConjugated bond then
    a1 <- liftR (getAtomWithIdx mol (beginAtomIdx bond)) ;;
    heavy <- (if (10 <? atomicNum a1)%nat then ret true
              else a2 <- liftR (getAtomWithIdx mol (endAtomIdx bond)) ;;
                   ret (10 <? atomicNum a2)%nat) ;;
    if heavy && isInitialized (ringInfo mol)
       && isBondInRingOfSize mol (bondIdx bond) 5
    then ret (endAtomIdx bond :: beginAtomIdx bond :: squishAtoms)
    else ret squishAtoms
  else ret squishAtoms.

Definition set12Bounds (mol : ROMol) : M unit :=
  npt <- gets (fun st => numRows (mmat st)) ;;
  CHECK_INVARIANT (npt =? getNumAtoms mol)%nat "Wrong size metric matrix" ;;
  accum <- getAccum ;;
  CHECK_INVARIANT (getNumBonds mol <=? List.length (bondLengths accum))%nat
                  "Wrong size accumData" ;;
  let atomParams := fst (getAtomTypes O mol) in
  CHECK_INVARIANT (List.length atomParams =? getNumAtoms mol)%nat
                  "parameter vector size mismatch" ;;
  squishAtoms <- foldM (set12Bounds_squish mol) (bonds mol) [] ;;
  forM_ (bonds mol) (set12Bounds_bond mol atomParams squishAtoms).

(** ** Pass 5: van der Waals lower bounds *)

(** The body of the inner loop of [setLowerBoundVDW]. *)
Definition setLowerBoundVDW_pair (mol : ROMol) (dmat : N -> Q) (npt i : nat)
    (vw1 : Q) (j : nat) : M unit :=
  aj <- liftR (getAtomWithIdx mol j) ;;
  let vw2 := getRvdw O (atomicNum aj) in
  m <- getMat ;;
  if Qltb (getLowerBound m i j) DIST12_DELTA then
    if Qeq_bool (dmat (flatIdx i npt j)) 4 then
      mmat_setLowerBound i j (VDW_SCALE_15 * (vw1 + vw2))
    else if Qeq_bool (dmat (flatIdx i npt j)) 5 then
      mmat_setLowerBound i j
        ((VDW_SCALE_15 + 0.5 * (1 - VDW_SCALE_15)) * (vw1 + vw2))
    else
      mmat_setLowerBound i j (vw1 + vw2)
  else ret tt.

(** The third parameter is unnamed in the source. *)
Definition setLowerBoundVDW (mol : ROMol) (_ : bool) (dmat : N -> Q) : M unit :=
  npt <- gets (fun st => numRows (mmat st)) ;;
  PRECONDITION (npt =? getNumAtoms mol)%nat "Wrong size metric matrix" ;;
  forM_ (seq 1 (npt - 1)) (fun i =>
    ai <- liftR (getAtomWithIdx mol i) ;;
    let vw1 := getRvdw O (atomicNum ai) in
    forM_ (seq 0 i) (setLowerBoundVDW_pair mol dmat npt i vw1)).

(** ** Pass 2: 1-3 bounds *)

Definition isLargerSP2Atom (mol : ROMol) (atom : Atom) : bool :=
  (13 <? atomicNum atom)%nat && hyb_eqb (hybridization atom) SP2
  && negb (numAtomRings mol (atomIdx atom) =? 0)%nat.

(** [mol.getBondBetweenAtoms(a, b)->getIdx()]: the source dereferences the
    result unchecked; a missing bond is an exception here. *)
Definition bondBetween (mol : ROMol) (a b : nat) : M Bond :=
  match getBondBetweenAtoms mol a b with
  | Some bnd => ret bnd
  | None => throw (Invariant "no bond found")
  end.

Definition _set13BoundsHelper (aid1 aid aid3 : nat) (angle : Q) (mol : ROMol)
  : M unit :=
  b1 <- bondBetween mol aid1 aid ;;
  b2 <- bondBetween mol aid aid3 ;;
  accum <- getAccum ;;
  let dl := compute13Dist O (bondLength accum (bondIdx b1))
                          (bondLength accum (bondIdx b2)) angle in
  let distTol := DIST13_TOL in
  (* Now increase the tolerance if we're outside of the first row of the
     periodic table. *)
  a1 <- liftR (getAtomWithIdx mol aid1) ;;
  let distTol := if isLargerSP2Atom mol a1 then distTol * 2 else distTol in
  a2 <- liftR (getAtomWithIdx mol aid) ;;
  let distTol := if isLargerSP2Atom mol a2 then distTol * 2 else distTol in
  a3 <- liftR (getAtomWithIdx mol aid3) ;;
  let distTol := if isLargerSP2Atom mol a3 then distTol * 2 else distTol in
  let du := dl + distTol in
  let dl := dl - distTol in
  call_checkAndSetBounds aid1 aid3 dl du.

Definition _setRingAngle (aHyb : HybridizationType) (ringSize : nat) : Q :=
  if (hyb_eqb aHyb SP2 && (ringSize <=? 8)%nat) || (ringSize =? 3)%nat
     || (ringSize =? 4)%nat
  then M_PI * (1 - 2 / Q_of_nat ringSize)
  else if hyb_eqb aHyb SP3 then
    if (ringSize =? 5)%nat then 104 * M_PI / 180
    else 109.5 * M_PI / 180
  else if hyb_eqb aHyb SP3D then 105 * M_PI / 180
  else if hyb_eqb aHyb SP3D2 then 90 * M_PI / 180
  else 120 * M_PI / 180.

(** [std::sort(atomRings.begin(), atomRings.end(), lessVector)]: the rings
    by ascending size (rings of one size keep their order here; the source
    leaves it to the library). *)
Fixpoint insertBySize (r : list nat) (l : list (list nat)) : list (list nat) :=
  match l with
  | [] => [r]
  | h :: t =>
      if (List.length r <? List.length h)%nat then r :: l
      else h :: insertBySize r t
  end.

Definition sortBySize (l : list (list nat)) : list (list nat) :=
  fold_right insertBySize [] l.

(** The locals of [set13Bounds] that its loops update. *)
Record Locals13 : Type := {
  visited : nat -> nat;
  angleTaken : nat -> Q;
  donePaths13 : list N
}.

Definition funSet {A : Type} (f : nat -> A) (i : nat) (v : A) : nat -> A :=
  fun k => if (k =? i)%nat then v else f k.

(** [visited[aid] += 1; angleTaken[aid] += angle]. *)
Definition take_angle (loc : Locals13) (aid : nat) (angle : Q) : Locals13 :=
  {| visited := funSet (visited loc) aid (visited loc aid + 1)%nat;
     angleTaken := funSet (angleTaken loc) aid (angleTaken loc aid + angle);
     donePaths13 := donePaths13 loc |}.

Definition mark_done13 (loc : Locals13) (id1 id2 : N) : Locals13 :=
  {| visited := visited loc; angleTaken := angleTaken loc;
     donePaths13 := id2 :: id1 :: donePaths13 loc |}.

(** One step of the walk around a ring: [st] carries [aid1] and the locals. *)
Definition set13Bounds_ringStep (mol : ROMol) (ringi : list nat)
    (st : nat * Locals13) (i : nat) : M (nat * Locals13) :=
  let '(aid1, loc) := st in
  let rSize := List.length ringi in
  let nb := getNumBonds mol in
  let aid2 := nth i ringi 0%nat in
  let aid3 := if (i =? rSize - 1)%nat then nth 0 ringi 0%nat
              else nth (i + 1) ringi 0%nat in
  CHECK_INVARIANT (isSome (getBondBetweenAtoms mol aid1 aid2))
                  "no bond found" ;;
  CHECK_INVARIANT (isSome (getBondBetweenAtoms mol aid2 aid3))
                  "no bond found" ;;
  b1 <- bondBetween mol aid1 aid2 ;;
  b2 <- bondBetween mol aid2 aid3 ;;
  let bid1 := bondIdx b1 in
  let bid2 := bondIdx b2 in
  let id1 := u32 (N.of_nat nb * N.of_nat bid1 + N.of_nat bid2) in
  let id2 := u32 (N.of_nat nb * N.of_nat bid2 + N.of_nat bid1) in
  if negb (membN id1 (donePaths13 loc)) && negb (membN id2 (donePaths13 loc))
  then
    a2 <- liftR (getAtomWithIdx mol aid2) ;;
    let angle := _setRingAngle (hybridization a2) rSize in
    _set13BoundsHelper aid1 aid2 aid3 angle mol ;;
    set_angle_adj bid1 bid2 angle aid2 ;;
    ret (aid2, mark_done13 (take_angle loc aid2 angle) id1 id2)
  else ret (aid2, loc).

Definition set13Bounds_ring (mol : ROMol) (loc : Locals13) (ringi : list nat)
  : M Locals13 :=
  let rSize := List.length ringi in
  let aid1 := nth (rSize - 1) ringi 0%nat in
  r <- foldM (set13Bounds_ringStep mol ringi) (seq 0 rSize) (aid1, loc) ;;
  ret (snd r).

(** [n13 - visited[aid2]] in [unsigned int], as a [double]. *)
Definition remaining13 (n13 v : nat) : Q :=
  inject_Z ((Z.of_nat n13 - Z.of_nat v) mod 4294967296).

(** The angle at a ring atom for a pair of bonds not dealt with before. *)
Definition set13Bounds_ringAtomAngle (mol : ROMol) (atom a1 a3 : Atom)
    (deg n13 : nat) (loc : Locals13) : Q :=
  let aid2 := atomIdx atom in
  let ahyb := hybridization atom in
  if hyb_eqb ahyb SP2 then
    (2 * M_PI - angleTaken loc aid2) / remaining13 n13 (visited loc aid2)
  else if hyb_eqb ahyb SP3 then
    if isAtomInRingOfSize mol aid2 3 then 116 * M_PI / 180
    else if isAtomInRingOfSize mol aid2 4 then 112 * M_PI / 180
    else 109.5 * M_PI / 180
  else if nonTetrahedralStereo atom then
    getIdealAngleBetweenLigands O mol atom a1 a3 * M_PI / 180
  else if (deg =? 5)%nat then 105 * M_PI / 180
  else if (deg =? 6)%nat then 135 * M_PI / 180
  else 120 * M_PI / 180.

(** The angle at a non-ring atom. *)
Definition set13Bounds_chainAtomAngle (mol : ROMol) (atom a1 a3 : Atom) : Q :=
  let ahyb := hybridization atom in
  if nonTetrahedralStereo atom then
    getIdealAngleBetweenLigands O mol atom a1 a3 * M_PI / 180
  else if hyb_eqb ahyb SP then M_PI
  else if hyb_eqb ahyb SP2 then 2 * M_PI / 3
  else if hyb_eqb ahyb SP3 then 109.5 * M_PI / 180
  else if nonTetrahedralStereo atom then
    getIdealAngleBetweenLigands O mol atom a1 a3 * M_PI / 180
  else if hyb_eqb ahyb SP3D then 105 * M_PI / 180
  else if hyb_eqb ahyb SP3D2 then 135 * M_PI / 180
  else 120 * M_PI / 180.

(** Atoms already visited, i.e. ring atoms: the body of the inner loop. *)
Definition set13Bounds_ringAtomPair (mol : ROMol) (atom : Atom) (deg n13 : nat)
    (bnd1 : Bond) (aid1 : nat) (loc : Locals13) (bnd2 : Bond) : M Locals13 :=
  let aid2 := atomIdx atom in
  let bid1 := bondIdx bnd1 in
  let bid2 := bondIdx bnd2 in
  aid3 <- liftR (getOtherAtomIdx bnd2 aid2) ;;
  accum <- getAccum ;;
  if Qltb (bondAngles accum bid1 bid2) 0 then
    (* if we haven't dealt with these two bonds before *)
    a1 <- liftR (getAtomWithIdx mol aid1) ;;
    a3 <- liftR (getAtomWithIdx mol aid3) ;;
    let angle := set13Bounds_ringAtomAngle mol atom a1 a3 deg n13 loc in
    _set13BoundsHelper aid1 aid2 aid3 angle mol ;;
    set_angle_adj bid1 bid2 angle aid2 ;;
    ret (take_angle loc aid2 angle)
  else ret loc.

(** Non-ring atoms: the body of the inner loop. *)
Definition set13Bounds_chainAtomPair (mol : ROMol) (atom : Atom) (deg : nat)
    (bnd1 : Bond) (aid1 : nat) (loc : Locals13) (bnd2 : Bond) : M Locals13 :=
  let aid2 := atomIdx atom in
  let bid1 := bondIdx bnd1 in
  let bid2 := bondIdx bnd2 in
  aid3 <- liftR (getOtherAtomIdx bnd2 aid2) ;;
  a1 <- liftR (getAtomWithIdx mol aid1) ;;
  a3 <- liftR (getAtomWithIdx mol aid3) ;;
  let angle := set13Bounds_chainAtomAngle mol atom a1 a3 in
  (if (deg <=? 4)%nat
      || (nonTetrahedralStereo atom && chiralPermutation atom)
   then _set13BoundsHelper aid1 aid2 aid3 angle mol
   else
     (* just use 180 as the max angle and an arbitrary min angle *)
     accum <- getAccum ;;
     let dmax := bondLength accum bid1 + bondLength accum bid2 in
     let dl := 1 in
     let du := dmax * 1.2 in
     call_checkAndSetBounds aid1 aid3 dl du) ;;
  set_angle_adj bid1 bid2 angle aid2 ;;
  ret (take_angle loc aid2 angle).

(** Both loops over the bonds of an atom: [bnd1] runs over all of them and
    [bnd2] over those before [bnd1]. *)
Definition forBondPairs (mol : ROMol) (aid2 : nat)
    (body : Bond -> nat -> Locals13 -> Bond -> M Locals13) (loc : Locals13)
  : M Locals13 :=
  let bs := atomBonds mol aid2 in
  foldM (fun loc k =>
           match nth_error bs k with
           | Some bnd1 =>
               aid1 <- liftR (getOtherAtomIdx bnd1 aid2) ;;
               foldM (body bnd1 aid1) (firstn k bs) loc
           | None => ret loc
           end)
        (seq 0 (List.length bs)) loc.

(** The body of the loop over the remaining atoms. *)
Definition set13Bounds_atom (mol : ROMol) (loc : Locals13) (aid2 : nat)
  : M Locals13 :=
  atom <- liftR (getAtomWithIdx mol aid2) ;;
  let deg := getDegree mol aid2 in
  let n13 := (deg * (deg - 1) / 2)%nat in
  if (n13 =? visited loc aid2)%nat then
    (* we are done with this atom *)
    ret loc
  else if (1 <=? visited loc aid2)%nat then
    forBondPairs mol aid2 (set13Bounds_ringAtomPair mol atom deg n13) loc
  else
    forBondPairs mol aid2 (set13Bounds_chainAtomPair mol atom deg) loc.

Definition set13Bounds (mol : ROMol) : M unit :=
  npt <- gets (fun st => numRows (mmat st)) ;;
  CHECK_INVARIANT (npt =? getNumAtoms mol)%nat "Wrong size metric matrix" ;;
  CHECK_INVARIANT (isInitialized (ringInfo mol)) "RingInfo not initialized" ;;
  let atomRings := sortBySize (atomRings (ringInfo mol)) in
  let loc0 := {| visited := fun _ => 0%nat; angleTaken := fun _ => 0;
                 donePaths13 := [] |} in
  (* first deal with all rings and atoms in them *)
  loc <- foldM (set13Bounds_ring mol) atomRings loc0 ;;
  (* now deal with the remaining atoms *)
  loc <- foldM (set13Bounds_atom mol) (seq 0 npt) loc ;;
  ret tt.

(** ** Pass 3: 1-4 bounds *)

Definition flipStereo (stype : BondStereo) : BondStereo :=
  match stype with
  | STEREOZ => STEREOE
  | STEREOE => STEREOZ
  | STEREOCIS => STEREOTRANS
  | STEREOTRANS => STEREOCIS
  | _ => stype
  end.

(** [static_cast<unsigned int>(stAtoms[k]) != aid]. *)
Definition stereoAtomDiffers (stAtoms : list Z) (k : nat) (aid : nat) : bool :=
  negb ((nth k stAtoms 0%Z mod 4294967296)%Z =? Z.of_nat aid)%Z.

Definition _getAtomStereo (bnd : Bond) (aid1 aid4 : nat) : BondStereo :=
  let stype := stereo bnd in
  if (stereoRank STEREOANY <? stereoRank stype)%nat
     && (2 <=? List.length (stereoAtoms bnd))%nat
  then
    let stAtoms := stereoAtoms bnd in
    if xorb (stereoAtomDiffers stAtoms 0 aid1) (stereoAtomDiffers stAtoms 1 aid4)
    then flipStereo stype
    else stype
  else stype.

(** The entry of the distance matrix for the two ends of a path. *)
Definition dmatEnds (dmat : N -> Q) (npt aidA aidB : nat) : Q :=
  dmat (flatIdx (Nat.max aidA aidB) npt (Nat.min aidA aidB)).

(** The head that the 1-4 routines share: the two middle atoms from the
    adjacency table and the two end atoms. *)
Definition path14Atoms (mol : ROMol) (bnd1 bnd2 bnd3 : Bond)
  : M (Atom * Atom * nat * nat) :=
  accum <- getAccum ;;
  atm2 <- liftR (getAtomWithIdxZ mol (bondAdj accum (bondIdx bnd1) (bondIdx bnd2))) ;;
  atm3 <- liftR (getAtomWithIdxZ mol (bondAdj accum (bondIdx bnd2) (bondIdx bnd3))) ;;
  aid1 <- liftR (getOtherAtomIdx bnd1 (atomIdx atm2)) ;;
  aid4 <- liftR (getOtherAtomIdx bnd3 (atomIdx atm3)) ;;
  ret (atm2, atm3, aid1, aid4).

Definition mkPath14 (bnd1 bnd2 bnd3 : Bond) (t : Path14Type)
  : Path14Configuration :=
  {| bid1 := bondIdx bnd1; bid2 := bondIdx bnd2; bid3 := bondIdx bnd3;
     type := t |}.

(** [if (du < dl) swap; if (fabs(du - dl) < DIST12_DELTA) widen]. *)
Definition orderBounds (dl du : Q) : Q * Q :=
  if Qltb du dl then (du, dl) else (dl, du).

Definition widenBounds (dl du : Q) : Q * Q :=
  if Qltb (Qabs (du - dl)) DIST12_DELTA
  then (dl - GEN_DIST_TOL, du + GEN_DIST_TOL)
  else (dl, du).

Definition _setInRing14Bounds (mol : ROMol) (bnd1 bnd2 bnd3 : Bond)
    (dmat : N -> Q) (ringSize : nat) : M unit :=
  '(atm2, atm3, aid1, aid4) <- path14Atoms mol bnd1 bnd2 bnd3 ;;
  let ahyb2 := hybridization atm2 in
  let ahyb3 := hybridization atm3 in
  let bid1 := bondIdx bnd1 in
  let bid2 := bondIdx bnd2 in
  let bid3 := bondIdx bnd3 in
  npt <- gets (fun st => numRows (mmat st)) ;;
  (* check that this actually is a 1-4 contact: *)
  if Qltb (dmatEnds dmat npt aid1 aid4) 2.9 then ret tt
  else
    accum <- getAccum ;;
    let bl1 := bondLength accum bid1 in
    let bl2 := bondLength accum bid2 in
    let bl3 := bondLength accum bid3 in
    let ba12 := bondAngles accum bid1 bid2 in
    let ba23 := bondAngles accum bid2 bid3 in
    CHECK_INVARIANT (Qltb 0 ba12) "" ;;
    CHECK_INVARIANT (Qltb 0 ba23) "" ;;
    let nb := getNumBonds mol in
    let stype := _getAtomStereo bnd2 aid1 aid4 in
    let preferCis :=
      if (ringSize <=? 8)%nat && hyb_eqb ahyb2 SP2 && hyb_eqb ahyb3 SP2
         && negb (stereo_eqb stype STEREOE)
         && negb (stereo_eqb stype STEREOTRANS)
      then
        (* the ring check here was a big part of github #697 *)
        if (1 <? numBondRings mol bid2)%nat then
          if (numBondRings mol bid1 =? 1)%nat && (numBondRings mol bid3 =? 1)%nat
          then
            match find (memb bid1) (bondRings (ringInfo mol)) with
            | Some br => memb bid3 br
            | None => false
            end
          else false
        else true
      else stereo_eqb stype STEREOZ || stereo_eqb stype STEREOCIS in
    let preferTrans :=
      if (ringSize <=? 8)%nat && hyb_eqb ahyb2 SP2 && hyb_eqb ahyb3 SP2
         && negb (stereo_eqb stype STEREOE)
         && negb (stereo_eqb stype STEREOTRANS)
      then false
      else if stereo_eqb stype STEREOZ || stereo_eqb stype STEREOCIS then false
      else stereo_eqb stype STEREOE || stereo_eqb stype STEREOTRANS in
    if preferCis then
      let dl := compute14DistCis O bl1 bl2 bl3 ba12 ba23 - GEN_DIST_TOL in
      let du := dl + 2 * GEN_DIST_TOL in
      insertCisPath nb bid1 bid2 bid3 ;;
      call_checkAndSetBounds aid1 aid4 dl du ;;
      push_path14 (mkPath14 bnd1 bnd2 bnd3 CIS)
    else if preferTrans then
      let dl := compute14DistTrans O bl1 bl2 bl3 ba12 ba23 - GEN_DIST_TOL in
      let du := dl + 2 * GEN_DIST_TOL in
      insertTransPath nb bid1 bid2 bid3 ;;
      call_checkAndSetBounds aid1 aid4 dl du ;;
      push_path14 (mkPath14 bnd1 bnd2 bnd3 TRANS)
    else
      (* basically we will assume 0 to 180 allowed *)
      let dl := compute14DistCis O bl1 bl2 bl3 ba12 ba23 in
      let du := compute14DistTrans O bl1 bl2 bl3 ba12 ba23 in
      let '(dl, du) := orderBounds dl du in
      let '(dl, du) := widenBounds dl du in
      call_checkAndSetBounds aid1 aid4 dl du ;;
      push_path14 (mkPath14 bnd1 bnd2 bnd3 OTHER).

Definition _setTwoInSameRing14Bounds (mol : ROMol) (bnd1 bnd2 bnd3 : Bond)
    (dmat : N -> Q) : M unit :=
  '(atm2, atm3, aid1, aid4) <- path14Atoms mol bnd1 bnd2 bnd3 ;;
  let bid1 := bondIdx bnd1 in
  let bid2 := bondIdx bnd2 in
  let bid3 := bondIdx bnd3 in
  npt <- gets (fun st => numRows (mmat st)) ;;
  (* check that this actually is a 1-4 contact: *)
  if Qltb (dmatEnds dmat npt aid1 aid4) 2.9 then ret tt
  (* when we have fused rings, it can happen that this isn't actually a 1-4
     contact, (this was the cause of sf.net bug 2835784) check that now: *)
  else if isSome (getBondBetweenAtoms mol aid1 (atomIdx atm3))
          || isSome (getBondBetweenAtoms mol aid4 (atomIdx atm2))
  then ret tt
  else
    let ahyb3 := hybridization atm3 in
    let ahyb2 := hybridization atm2 in
    accum <- getAccum ;;
    let bl1 := bondLength accum bid1 in
    let bl2 := bondLength accum bid2 in
    let bl3 := bondLength accum bid3 in
    let ba12 := bondAngles accum bid1 bid2 in
    let ba23 := bondAngles accum bid2 bid3 in
    CHECK_INVARIANT (Qltb 0 ba12) "" ;;
    CHECK_INVARIANT (Qltb 0 ba23) "" ;;
    let nb := getNumBonds mol in
    if hyb_eqb ahyb2 SP2 && hyb_eqb ahyb3 SP2 then
      (* here we will assume 180 degrees: basically flat ring with an
         external substituent *)
      let dl := compute14DistTrans O bl1 bl2 bl3 ba12 ba23 in
      let du := dl in
      let dl := dl - GEN_DIST_TOL in
      let du := du + GEN_DIST_TOL in
      insertTransPath nb bid1 bid2 bid3 ;;
      call_checkAndSetBounds aid1 aid4 dl du ;;
      push_path14 (mkPath14 bnd1 bnd2 bnd3 TRANS)
    else
      (* here we will assume anything is possible *)
      let dl := compute14DistCis O bl1 bl2 bl3 ba12 ba23 in
      let du := compute14DistTrans O bl1 bl2 bl3 ba12 ba23 in
      (* in highly-strained situations these can get mixed up: *)
      let '(dl, du) := orderBounds dl du in
      let '(dl, du) := widenBounds dl du in
      call_checkAndSetBounds aid1 aid4 dl du ;;
      push_path14 (mkPath14 bnd1 bnd2 bnd3 OTHER).

Definition _setTwoInDiffRing14Bounds (mol : ROMol) (bnd1 bnd2 bnd3 : Bond)
    (dmat : N -> Q) : M unit :=
  _setInRing14Bounds mol bnd1 bnd2 bnd3 dmat 0.

Definition _setShareRingBond14Bounds (mol : ROMol) (bnd1 bnd2 bnd3 : Bond)
    (dmat : N -> Q) : M unit :=
  _setInRing14Bounds mol bnd1 bnd2 bnd3 dmat 0.

(** CH2, OX2 or NX3H1.  No routine of the file calls this test or the next
    one. *)
Definition _checkH2NX3H1OX2 (mol : ROMol) (atm : Atom) : bool :=
  if (atomicNum atm =? 6)%nat && (totalNumHs atm =? 2)%nat then true
  else if (atomicNum atm =? 8)%nat && (totalNumHs atm =? 0)%nat then true
  else if (atomicNum atm =? 7)%nat && (getDegree mol (atomIdx atm) =? 3)%nat
          && (totalNumHs atm =? 1)%nat
  then true
  else false.

Definition _checkNhChChNh (mol : ROMol) (atm1 atm2 atm3 atm4 : Atom) : bool :=
  if negb (atomicNum atm1 =? 1)%nat && negb (atomicNum atm4 =? 1)%nat then
    (* end atom not hydrogens *)
    if _checkH2NX3H1OX2 mol atm2 && _checkH2NX3H1OX2 mol atm3 then true
    else false
  else false.

(** The first parameter of type [const Atom *] is unnamed in the source. *)
Definition _checkAmideEster14 (bnd1 bnd3 : Bond) (_ atm2 atm3 atm4 : Atom)
  : bool :=
  let a2Num := atomicNum atm2 in
  let a3Num := atomicNum atm3 in
  let a4Num := atomicNum atm4 in
  (a3Num =? 6)%nat && bt_eqb (bondType bnd3) DOUBLE
  && ((a4Num =? 8)%nat || (a4Num =? 7)%nat) && bt_eqb (bondType bnd1) SINGLE
  && ((a2Num =? 8)%nat || ((a2Num =? 7)%nat && (totalNumHs atm2 =? 1)%nat)).

(** The neighbours of an atom, in the order of its bonds. *)
Definition atomNeighbors (mol : ROMol) (a : nat) : list nat :=
  map (fun b => if (beginAtomIdx b =? a)%nat then endAtomIdx b
                else beginAtomIdx b)
      (atomBonds mol a).

(** The first neighbour of [a] other than [x] and [y], if any, with the bond
    to it: what the two loops of the macrocycle amide test stop at. *)
Definition firstOtherNeighbor (mol : ROMol) (a x y : nat)
  : option (nat * option Atom * option Bond) :=
  match find (fun n => negb (n =? x)%nat && negb (n =? y)%nat)
             (atomNeighbors mol a) with
  | Some n => Some (n, nth_error (atoms mol) n, getBondBetweenAtoms mol a n)
  | None => None
  end.

(** The two bond parameters are unnamed in the source.  The neighbour and
    the bond to it exist in a molecular graph; where the tables of the model
    lack them the test fails. *)
Definition _checkMacrocycleAllInSameRingAmideEster14 (mol : ROMol)
    (_ _ : Bond) (atm1 atm2 atm3 atm4 : Atom) : bool :=
  let a2Num := atomicNum atm2 in
  let a3Num := atomicNum atm3 in
  if negb (a3Num =? 6)%nat then false
  else if (a2Num =? 7)%nat || (a2Num =? 8)%nat then
    if (getDegree mol (atomIdx atm2) =? 3)%nat
       && (getDegree mol (atomIdx atm3) =? 3)%nat
    then
      let ok2 :=
        match firstOtherNeighbor mol (atomIdx atm2) (atomIdx atm1) (atomIdx atm3) with
        | Some (_, Some res, Some resbnd) =>
            (* check is (methylated)amide *)
            negb ((negb (atomicNum res =? 6)%nat && negb (atomicNum res =? 1)%nat)
                  || negb (bt_eqb (bondType resbnd) SINGLE))
        | Some _ => false
        | None => true
        end in
      let ok3 :=
        match firstOtherNeighbor mol (atomIdx atm3) (atomIdx atm2) (atomIdx atm4) with
        | Some (_, Some res, Some resbnd) =>
            (* check for the carbonyl oxygen *)
            negb (negb (atomicNum res =? 8)%nat
                  || negb (bt_eqb (bondType resbnd) DOUBLE))
        | Some _ => false
        | None => true
        end in
      ok2 && ok3
    else false
  else false.

Definition _isCarbonyl (mol : ROMol) (at_ : Atom) : bool :=
  if (atomicNum at_ =? 6)%nat && (2 <? getDegree mol (atomIdx at_))%nat then
    existsb
      (fun n =>
         match nth_error (atoms mol) n, getBondBetweenAtoms mol (atomIdx at_) n with
         | Some nbr, Some b =>
             ((atomicNum nbr =? 8)%nat || (atomicNum nbr =? 7)%nat)
             && bt_eqb (bondType b) DOUBLE
         | _, _ => false
         end)
      (atomNeighbors mol (atomIdx at_))
  else false.

Definition _checkAmideEster15 (mol : ROMol) (bnd1 bnd3 : Bond)
    (_ atm2 atm3 _ : Atom) : bool :=
  let a2Num := atomicNum atm2 in
  if (a2Num =? 8)%nat || ((a2Num =? 7)%nat && (totalNumHs atm2 =? 1)%nat) then
    if bt_eqb (bondType bnd1) SINGLE then
      (atomicNum atm3 =? 6)%nat && bt_eqb (bondType bnd3) SINGLE
      && _isCarbonyl mol atm3
    else false
  else false.

(** [atm->getAtomicNum() == 1 && nbr->getAtomicNum() == 7 &&
    nbr->getDegree() == 3 && nbr->getTotalNumHs(true) == 1]: the hydrogen of
    a secondary amide. *)
Definition isSecondaryAmideH (mol : ROMol) (atm nbr : Atom) : bool :=
  (atomicNum atm =? 1)%nat && (atomicNum nbr =? 7)%nat
  && (getDegree mol (atomIdx nbr) =? 3)%nat && (totalNumHs nbr =? 1)%nat.

(** The tail of [_setChain14Bounds] and of
    [_setMacrocycleAllInSameRing14Bounds]. *)
Definition finish14 (bnd1 bnd2 bnd3 : Bond) (aid1 aid4 : nat)
    (r : Q * Q * Path14Type * bool) : M unit :=
  let '(dl, du, t, setTheBound) := r in
  if setTheBound then
    let '(dl, du) := widenBounds dl du in
    call_checkAndSetBounds aid1 aid4 dl du ;;
    push_path14 (mkPath14 bnd1 bnd2 bnd3 t)
  else ret tt.

(** The last parameter of type [double *] is unnamed in the source. *)
Definition _setChain14Bounds (mol : ROMol) (bnd1 bnd2 bnd3 : Bond)
    (_ : N -> Q) (forceTransAmides : bool) : M unit :=
  '(atm2, atm3, aid1, aid4) <- path14Atoms mol bnd1 bnd2 bnd3 ;;
  let bid1 := bondIdx bnd1 in
  let bid2 := bondIdx bnd2 in
  let bid3 := bondIdx bnd3 in
  atm1 <- liftR (getAtomWithIdx mol aid1) ;;
  atm4 <- liftR (getAtomWithIdx mol aid4) ;;
  accum <- getAccum ;;
  let bl1 := bondLength accum bid1 in
  let bl2 := bondLength accum bid2 in
  let bl3 := bondLength accum bid3 in
  let ba12 := bondAngles accum bid1 bid2 in
  let ba23 := bondAngles accum bid2 bid3 in
  CHECK_INVARIANT (Qltb 0 ba12) "" ;;
  CHECK_INVARIANT (Qltb 0 ba23) "" ;;
  let nb := getNumBonds mol in
  let cis := compute14DistCis O bl1 bl2 bl3 ba12 ba23 in
  let trans := compute14DistTrans O bl1 bl2 bl3 ba12 ba23 in
  r <- match bondType bnd2 with
       | DOUBLE =>
           (* if any of the other bonds are double - the torsion angle is
              zero; this is CC=C=C situation *)
           if bt_eqb (bondType bnd1) DOUBLE || bt_eqb (bondType bnd3) DOUBLE
           then
             let dl := cis - GEN_DIST_TOL in
             let du := dl + 2 * GEN_DIST_TOL in
             insertCisPath nb bid1 bid2 bid3 ;;
             ret (dl, du, CIS, true)
           else if (stereoRank STEREOANY <? stereoRank (stereo bnd2))%nat then
             let stype := _getAtomStereo bnd2 aid1 aid4 in
             if stereo_eqb stype STEREOZ || stereo_eqb stype STEREOCIS then
               let dl := cis - GEN_DIST_TOL in
               let du := dl + 2 * GEN_DIST_TOL in
               insertCisPath nb bid1 bid2 bid3 ;;
               ret (dl, du, CIS, true)
             else
               let du := trans in
               let dl := du in
               let dl := dl - GEN_DIST_TOL in
               let du := du + GEN_DIST_TOL in
               insertTransPath nb bid1 bid2 bid3 ;;
               ret (dl, du, TRANS, true)
           else
             (* double bond with no stereo setting can be 0 or 180 *)
             let '(dl, du) := widenBounds cis trans in
             ret (dl, du, OTHER, true)
       | SINGLE =>
           if (atomicNum atm2 =? 16)%nat && (atomicNum atm3 =? 16)%nat then
             (* this is *S-S* situation; the torsion angle is 90 deg *)
             let dl := compute14Dist3D O bl1 bl2 bl3 ba12 ba23 (M_PI / 2)
                       - GEN_DIST_TOL in
             let du := dl + 2 * GEN_DIST_TOL in
             ret (dl, du, OTHER, true)
           else if _checkAmideEster14 bnd1 bnd3 atm1 atm2 atm3 atm4
                   || _checkAmideEster14 bnd3 bnd1 atm4 atm3 atm2 atm1 then
             (* It's an amide or ester: here we set the distance between
                atoms 1 and 4 *)
             if forceTransAmides then
               if isSecondaryAmideH mol atm1 atm2 || isSecondaryAmideH mol atm4 atm3
               then
                 (* secondary amide, this is the H, it should be trans to
                    the O *)
                 let dl := trans in
                 insertTransPath nb bid1 bid2 bid3 ;;
                 let du := dl in
                 ret (dl - GEN_DIST_TOL, du + GEN_DIST_TOL, TRANS, true)
               else
                 let dl := cis in
                 insertCisPath nb bid1 bid2 bid3 ;;
                 let du := dl in
                 ret (dl - GEN_DIST_TOL, du + GEN_DIST_TOL, CIS, true)
             else ret (cis, trans, OTHER, true)
           else if _checkAmideEster15 mol bnd1 bnd3 atm1 atm2 atm3 atm4
                   || _checkAmideEster15 mol bnd3 bnd1 atm4 atm3 atm2 atm1 then
             (* we already set the 1-4 contact above, here we are doing 1-5 *)
             if forceTransAmides then
               if isSecondaryAmideH mol atm1 atm2 || isSecondaryAmideH mol atm4 atm3
               then
                 (* secondary amide, this is the H, it's cis to atom 5 *)
                 let dl := cis in
                 insertCisPath nb bid1 bid2 bid3 ;;
                 let du := dl in
                 ret (dl - GEN_DIST_TOL, du + GEN_DIST_TOL, CIS, true)
               else
                 let dl := trans in
                 insertTransPath nb bid1 bid2 bid3 ;;
                 let du := dl in
                 ret (dl - GEN_DIST_TOL, du + GEN_DIST_TOL, TRANS, true)
             else ret (cis, trans, OTHER, true)
           else ret (cis, trans, OTHER, true)
       | _ => ret (cis, trans, OTHER, true)
       end ;;
  finish14 bnd1 bnd2 bnd3 aid1 aid4 r.

Definition _record14Path (mol : ROMol) (bid1 bid2 bid3 : nat) : M unit :=
  accum <- getAccum ;;
  atm2 <- liftR (getAtomWithIdxZ mol (bondAdj accum bid1 bid2)) ;;
  let ahyb2 := hybridization atm2 in
  atm3 <- liftR (getAtomWithIdxZ mol (bondAdj accum bid2 bid3)) ;;
  let ahyb3 := hybridization atm3 in
  let nb := getNumBonds mol in
  if hyb_eqb ahyb2 SP2 && hyb_eqb ahyb3 SP2 then
    insertCisPath nb bid1 bid2 bid3 ;;
    push_path14 {| bid1 := bid1; bid2 := bid2; bid3 := bid3; type := CIS |}
  else
    push_path14 {| bid1 := bid1; bid2 := bid2; bid3 := bid3; type := OTHER |}.

Definition _checkMacrocycleTwoInSameRingAmideEster14 (bnd1 bnd3 : Bond)
    (atm1 atm2 atm3 atm4 : Atom) : bool :=
  let a1Num := atomicNum atm1 in
  let a2Num := atomicNum atm2 in
  let a3Num := atomicNum atm3 in
  let a4Num := atomicNum atm4 in
  negb (a1Num =? 1)%nat && (a3Num =? 6)%nat && bt_eqb (bondType bnd3) DOUBLE
  && ((a4Num =? 8)%nat || (a4Num =? 7)%nat) && bt_eqb (bondType bnd1) SINGLE
  && ((a2Num =? 8)%nat || (a2Num =? 7)%nat).

Definition _setMacrocycleTwoInSameRing14Bounds (mol : ROMol)
    (bnd1 bnd2 bnd3 : Bond) (dmat : N -> Q) : M unit :=
  '(atm2, atm3, aid1, aid4) <- path14Atoms mol bnd1 bnd2 bnd3 ;;
  let bid1 := bondIdx bnd1 in
  let bid2 := bondIdx bnd2 in
  let bid3 := bondIdx bnd3 in
  atm1 <- liftR (getAtomWithIdx mol aid1) ;;
  atm4 <- liftR (getAtomWithIdx mol aid4) ;;
  npt <- gets (fun st => numRows (mmat st)) ;;
  (* check that this actually is a 1-4 contact: *)
  if Qltb (dmatEnds dmat npt aid1 aid4) 2.9 then ret tt
  (* when we have fused rings, it can happen that this isn't actually a 1-4
     contact, (this was the cause of sf.net bug 2835784) check that now: *)
  else if isSome (getBondBetweenAtoms mol aid1 (atomIdx atm3))
          || isSome (getBondBetweenAtoms mol aid4 (atomIdx atm2))
  then ret tt
  else
    accum <- getAccum ;;
    let bl1 := bondLength accum bid1 in
    let bl2 := bondLength accum bid2 in
    let bl3 := bondLength accum bid3 in
    let ba12 := bondAngles accum bid1 bid2 in
    let ba23 := bondAngles accum bid2 bid3 in
    CHECK_INVARIANT (Qltb 0 ba12) "" ;;
    CHECK_INVARIANT (Qltb 0 ba23) "" ;;
    let nb := getNumBonds mol in
    if _checkMacrocycleTwoInSameRingAmideEster14 bnd1 bnd3 atm1 atm2 atm3 atm4
       || _checkMacrocycleTwoInSameRingAmideEster14 bnd3 bnd1 atm4 atm3 atm2 atm1
    then
      let dl := compute14DistCis O bl1 bl2 bl3 ba12 ba23 in
      insertCisPath nb bid1 bid2 bid3 ;;
      let du := dl in
      let dl := dl - GEN_DIST_TOL in
      let du := du + GEN_DIST_TOL in
      call_checkAndSetBounds aid1 aid4 dl du ;;
      push_path14 (mkPath14 bnd1 bnd2 bnd3 CIS)
    else
      (* here we will assume anything is possible *)
      let dl := compute14DistCis O bl1 bl2 bl3 ba12 ba23 in
      let du := compute14DistTrans O bl1 bl2 bl3 ba12 ba23 in
      (* in highly-strained situations these can get mixed up: *)
      let '(dl, du) := orderBounds dl du in
      let '(dl, du) := widenBounds dl du in
      call_checkAndSetBounds aid1 aid4 dl du ;;
      push_path14 (mkPath14 bnd1 bnd2 bnd3 OTHER).

(** The compile-time switch of the macrocycle 1-5 amide partner; the file
    does not define it. *)
Definition FORCE_TRANS_AMIDES : bool := false.

(** The last parameter of type [double *] is unnamed in the source. *)
Definition _setMacrocycleAllInSameRing14Bounds (mol : ROMol)
    (bnd1 bnd2 bnd3 : Bond) (_ : N -> Q) : M unit :=
  '(atm2, atm3, aid1, aid4) <- path14Atoms mol bnd1 bnd2 bnd3 ;;
  let bid1 := bondIdx bnd1 in
  let bid2 := bondIdx bnd2 in
  let bid3 := bondIdx bnd3 in
  atm1 <- liftR (getAtomWithIdx mol aid1) ;;
  atm4 <- liftR (getAtomWithIdx mol aid4) ;;
  accum <- getAccum ;;
  let bl1 := bondLength accum bid1 in
  let bl2 := bondLength accum bid2 in
  let bl3 := bondLength accum bid3 in
  let ba12 := bondAngles accum bid1 bid2 in
  let ba23 := bondAngles accum bid2 bid3 in
  CHECK_INVARIANT (Qltb 0 ba12) "" ;;
  CHECK_INVARIANT (Qltb 0 ba23) "" ;;
  let nb := getNumBonds mol in
  let cis := compute14DistCis O bl1 bl2 bl3 ba12 ba23 in
  let trans := compute14DistTrans O bl1 bl2 bl3 ba12 ba23 in
  r <- match bondType bnd2 with
       | DOUBLE =>
           if bt_eqb (bondType bnd1) DOUBLE || bt_eqb (bondType bnd3) DOUBLE
           then
             let dl := cis - GEN_DIST_TOL in
             let du := dl + 2 * GEN_DIST_TOL in
             insertCisPath nb bid1 bid2 bid3 ;;
             ret (dl, du, CIS, true)
           else if (stereoRank STEREOANY <? stereoRank (stereo bnd2))%nat then
             let stype := _getAtomStereo bnd2 aid1 aid4 in
             if stereo_eqb stype STEREOZ || stereo_eqb stype STEREOCIS then
               let dl := cis - GEN_DIST_TOL in
               let du := dl + 2 * GEN_DIST_TOL in
               insertCisPath nb bid1 bid2 bid3 ;;
               ret (dl, du, CIS, true)
             else
               let du := trans in
               let dl := du in
               let dl := dl - GEN_DIST_TOL in
               let du := du + GEN_DIST_TOL in
               insertTransPath nb bid1 bid2 bid3 ;;
               ret (dl, du, TRANS, true)
           else
             let '(dl, du) := widenBounds cis trans in
             ret (dl, du, OTHER, true)
       | SINGLE =>
           if (atomicNum atm2 =? 16)%nat && (atomicNum atm3 =? 16)%nat then
             let dl := compute14Dist3D O bl1 bl2 bl3 ba12 ba23 (M_PI / 2)
                       - GEN_DIST_TOL in
             let du := dl + 2 * GEN_DIST_TOL in
             ret (dl, du, OTHER, true)
           else if _checkMacrocycleAllInSameRingAmideEster14
                     mol bnd1 bnd3 atm1 atm2 atm3 atm4
                   || _checkMacrocycleAllInSameRingAmideEster14
                        mol bnd3 bnd1 atm4 atm3 atm2 atm1 then
             (* the currently defined max distance for trans is still a bit
                too short, thus we add an additional 0.1 *)
             let dl := trans + 0.1 in
             insertTransPath nb bid1 bid2 bid3 ;;
             let du := dl in
             ret (dl - GEN_DIST_TOL, du + GEN_DIST_TOL, TRANS, true)
           else if _checkAmideEster15 mol bnd1 bnd3 atm1 atm2 atm3 atm4
                   || _checkAmideEster15 mol bnd3 bnd1 atm4 atm3 atm2 atm1 then
             if FORCE_TRANS_AMIDES then
               (* amide is trans, we're cis: *)
               let dl := cis in
               insertCisPath nb bid1 bid2 bid3 ;;
               let du := dl in
               ret (dl - GEN_DIST_TOL, du + GEN_DIST_TOL, CIS, true)
             else
               (* amide is cis, we're trans: *)
               if (atomicNum atm2 =? 7)%nat
                  && (getDegree mol (atomIdx atm2) =? 3)%nat
                  && (atomicNum atm1 =? 1)%nat && (totalNumHs atm2 =? 1)%nat
               then
                 (* secondary amide, this is the H *)
                 let dl := 0 in
                 let du := dl in
                 ret (dl - GEN_DIST_TOL, du + GEN_DIST_TOL, OTHER, false)
               else
                 let dl := trans in
                 insertTransPath nb bid1 bid2 bid3 ;;
                 let du := dl in
                 ret (dl - GEN_DIST_TOL, du + GEN_DIST_TOL, TRANS, true)
           else ret (cis, trans, OTHER, true)
       | _ => ret (cis, trans, OTHER, true)
       end ;;
  finish14 bnd1 bnd2 bnd3 aid1 aid4 r.

(** The locals of [set14Bounds] that its first loop fills. *)
Record Locals14 : Type := {
  bidIsMacrocycle : list nat;
  ringBondPairs : list N;
  donePaths14 : list N
}.

(** One step of the walk around a bond ring: [st] carries [bid1] and the
    locals. *)
Definition set14Bounds_ringStep (mol : ROMol) (distMatrix : N -> Q)
    (useMacrocycle14config : bool) (bring : list nat)
    (st : nat * Locals14) (i : nat) : M (nat * Locals14) :=
  let '(bid1, loc) := st in
  let rSize := List.length bring in
  let nb := getNumBonds mol in
  let bid2 := nth i bring 0%nat in
  let bid3 := nth ((i + 1) mod rSize) bring 0%nat in
  let pid1 := pairKey64 nb bid1 bid2 in
  let pid2 := pairKey64 nb bid2 bid1 in
  let id1 := pathKey64 nb bid1 bid2 bid3 in
  let id2 := pathKey64 nb bid3 bid2 bid1 in
  let loc1 := {| bidIsMacrocycle := bidIsMacrocycle loc;
                 ringBondPairs := pid2 :: pid1 :: ringBondPairs loc;
                 donePaths14 := id2 :: id1 :: donePaths14 loc |} in
  if (5 <? rSize)%nat then
    if useMacrocycle14config && (minMacrocycleRingSize <=? rSize)%nat then
      bnd1 <- liftR (getBondWithIdx mol bid1) ;;
      bnd2 <- liftR (getBondWithIdx mol bid2) ;;
      bnd3 <- liftR (getBondWithIdx mol bid3) ;;
      _setMacrocycleAllInSameRing14Bounds mol bnd1 bnd2 bnd3 distMatrix ;;
      ret (bid2, {| bidIsMacrocycle := bid2 :: bidIsMacrocycle loc1;
                    ringBondPairs := ringBondPairs loc1;
                    donePaths14 := donePaths14 loc1 |})
    else
      bnd1 <- liftR (getBondWithIdx mol bid1) ;;
      bnd2 <- liftR (getBondWithIdx mol bid2) ;;
      bnd3 <- liftR (getBondWithIdx mol bid3) ;;
      _setInRing14Bounds mol bnd1 bnd2 bnd3 distMatrix rSize ;;
      ret (bid2, loc1)
  else
    _record14Path mol bid1 bid2 bid3 ;;
    ret (bid2, loc1).

Definition set14Bounds_ring (mol : ROMol) (distMatrix : N -> Q)
    (useMacrocycle14config : bool) (loc : Locals14) (bring : list nat)
  : M Locals14 :=
  let rSize := List.length bring in
  if (rSize <? 3)%nat then
    ret loc  (* rings with less than 3 bonds are not useful *)
  else
    let bid1 := nth (rSize - 1) bring 0%nat in
    r <- foldM (set14Bounds_ringStep mol distMatrix useMacrocycle14config bring)
               (seq 0 rSize) (bid1, loc) ;;
    ret (snd r).

(** The body of the innermost loop of the second part of [set14Bounds]. *)
Definition set14Bounds_path (mol : ROMol) (distMatrix : N -> Q)
    (useMacrocycle14config forceTransAmides : bool) (loc : Locals14)
    (bnd1 bond bnd3 : Bond) : M unit :=
  let nb := getNumBonds mol in
  let bid1 := bondIdx bnd1 in
  let bid2 := bondIdx bond in
  let bid3 := bondIdx bnd3 in
  let id1 := pathKey64 nb bid1 bid2 bid3 in
  let id2 := pathKey64 nb bid3 bid2 bid1 in
  if negb (membN id1 (donePaths14 loc)) && negb (membN id2 (donePaths14 loc))
  then
    (* we haven't dealt with this path before *)
    let pid1 := pairKey64 nb bid1 bid2 in
    let pid2 := pairKey64 nb bid2 bid1 in
    let pid3 := pairKey64 nb bid2 bid3 in
    let pid4 := pairKey64 nb bid3 bid2 in
    if membN pid1 (ringBondPairs loc) || membN pid2 (ringBondPairs loc)
       || membN pid3 (ringBondPairs loc) || membN pid4 (ringBondPairs loc)
    then
      (* either (bid1, bid2) or (bid2, bid3) are in the same ring *)
      if useMacrocycle14config && memb bid2 (bidIsMacrocycle loc) then
        _setMacrocycleTwoInSameRing14Bounds mol bnd1 bond bnd3 distMatrix
      else
        _setTwoInSameRing14Bounds mol bnd1 bond bnd3 distMatrix
    else if ((0 <? numBondRings mol bid1)%nat && (0 <? numBondRings mol bid2)%nat)
            || ((0 <? numBondRings mol bid2)%nat && (0 <? numBondRings mol bid3)%nat)
    then
      (* (bid1, bid2) or (bid2, bid3) are ring bonds but belong to different
         rings *)
      _setTwoInDiffRing14Bounds mol bnd1 bond bnd3 distMatrix
    else if (0 <? numBondRings mol bid2)%nat then
      (* the middle bond is a ring bond and the other two do not belong to
         the same ring or are non-ring bonds *)
      _setShareRingBond14Bounds mol bnd1 bond bnd3 distMatrix
    else
      (* middle bond not a ring *)
      _setChain14Bounds mol bnd1 bond bnd3 distMatrix forceTransAmides
  else ret tt.

(** The body of the loop over the bonds, each taken as the middle bond. *)
Definition set14Bounds_bond (mol : ROMol) (distMatrix : N -> Q)
    (useMacrocycle14config forceTransAmides : bool) (loc : Locals14)
    (bond : Bond) : M unit :=
  let bid2 := bondIdx bond in
  let aid2 := beginAtomIdx bond in
  let aid3 := endAtomIdx bond in
  forM_ (atomBonds mol aid2) (fun bnd1 =>
    if negb (bondIdx bnd1 =? bid2)%nat then
      forM_ (atomBonds mol aid3) (fun bnd3 =>
        if negb (bondIdx bnd3 =? bid2)%nat then
          set14Bounds_path mol distMatrix useMacrocycle14config
                           forceTransAmides loc bnd1 bond bnd3
        else ret tt)
    else ret tt).

Definition set14Bounds (mol : ROMol) (distMatrix : N -> Q)
    (useMacrocycle14config forceTransAmides : bool) : M unit :=
  npt <- gets (fun st => numRows (mmat st)) ;;
  CHECK_INVARIANT (npt =? getNumAtoms mol)%nat "Wrong size metric matrix" ;;
  (* this is 2.6 million bonds, so it's extremly unlikely to ever occur, but
     we might as well check: *)
  if (MAX_NUM_BONDS <=? N.of_nat (getNumBonds mol))%N then
    throw (ValueErrorException
             "Too many bonds in the molecule, cannot compute 1-4 bounds")
  else
    CHECK_INVARIANT (isInitialized (ringInfo mol)) "RingInfo not initialized" ;;
    let bondRings := bondRings (ringInfo mol) in
    let loc0 := {| bidIsMacrocycle := []; ringBondPairs := [];
                   donePaths14 := [] |} in
    (* first we will deal with 1-4 atoms that belong to the same ring *)
    loc <- foldM (set14Bounds_ring mol distMatrix useMacrocycle14config)
                 bondRings loc0 ;;
    forM_ (bonds mol)
          (set14Bounds_bond mol distMatrix useMacrocycle14config
                            forceTransAmides loc).

(** ** Pass 4: 1-5 bounds *)

Definition clampCos (cval : Q) : Q :=
  if Qltb 1 cval then 1 else if Qltb cval (-1) then -1 else cval.

Definition _compute15DistsCisCis (d1 d2 d3 d4 ang12 ang23 ang34 : Q) : Q :=
  let dx14 := d2 - d3 * cos O ang23 - d1 * cos O ang12 in
  let dy14 := d3 * sin O ang23 - d1 * sin O ang12 in
  let d14 := sqrt O (dx14 * dx14 + dy14 * dy14) in
  let cval := clampCos ((d3 - d2 * cos O ang23 + d1 * cos O (ang12 + ang23)) / d14) in
  let ang143 := acos O cval in
  let ang145 := ang34 - ang143 in
  compute13Dist O d14 d4 ang145.

Definition _compute15DistsCisTrans (d1 d2 d3 d4 ang12 ang23 ang34 : Q) : Q :=
  let dx14 := d2 - d3 * cos O ang23 - d1 * cos O ang12 in
  let dy14 := d3 * sin O ang23 - d1 * sin O ang12 in
  let d14 := sqrt O (dx14 * dx14 + dy14 * dy14) in
  let cval := clampCos ((d3 - d2 * cos O ang23 + d1 * cos O (ang12 + ang23)) / d14) in
  let ang143 := acos O cval in
  let ang145 := ang34 + ang143 in
  compute13Dist O d14 d4 ang145.

Definition _compute15DistsTransTrans (d1 d2 d3 d4 ang12 ang23 ang34 : Q) : Q :=
  let dx14 := d2 - d3 * cos O ang23 - d1 * cos O ang12 in
  let dy14 := d3 * sin O ang23 + d1 * sin O ang12 in
  let d14 := sqrt O (dx14 * dx14 + dy14 * dy14) in
  let cval := clampCos ((d3 - d2 * cos O ang23 + d1 * cos O (ang12 - ang23)) / d14) in
  let ang143 := acos O cval in
  let ang145 := ang34 + ang143 in
  compute13Dist O d14 d4 ang145.

Definition _compute15DistsTransCis (d1 d2 d3 d4 ang12 ang23 ang34 : Q) : Q :=
  let dx14 := d2 - d3 * cos O ang23 - d1 * cos O ang12 in
  let dy14 := d3 * sin O ang23 + d1 * sin O ang12 in
  let d14 := sqrt O (dx14 * dx14 + dy14 * dy14) in
  let cval := clampCos ((d3 - d2 * cos O ang23 + d1 * cos O (ang12 - ang23)) / d14) in
  let ang143 := acos O cval in
  let ang145 := ang34 - ang143 in
  compute13Dist O d14 d4 ang145.

(** An [int] entry of the adjacency table used as an atom index: a negative
    entry converts to an unsigned value that is no atom of any bond. *)
Definition adjAtom (z : Z) : M nat :=
  if (z <? 0)%Z then throw (Invariant "bad index") else ret (Z.to_nat z).

(** The bounds [_set15BoundsHelper] computes for one candidate: [dl] and
    [du] as they stand before [du < 0.0] is tested. *)
Definition bounds15 (accum : ComputedData) (t : Path14Type) (pathId : N)
    (d1 d2 d3 d4 ang12 ang23 ang34 vw1 vw5 : Q) : Q * Q :=
  let inCis := membN pathId (cisPaths accum) in
  let inTrans := membN pathId (transPaths accum) in
  match t with
  | CIS =>
      if inCis then
        let dl := _compute15DistsCisCis d1 d2 d3 d4 ang12 ang23 ang34 in
        (dl - DIST15_TOL, dl + DIST15_TOL)
      else if inTrans then
        let dl := _compute15DistsCisTrans d1 d2 d3 d4 ang12 ang23 ang34 in
        (dl - DIST15_TOL, dl + DIST15_TOL)
      else
        (_compute15DistsCisCis d1 d2 d3 d4 ang12 ang23 ang34 - DIST15_TOL,
         _compute15DistsCisTrans d1 d2 d3 d4 ang12 ang23 ang34 + DIST15_TOL)
  | TRANS =>
      if inCis then
        let dl := _compute15DistsTransCis d1 d2 d3 d4 ang12 ang23 ang34 in
        (dl - DIST15_TOL, dl + DIST15_TOL)
      else if inTrans then
        let dl := _compute15DistsTransTrans d1 d2 d3 d4 ang12 ang23 ang34 in
        (dl - DIST15_TOL, dl + DIST15_TOL)
      else
        (_compute15DistsTransCis d1 d2 d3 d4 ang12 ang23 ang34 - DIST15_TOL,
         _compute15DistsTransTrans d1 d2 d3 d4 ang12 ang23 ang34 + DIST15_TOL)
  | OTHER =>
      if inCis then
        (_compute15DistsCisCis d4 d3 d2 d1 ang34 ang23 ang12 - DIST15_TOL,
         _compute15DistsCisTrans d4 d3 d2 d1 ang34 ang23 ang12 + DIST15_TOL)
      else if inTrans then
        (_compute15DistsTransCis d4 d3 d2 d1 ang34 ang23 ang12 - DIST15_TOL,
         _compute15DistsTransTrans d4 d3 d2 d1 ang34 ang23 ang12 + DIST15_TOL)
      else
        (VDW_SCALE_15 * (vw1 + vw5), -1)
  end.

(** The body of the loop of [_set15BoundsHelper]: bond [i] as the fourth
    bond of the path. *)
Definition _set15BoundsHelper_bond (mol : ROMol) (bid1 bid2 bid3 : nat)
    (t : Path14Type) (dmat : N -> Q) (aid1 aid4 : nat)
    (d1 d2 d3 ang12 ang23 : Q) (i : nat) : M unit :=
  let nb := getNumBonds mol in
  let na := getNumAtoms mol in
  accum <- getAccum ;;
  if (bondAdj accum bid3 i =? Z.of_nat aid4)%Z then
    bi <- liftR (getBondWithIdx mol i) ;;
    aid5 <- liftR (getOtherAtomIdx bi aid4) ;;
    npt <- gets (fun st => numRows (mmat st)) ;;
    (* check that this actually is a 1-5 contact: *)
    if Qltb (dmatEnds dmat npt aid1 aid5) 3.9 then ret tt
    else if negb (aid1 =? aid5)%nat then
      let pid1 := flatIdx aid1 na aid5 in
      let pid2 := flatIdx aid5 na aid1 in
      m <- getMat ;;
      if Qltb (getLowerBound m aid1 aid5) DIST12_DELTA
         || membN pid1 (set15Atoms accum) || membN pid2 (set15Atoms accum)
      then
        let d4 := bondLength accum i in
        let ang34 := bondAngles accum bid3 i in
        let pathId := pathKey nb bid2 bid3 i in
        a1 <- liftR (getAtomWithIdx mol aid1) ;;
        a5 <- liftR (getAtomWithIdx mol aid5) ;;
        let vw1 := getRvdw O (atomicNum a1) in
        let vw5 := getRvdw O (atomicNum a5) in
        let '(dl, du) := bounds15 accum t pathId d1 d2 d3 d4 ang12 ang23 ang34
                                  vw1 vw5 in
        let du := if Qltb du 0 then MAX_UPPER else du in
        call_checkAndSetBounds aid1 aid5 dl du ;;
        mark_set15Atoms (flatIdx aid1 na aid5) (flatIdx aid5 na aid1)
      else ret tt
    else ret tt
  else ret tt.

(** The 1-4 type arrives as an [unsigned int]: 0 is CIS, 1 is TRANS. *)
Definition _set15BoundsHelper (mol : ROMol) (bid1 bid2 bid3 : nat)
    (t : Path14Type) (dmat : N -> Q) : M unit :=
  let nb := getNumBonds mol in
  accum <- getAccum ;;
  aid2 <- adjAtom (bondAdj accum bid1 bid2) ;;
  b1 <- liftR (getBondWithIdx mol bid1) ;;
  aid1 <- liftR (getOtherAtomIdx b1 aid2) ;;
  aid3 <- adjAtom (bondAdj accum bid2 bid3) ;;
  b3 <- liftR (getBondWithIdx mol bid3) ;;
  aid4 <- liftR (getOtherAtomIdx b3 aid3) ;;
  let d1 := bondLength accum bid1 in
  let d2 := bondLength accum bid2 in
  let d3 := bondLength accum bid3 in
  let ang12 := bondAngles accum bid1 bid2 in
  let ang23 := bondAngles accum bid2 bid3 in
  forM_ (seq 0 nb)
        (_set15BoundsHelper_bond mol bid1 bid2 bid3 t dmat aid1 aid4
                                 d1 d2 d3 ang12 ang23).

(** set the 15 distance bounds *)
Definition set15Bounds (mol : ROMol) (distMatrix : N -> Q) : M unit :=
  accum <- getAccum ;;
  forM_ (paths14 accum) (fun pti =>
    (* 15 distances going one way with with 14 paths *)
    _set15BoundsHelper mol (bid1 pti) (bid2 pti) (bid3 pti) (type pti)
                       distMatrix ;;
    (* going the other way - reverse the 14 path *)
    _set15BoundsHelper mol (bid3 pti) (bid2 pti) (bid1 pti) (type pti)
                       distMatrix).

(** ** The entry points *)

Definition setTopolBounds (mol : ROMol)
    (set15bounds scaleVDW useMacrocycle14config forceTransAmides : bool)
  : M unit :=
  let nb := getNumBonds mol in
  let na := getNumAtoms mol in
  if (na =? 0)%nat then
    throw (ValueErrorException "molecule has no atoms")
  (* this is 2.6 million bonds, so it's extremly unlikely to ever occur, but
     we might as well check: *)
  else if (MAX_NUM_BONDS <=? N.of_nat (getNumBonds mol))%N then
    throw (ValueErrorException
             "Too many bonds in the molecule, cannot compute 1-4 bounds")
  else
    modifyAccum (fun _ => newComputedData na nb) ;;
    let distMatrix := getDistanceMat O mol in
    set12Bounds mol ;;
    set13Bounds mol ;;
    set14Bounds mol distMatrix useMacrocycle14config forceTransAmides ;;
    (if set15bounds then set15Bounds mol distMatrix else ret tt) ;;
    setLowerBoundVDW mol scaleVDW distMatrix.

(** The angle record of [collectBondsAndAngles] for bonds [bondi], [bondj]
    that share an atom: the two ends around the shared atom and the flag. *)
Definition angleRecord (mol : ROMol) (bondi bondj : Bond) : list nat :=
  let aid11 := beginAtomIdx bondi in
  let aid12 := endAtomIdx bondi in
  let aid21 := beginAtomIdx bondj in
  let aid22 := endAtomIdx bondj in
  let '(t0, t1, t2) :=
    if (aid12 =? aid21)%nat then (aid11, aid12, aid22)
    else if (aid12 =? aid22)%nat then (aid11, aid12, aid21)
    else if (aid11 =? aid21)%nat then (aid12, aid11, aid22)
    else if (aid11 =? aid22)%nat then (aid12, aid11, aid21)
    else (0, 0, 0)%nat in
  let t3 :=
    if bt_eqb (bondType bondi) TRIPLE || bt_eqb (bondType bondj) TRIPLE
    then 1%nat  (* triple bond *)
    else if bt_eqb (bondType bondi) DOUBLE && bt_eqb (bondType bondj) DOUBLE
            && (getDegree mol t1 =? 2)%nat
    then 1%nat  (* consecutive double bonds *)
    else 0%nat in
  [t0; t1; t2; t3].

Definition collectBondsAndAngles (mol : ROMol)
  : list (nat * nat) * list (list nat) :=
  (map (fun bondi => (beginAtomIdx bondi, endAtomIdx bondi)) (bonds mol),
   flat_map
     (fun bondi =>
        flat_map
          (fun bondj =>
             let aid11 := beginAtomIdx bondi in
             let aid12 := endAtomIdx bondi in
             let aid21 := beginAtomIdx bondj in
             let aid22 := endAtomIdx bondj in
             if negb (aid11 =? aid21)%nat && negb (aid11 =? aid22)%nat
                && negb (aid12 =? aid21)%nat && negb (aid12 =? aid22)%nat
             then []
             else [angleRecord mol bondi bondj])
          (skipn (bondIdx bondi + 1) (bonds mol)))
     (bonds mol)).

(** The overload that also collects the bonds and the angles; its result is
    what the two output vectors hold on return. *)
Definition setTopolBounds_bondsAngles (mol : ROMol)
    (set15bounds scaleVDW useMacrocycle14config forceTransAmides : bool)
  : M (list (nat * nat) * list (list nat)) :=
  let nb := getNumBonds mol in
  let na := getNumAtoms mol in
  if (na =? 0)%nat then
    throw (ValueErrorException "molecule has no atoms")
  else
    modifyAccum (fun _ => newComputedData na nb) ;;
    let distMatrix := getDistanceMat O mol in
    set12Bounds mol ;;
    set13Bounds mol ;;
    set14Bounds mol distMatrix useMacrocycle14config forceTransAmides ;;
    (if set15bounds then set15Bounds mol distMatrix else ret tt) ;;
    setLowerBoundVDW mol scaleVDW distMatrix ;;
    ret (collectBondsAndAngles mol).


End DGeomHelpers.

(** The state in which the passes of [setTopolBounds] start: the matrix of
    the caller and freshly constructed accumulated data. *)
Definition entryState (mol : ROMol) (m : BoundsMatrix) : State :=
  {| mmat := m;
     accumData := newComputedData (getNumAtoms mol) (getNumBonds mol);
     casLog := [] |}.

(** * A concrete instance of the collaborators

    The examples and the concrete runs below use this instance.  Its
    functions are fixed-point stand-ins (results rounded down to a multiple
    of 2^-40) for the functions of <cmath> and of Geometry/Utils.h, the
    unweighted shortest path for the distance matrix, and small tables for
    the force field and the periodic table.  The theorems do not depend on
    it: they hold for every instance. *)
Module Example.

Definition qround (x : Q) : Q :=
  Qred (Qfloor (x * 1099511627776) # 1099511627776).

(** [sum_{m < n} (-1)^m x^(2m+s) / (2m+s)!], term by term. *)
Fixpoint alt_series (n : nat) (k : Z) (term x2 acc : Q) : Q :=
  match n with
  | O => acc
  | S n' =>
      let term' := qround (- term * x2 / inject_Z ((k + 1) * (k + 2))) in
      alt_series n' (k + 2)%Z term' x2 (acc + term)
  end.

Definition cosQ (x : Q) : Q :=
  let x := qround x in qround (alt_series 16 0 1 (x * x) 0).

Definition sinQ (x : Q) : Q :=
  let x := qround x in qround (alt_series 16 1 x (x * x) 0).

Fixpoint newton_sqrt (n : nat) (x y : Q) : Q :=
  match n with
  | O => y
  | S n' => newton_sqrt n' x (qround ((y + x / y) / 2))
  end.

Definition sqrtQ (x : Q) : Q :=
  if Qle_bool x 0 then 0 else newton_sqrt 16 (qround x) (qround ((x + 1) / 2)).

Fixpoint bisect_acos (n : nat) (c lo hi : Q) : Q :=
  match n with
  | O => lo
  | S n' =>
      let mid := qround ((lo + hi) / 2) in
      if Qltb c (cosQ mid) then bisect_acos n' c mid hi
      else bisect_acos n' c lo mid
  end.

Definition acosQ (c : Q) : Q := bisect_acos 36 (qround c) 0 (qround M_PI).

Definition compute13DistQ (d1 d2 angle : Q) : Q :=
  sqrtQ (d1 * d1 + d2 * d2 - 2 * d1 * d2 * cosQ angle).

Definition compute14Dist3DQ (d1 d2 d3 ang12 ang23 torAng : Q) : Q :=
  let dx := d2 - d3 * cosQ ang23 - d1 * cosQ ang12 in
  let dy := d3 * sinQ ang23 * cosQ torAng - d1 * sinQ ang12 in
  let dz := d3 * sinQ ang23 * sinQ torAng in
  sqrtQ (dx * dx + dy * dy + dz * dz).

Definition compute14DistCisQ (d1 d2 d3 ang12 ang23 : Q) : Q :=
  let dx := d2 - d3 * cosQ ang23 - d1 * cosQ ang12 in
  let dy := d3 * sinQ ang23 - d1 * sinQ ang12 in
  sqrtQ (dx * dx + dy * dy).

Definition compute14DistTransQ (d1 d2 d3 ang12 ang23 : Q) : Q :=
  let dx := d2 - d3 * cosQ ang23 - d1 * cosQ ang12 in
  let dy := d3 * sinQ ang23 + d1 * sinQ ang12 in
  sqrtQ (dx * dx + dy * dy).

(** Bond radii and van der Waals radii by atomic number. *)
Definition bondRadius (z : nat) : Q :=
  match z with
  | 1%nat => 0.354 | 6%nat => 0.757 | 7%nat => 0.7 | 8%nat => 0.658
  | 16%nat => 1.064
  | _ => 0.8
  end.

Definition rvdw (z : nat) : Q :=
  match z with
  | 1%nat => 1.2 | 2%nat => 1.4 | 6%nat => 1.7 | 7%nat => 1.6 | 8%nat => 1.55
  | 16%nat => 1.8
  | _ => 2
  end.

Definition restLength (bondOrder : Q) (z1 z2 : nat) : Q :=
  bondRadius z1 + bondRadius z2 - 0.1 * (bondOrder - 1).

(** Every element but the dummy atom (atomic number 0) has parameters. *)
Definition atomTypes (mol : ROMol) : list (option nat) * bool :=
  (map (fun a => if (atomicNum a =? 0)%nat then None else Some (atomicNum a))
       (atoms mol),
   forallb (fun a => negb (atomicNum a =? 0)%nat) (atoms mol)).

Definition unreachable : Z := 100000000.

Definition relaxRow (rowk : list Z) (k : nat) (row : list Z) : list Z :=
  let dik := nth k row unreachable in
  map (fun p => Z.min (fst p) (dik + snd p)) (combine row rowk).

Definition shortestPaths (mol : ROMol) : list (list Z) :=
  let n := getNumAtoms mol in
  let d0 :=
    map (fun i =>
           map (fun j =>
                  if (i =? j)%nat then 0%Z
                  else if isSome (getBondBetweenAtoms mol i j) then 1%Z
                  else unreachable)
               (seq 0 n))
        (seq 0 n) in
  fold_left (fun d k => map (relaxRow (nth k d []) k) d) (seq 0 n) d0.

Definition distanceMat (mol : ROMol) : N -> Q :=
  let n := N.of_nat (getNumAtoms mol) in
  let tbl := shortestPaths mol in
  fun k =>
    inject_Z (nth (N.to_nat (k mod n)) (nth (N.to_nat (k / n)) tbl [])
                  unreachable).

Definition oracles : Oracles :=
  {| AtomicParams := nat;
     getAtomTypes := atomTypes;
     calcBondRestLength := restLength;
     getRvdw := rvdw;
     getDistanceMat := distanceMat;
     compute13Dist := compute13DistQ;
     compute14DistCis := compute14DistCisQ;
     compute14DistTrans := compute14DistTransQ;
     compute14Dist3D := compute14Dist3DQ;
     getIdealAngleBetweenLigands := fun _ _ _ _ => 90;
     cos := cosQ;
     sin := sinQ;
     sqrt := sqrtQ;
     acos := acosQ |}.

Definition mkAtom (idx z : nat) (h : HybridizationType) (nHs : nat) : Atom :=
  {| atomIdx := idx; atomicNum := z; hybridization := h; totalNumHs := nHs;
     nonTetrahedralStereo := false; chiralPermutation := false |}.

Definition mkBond (idx a b : nat) (t : BondType) : Bond :=
  {| bondIdx := idx; beginAtomIdx := a; endAtomIdx := b; bondType := t;
     bondTypeAsDouble :=
       match t with
       | SINGLE => 1 | DOUBLE => 2 | TRIPLE => 3 | AROMATIC => 1.5
       | BT_OTHER => 0
       end;
     isConjugated := false; stereo := STEREONONE; stereoAtoms := [] |}.

Definition noRings : RingInfo :=
  {| isInitialized := true; atomRings := []; bondRings := [] |}.

(** A matrix as its constructor leaves it: all zero. *)
Definition zeroMatrix (n : nat) : BoundsMatrix :=
  {| numRows := n; getVal := fun _ _ => 0 |}.

Definition startState (m : BoundsMatrix) : State :=
  {| mmat := m; accumData := newComputedData 0 0; casLog := [] |}.

(** The state of a run that starts from [initBoundsMat(mmat, 0.0, 1000.0)]. *)
Definition freshState (n : nat) : State :=
  startState (initBoundsMat (zeroMatrix n) 0 1000).

(** [He].[He]: two atoms, no bond. *)
Definition twoHelium : ROMol :=
  {| atoms := [mkAtom 0 2 HYB_OTHER 0; mkAtom 1 2 HYB_OTHER 0];
     bonds := [];
     ringInfo := noRings |}.

(** CC, ethane without its hydrogens. *)
Definition ethane : ROMol :=
  {| atoms := [mkAtom 0 6 SP3 3; mkAtom 1 6 SP3 3];
     bonds := [mkBond 0 0 1 SINGLE];
     ringInfo := noRings |}.

(** CCCC and CCCCC, butane and pentane without their hydrogens. *)
Definition butane : ROMol :=
  {| atoms := [mkAtom 0 6 SP3 3; mkAtom 1 6 SP3 2; mkAtom 2 6 SP3 2;
               mkAtom 3 6 SP3 3];
     bonds := [mkBond 0 0 1 SINGLE; mkBond 1 1 2 SINGLE; mkBond 2 2 3 SINGLE];
     ringInfo := noRings |}.

Definition pentane : ROMol :=
  {| atoms := [mkAtom 0 6 SP3 3; mkAtom 1 6 SP3 2; mkAtom 2 6 SP3 2;
               mkAtom 3 6 SP3 2; mkAtom 4 6 SP3 3];
     bonds := [mkBond 0 0 1 SINGLE; mkBond 1 1 2 SINGLE; mkBond 2 2 3 SINGLE;
               mkBond 3 3 4 SINGLE];
     ringInfo := noRings |}.

(** C1CC1, cyclopropane without its hydrogens. *)
Definition cyclopropane : ROMol :=
  {| atoms := [mkAtom 0 6 SP3 2; mkAtom 1 6 SP3 2; mkAtom 2 6 SP3 2];
     bonds := [mkBond 0 0 1 SINGLE; mkBond 1 1 2 SINGLE; mkBond 2 2 0 SINGLE];
     ringInfo := {| isInitialized := true;
                    atomRings := [[0; 1; 2]%nat];
                    bondRings := [[0; 1; 2]%nat] |} |}.

(** O=C(N)C with its hydrogens: acetamide, a primary amide.  Atoms 0-3 are
    O, C, N, C; 4 and 5 are the hydrogens on N; 6-8 those on the methyl. *)
Definition acetamide : ROMol :=
  {| atoms := [mkAtom 0 8 SP2 0; mkAtom 1 6 SP2 0; mkAtom 2 7 SP2 2;
               mkAtom 3 6 SP3 3; mkAtom 4 1 HYB_OTHER 0; mkAtom 5 1 HYB_OTHER 0;
               mkAtom 6 1 HYB_OTHER 0; mkAtom 7 1 HYB_OTHER 0;
               mkAtom 8 1 HYB_OTHER 0];
     bonds := [mkBond 0 0 1 DOUBLE; mkBond 1 1 2 SINGLE; mkBond 2 1 3 SINGLE;
               mkBond 3 2 4 SINGLE; mkBond 4 2 5 SINGLE; mkBond 5 3 6 SINGLE;
               mkBond 6 3 7 SINGLE; mkBond 7 3 8 SINGLE];
     ringInfo := noRings |}.

(** CC(=O)NC with its hydrogens: N-methylacetamide, a secondary amide.
    Atoms 0-4 are C, C, O, N, C; 8 is the hydrogen on N. *)
Definition methylacetamide : ROMol :=
  {| atoms := [mkAtom 0 6 SP3 3; mkAtom 1 6 SP2 0; mkAtom 2 8 SP2 0;
               mkAtom 3 7 SP2 1; mkAtom 4 6 SP3 3;
               mkAtom 5 1 HYB_OTHER 0; mkAtom 6 1 HYB_OTHER 0;
               mkAtom 7 1 HYB_OTHER 0; mkAtom 8 1 HYB_OTHER 0;
               mkAtom 9 1 HYB_OTHER 0; mkAtom 10 1 HYB_OTHER 0;
               mkAtom 11 1 HYB_OTHER 0];
     bonds := [mkBond 0 0 1 SINGLE; mkBond 1 1 2 DOUBLE; mkBond 2 1 3 SINGLE;
               mkBond 3 3 4 SINGLE; mkBond 4 0 5 SINGLE; mkBond 5 0 6 SINGLE;
               mkBond 6 0 7 SINGLE; mkBond 7 3 8 SINGLE; mkBond 8 4 9 SINGLE;
               mkBond 9 4 10 SINGLE; mkBond 10 4 11 SINGLE];
     ringInfo := noRings |}.

(** The double bond of (Z)-but-2-ene, CC=CC with its hydrogens: atoms 0-3
    are the carbons, 7 and 8 the hydrogens on C1 and C2; the stereo atoms are
    the two methyl carbons. *)
Definition buteneDoubleBond : Bond :=
  {| bondIdx := 1; beginAtomIdx := 1; endAtomIdx := 2; bondType := DOUBLE;
     bondTypeAsDouble := 2; isConjugated := false; stereo := STEREOZ;
     stereoAtoms := [0; 3]%Z |}.

(** The two helium atoms after [setLowerBoundVDW] on a fresh matrix. *)
Definition heliumAfterVDW : State :=
  snd (setLowerBoundVDW oracles twoHelium true (distanceMat twoHelium)
                        (freshState 2)).


(** A fresh 2 x 2 matrix after the call (0, 1, 2, 3), and after the further
    call (0, 1, 1, 4). *)
Definition call_0_1_2_3 : CasCall :=
  {| cas_i := 0; cas_j := 1; cas_lb := 2; cas_ub := 3 |}.

Definition call_0_1_1_4 : CasCall :=
  {| cas_i := 0; cas_j := 1; cas_lb := 1; cas_ub := 4 |}.

Definition onceSet : BoundsMatrix :=
  setUpperBound (setLowerBound (initBoundsMat (zeroMatrix 2) 0 1000) 0 1 2) 0 1 3.

Definition twiceSet : BoundsMatrix :=
  setUpperBound (setLowerBound onceSet 0 1 1) 0 1 4.

(** C1CCC1, cyclobutane without its hydrogens, with ring information that is
    initialised but lists no ring. *)
Definition cyclobutaneNoRings : ROMol :=
  {| atoms := [mkAtom 0 6 SP3 2; mkAtom 1 6 SP3 2; mkAtom 2 6 SP3 2;
               mkAtom 3 6 SP3 2];
     bonds := [mkBond 0 0 1 SINGLE; mkBond 1 1 2 SINGLE; mkBond 2 2 3 SINGLE;
               mkBond 3 3 0 SINGLE];
     ringInfo := noRings |}.

(** C1=CC=CC=CC=N1, azocine without its hydrogens: one ring of eight sp2
    atoms, atom 7 the nitrogen. *)
Definition azocine : ROMol :=
  {| atoms := [mkAtom 0 6 SP2 1; mkAtom 1 6 SP2 1; mkAtom 2 6 SP2 1;
               mkAtom 3 6 SP2 1; mkAtom 4 6 SP2 1; mkAtom 5 6 SP2 1;
               mkAtom 6 6 SP2 1; mkAtom 7 7 SP2 0];
     bonds := [mkBond 0 0 1 DOUBLE; mkBond 1 1 2 SINGLE; mkBond 2 2 3 DOUBLE;
               mkBond 3 3 4 SINGLE; mkBond 4 4 5 DOUBLE; mkBond 5 5 6 SINGLE;
               mkBond 6 6 7 DOUBLE; mkBond 7 7 0 SINGLE];
     ringInfo := {| isInitialized := true;
                    atomRings := [[0; 1; 2; 3; 4; 5; 6; 7]%nat];
                    bondRings := [[0; 1; 2; 3; 4; 5; 6; 7]%nat] |} |}.

(** An unbranched alkane of [n] bonds without its hydrogens, and the one
    with as many bonds as the bond limit. *)
Definition alkane (n : nat) : ROMol :=
  {| atoms := map (fun i => mkAtom i 6 SP3 2) (seq 0 (S n));
     bonds := map (fun i => mkBond i i (S i) SINGLE) (seq 0 n);
     ringInfo := noRings |}.

Definition bigAlkane : ROMol := alkane (N.to_nat MAX_NUM_BONDS).

(** CC(=N)NC, N-methylacetamidine, with the hydrogen on the amine nitrogen:
    atoms 0-4 are C, C, N (imine), N (amine), C; atom 5 is the hydrogen on
    atom 3. *)
Definition methylacetamidine : ROMol :=
  {| atoms := [mkAtom 0 6 SP3 3; mkAtom 1 6 SP2 0; mkAtom 2 7 SP2 1;
               mkAtom 3 7 SP2 1; mkAtom 4 6 SP3 3; mkAtom 5 1 HYB_OTHER 0];
     bonds := [mkBond 0 0 1 SINGLE; mkBond 1 1 2 DOUBLE; mkBond 2 1 3 SINGLE;
               mkBond 3 3 4 SINGLE; mkBond 4 3 5 SINGLE];
     ringInfo := noRings |}.

(** A molecule after Passes 1 and 2, and after Passes 1 to 3, of a run that
    starts from [initBoundsMat(mmat, 0.0, 1000.0)]. *)
Definition afterPass2 (mol : ROMol) : State :=
  snd (set13Bounds oracles mol
         (snd (set12Bounds oracles mol
                 (entryState mol
                    (initBoundsMat (zeroMatrix (getNumAtoms mol)) 0 1000))))).

Definition afterPass3 (mol : ROMol) (forceTransAmides : bool) : State :=
  snd (set14Bounds oracles mol (distanceMat mol) false forceTransAmides
                   (afterPass2 mol)).

(** Azocine after Passes 1 to 3 and the 1-5 helper on the 1-4 path of the
    bonds 0, 1, 2 (atoms 0-1-2-3), which reaches atom 4 from atom 0. *)
Definition azocineOnce : State :=
  snd (_set15BoundsHelper oracles azocine 0 1 2 CIS (distanceMat azocine)
                          (afterPass3 azocine false)).

End Example.

(** * Notions used to state the properties *)

(** A sequence of [_checkAndSetBounds] calls, stopping at the first
    exception. *)
Fixpoint run_calls (cs : list CasCall) (m : BoundsMatrix) : Result BoundsMatrix :=
  match cs with
  | [] => Ok m
  | c :: t =>
      match _checkAndSetBounds (cas_i c) (cas_j c) (cas_lb c) (cas_ub c) m with
      | Ok m' => run_calls t m'
      | Throw e => Throw e
      end
  end.

(** Replaying recorded calls on a matrix. *)
Definition replay1 (m : BoundsMatrix) (c : CasCall) : BoundsMatrix :=
  match _checkAndSetBounds (cas_i c) (cas_j c) (cas_lb c) (cas_ub c) m with
  | Ok m' => m'
  | Throw _ => m
  end.

Definition replay (cs : list CasCall) (m : BoundsMatrix) : BoundsMatrix :=
  fold_left replay1 cs m.

(** [via_checkAndSetBounds st st']: from [st] to [st'] the matrix changed
    only by the [_checkAndSetBounds] calls recorded in between. *)
Definition via_checkAndSetBounds (st st' : State) : Prop :=
  exists new : list CasCall,
    casLog st' = casLog st ++ new /\ mmat st' = replay new (mmat st).

(** A computation that, whatever its outcome, changes the matrix only
    through [_checkAndSetBounds]. *)
Definition Disciplined {A : Type} (c : M A) : Prop :=
  forall st : State, via_checkAndSetBounds st (snd (c st)).

(** A computation that leaves the state as it is, whatever its outcome. *)
Definition ReadOnly {A : Type} (c : M A) : Prop :=
  forall st : State, snd (c st) = st.

(** The lower bound [setLowerBoundVDW] writes for the pair [i > j] when it
    writes one. *)
Definition vdwLowerBound (O : Oracles) (dmat : N -> Q) (npt i j : nat)
    (ai aj : Atom) : Q :=
  let vw1 := getRvdw O (atomicNum ai) in
  let vw2 := getRvdw O (atomicNum aj) in
  if Qeq_bool (dmat (flatIdx i npt j)) 4 then VDW_SCALE_15 * (vw1 + vw2)
  else if Qeq_bool (dmat (flatIdx i npt j)) 5 then
    (VDW_SCALE_15 + 0.5 * (1 - VDW_SCALE_15)) * (vw1 + vw2)
  else vw1 + vw2.

(** Two pairs of indices name the same unordered pair. *)
Definition samePair (i j a b : nat) : Prop :=
  (a = i /\ b = j) \/ (a = j /\ b = i).

(** What the second loop of [set12Bounds] does to the matrix when it deals
    with a bond: it overwrites the upper and then the lower bound of the
    bonded pair. *)
Definition wrote12 (m m' : BoundsMatrix) (bond : Bond) : Prop :=
  exists lo up : Q,
    (0 < lo -> lo <= up) /\
    m' = setLowerBound
           (setUpperBound m (beginAtomIdx bond) (endAtomIdx bond) up)
           (beginAtomIdx bond) (endAtomIdx bond) lo.

(** The matrix [m] that [set12Bounds] makes of [m0]: a pair of distinct atoms
    keeps its bounds, or it is a bonded pair and its bounds are in order as
    soon as the lower one is positive. *)
Definition after12 (mol : ROMol) (m0 m : BoundsMatrix) : Prop :=
  numRows m = numRows m0 /\
  forall a b : nat, a <> b ->
    (getLowerBound m a b = getLowerBound m0 a b /\
     getUpperBound m a b = getUpperBound m0 a b) \/
    ((exists bond, In bond (bonds mol) /\
                   samePair (beginAtomIdx bond) (endAtomIdx bond) a b) /\
     (0 < getLowerBound m a b -> getLowerBound m a b <= getUpperBound m a b)).

(** What [setLowerBoundVDW] leaves alone: the recorded calls, the accumulated
    data, the size of the matrix and the upper bound of every pair. *)
Definition keepsUpper (st st' : State) : Prop :=
  casLog st' = casLog st /\ accumData st' = accumData st /\
  numRows (mmat st') = numRows (mmat st) /\
  forall a b : nat, a <> b ->
    getUpperBound (mmat st') a b = getUpperBound (mmat st) a b.

(** The lower bound of the pair [i > j] after [setLowerBoundVDW]. *)
Definition vdwUpdate (O : Oracles) (dmat : N -> Q) (npt i j : nat)
    (ai aj : Atom) (old : Q) : Q :=
  if Qltb old DIST12_DELTA then vdwLowerBound O dmat npt i j ai aj else old.



(** The cis and the trans distance of a 1-4 path, from the bond lengths and
    the angles that the accumulated data hold. *)
Definition cis14 (O : Oracles) (accum : ComputedData) (bnd1 bnd2 bnd3 : Bond) : Q :=
  compute14DistCis O (bondLength accum (bondIdx bnd1))
                   (bondLength accum (bondIdx bnd2))
                   (bondLength accum (bondIdx bnd3))
                   (bondAngles accum (bondIdx bnd1) (bondIdx bnd2))
                   (bondAngles accum (bondIdx bnd2) (bondIdx bnd3)).

Definition trans14 (O : Oracles) (accum : ComputedData) (bnd1 bnd2 bnd3 : Bond) : Q :=
  compute14DistTrans O (bondLength accum (bondIdx bnd1))
                     (bondLength accum (bondIdx bnd2))
                     (bondLength accum (bondIdx bnd3))
                     (bondAngles accum (bondIdx bnd1) (bondIdx bnd2))
                     (bondAngles accum (bondIdx bnd2) (bondIdx bnd3)).

(** Either flag of the pair in [set15Atoms]. *)
Definition flagged15 (mol : ROMol) (accum : ComputedData) (a1 a5 : nat) : bool :=
  membN (flatIdx a1 (getNumAtoms mol) a5) (set15Atoms accum)
  || membN (flatIdx a5 (getNumAtoms mol) a1) (set15Atoms accum).

(** The passes that the overload collecting bonds and angles runs before it
    enters [set14Bounds]. *)
Definition passes12 (O : Oracles) (mol : ROMol) : M unit :=
  modifyAccum (fun _ => newComputedData (getNumAtoms mol) (getNumBonds mol)) ;;
  set12Bounds O mol ;;
  set13Bounds O mol.

(** From [st] to [st'] the bounds of the pair are kept or widened. *)
Definition widens (a b : nat) (st st' : State) : Prop :=
  (DIST12_DELTA < getLowerBound (mmat st) a b ->
     DIST12_DELTA < getLowerBound (mmat st') a b /\
     getLowerBound (mmat st') a b <= getLowerBound (mmat st) a b) /\
  (getUpperBound (mmat st) a b < MAX_UPPER ->
     getUpperBound (mmat st) a b <= getUpperBound (mmat st') a b /\
     getUpperBound (mmat st') a b < MAX_UPPER).

(** Passes 2 to 5 as the entry points run them. *)
Definition laterPasses (O : Oracles) (mol : ROMol) (dmat : N -> Q)
    (set15bounds scaleVDW useMacrocycle14config forceTransAmides : bool)
  : M unit :=
  set13Bounds O mol ;;
  set14Bounds O mol dmat useMacrocycle14config forceTransAmides ;;
  (if set15bounds then set15Bounds O mol dmat else ret tt) ;;
  setLowerBoundVDW O mol scaleVDW dmat.

(** A computation that, whatever its outcome, leaves the part [f] of the
    state as it is. *)
Definition Preserves {A T : Type} (f : State -> T) (c : M A) : Prop :=
  forall st : State, f (snd (c st)) = f st.

(** The size of the matrix with the bond lengths. *)
Definition sizeAndLengths (st : State) : nat * list Q :=
  (numRows (mmat st), bondLengths (accumData st)).

(** What Passes 1 to 3 record for the passes after them. *)
Definition pathRecords (st : State)
  : list Q * (nat -> nat -> Z) * (nat -> nat -> Q) * list Path14Configuration
    * list N * list N :=
  (bondLengths (accumData st), bondAdj (accumData st),
   bondAngles (accumData st), paths14 (accumData st),
   cisPaths (accumData st), transPaths (accumData st)).

(** * Properties *)

(** ** Comparisons *)

Lemma Qltb_lt (x y : Q) : Qltb x y = true <-> x < y.
Proof.
  unfold Qltb. rewrite negb_true_iff. split; intro H.
  - apply Qnot_le_lt. intro L. apply Qle_bool_iff in L. congruence.
  - destruct (Qle_bool y x) eqn:E; [|reflexivity].
    apply Qle_bool_iff in E. exfalso. apply (Qlt_not_le _ _ H E).
Qed.

Lemma Qltb_ge (x y : Q) : Qltb x y = false <-> y <= x.
Proof.
  unfold Qltb. rewrite negb_false_iff. apply Qle_bool_iff.
Qed.

Lemma Qle_bool_gt (x y : Q) : Qle_bool x y = false <-> y < x.
Proof.
  rewrite <- Qltb_lt. unfold Qltb. rewrite negb_true_iff. reflexivity.
Qed.

(** Turns the boolean comparisons of the context into propositions. *)
Ltac qprop :=
  repeat match goal with
    | H : Qltb _ _ = true |- _ => apply Qltb_lt in H
    | H : Qltb _ _ = false |- _ => apply Qltb_ge in H
    | H : Qle_bool _ _ = true |- _ => apply Qle_bool_iff in H
    | H : Qle_bool _ _ = false |- _ => apply Qle_bool_gt in H
    end.

(** ** The two views of the matrix *)

Ltac matrix_cases :=
  unfold getLowerBound, getUpperBound, setLowerBound, setUpperBound, setVal;
  intros;
  repeat (cbn [getVal numRows andb];
          match goal with
          | |- context [(?a <? ?b)%nat] => destruct (Nat.ltb_spec a b)
          | |- context [(?a =? ?b)%nat] => destruct (Nat.eqb_spec a b)
          end);
  cbn [getVal numRows andb]; subst; try reflexivity; try lia; try congruence.

Lemma getLowerBound_sym (m : BoundsMatrix) (i j : nat) :
  getLowerBound m i j = getLowerBound m j i.
Proof.
  unfold getLowerBound.
  destruct (Nat.ltb_spec i j), (Nat.ltb_spec j i); try reflexivity; try lia.
  assert (i = j) by lia. subst. reflexivity.
Qed.

Lemma getUpperBound_sym (m : BoundsMatrix) (i j : nat) :
  getUpperBound m i j = getUpperBound m j i.
Proof.
  unfold getUpperBound.
  destruct (Nat.ltb_spec i j), (Nat.ltb_spec j i); try reflexivity; try lia.
  assert (i = j) by lia. subst. reflexivity.
Qed.

Lemma getLowerBound_setLowerBound_same (m : BoundsMatrix) (i j : nat) (v : Q) :
  getLowerBound (setLowerBound m i j v) i j = v.
Proof. matrix_cases. Qed.

Lemma getUpperBound_setUpperBound_same (m : BoundsMatrix) (i j : nat) (v : Q) :
  getUpperBound (setUpperBound m i j v) i j = v.
Proof. matrix_cases. Qed.

Lemma getLowerBound_setLowerBound_other (m : BoundsMatrix) (i j a b : nat) (v : Q) :
  ~ samePair i j a b ->
  getLowerBound (setLowerBound m i j v) a b = getLowerBound m a b.
Proof.
  unfold samePair. intro H.
  matrix_cases; exfalso; apply H; lia.
Qed.

Lemma getUpperBound_setUpperBound_other (m : BoundsMatrix) (i j a b : nat) (v : Q) :
  ~ samePair i j a b ->
  getUpperBound (setUpperBound m i j v) a b = getUpperBound m a b.
Proof.
  unfold samePair. intro H.
  matrix_cases; exfalso; apply H; lia.
Qed.

Lemma getUpperBound_setLowerBound (m : BoundsMatrix) (i j a b : nat) (v : Q) :
  a <> b ->
  getUpperBound (setLowerBound m i j v) a b = getUpperBound m a b.
Proof. matrix_cases. Qed.

Lemma getLowerBound_setUpperBound (m : BoundsMatrix) (i j a b : nat) (v : Q) :
  a <> b ->
  getLowerBound (setUpperBound m i j v) a b = getLowerBound m a b.
Proof. matrix_cases. Qed.

Lemma getUpperBound_setLowerBound_offdiag (m : BoundsMatrix) (i j a b : nat) (v : Q) :
  i <> j ->
  getUpperBound (setLowerBound m i j v) a b = getUpperBound m a b.
Proof. matrix_cases. Qed.

Lemma getLowerBound_setUpperBound_offdiag (m : BoundsMatrix) (i j a b : nat) (v : Q) :
  i <> j ->
  getLowerBound (setUpperBound m i j v) a b = getLowerBound m a b.
Proof. matrix_cases. Qed.

Lemma numRows_setLowerBound (m : BoundsMatrix) (i j : nat) (v : Q) :
  numRows (setLowerBound m i j v) = numRows m.
Proof. unfold setLowerBound, setVal. destruct (i <? j)%nat; reflexivity. Qed.

Lemma numRows_setUpperBound (m : BoundsMatrix) (i j : nat) (v : Q) :
  numRows (setUpperBound m i j v) = numRows m.
Proof. unfold setUpperBound, setVal. destruct (i <? j)%nat; reflexivity. Qed.

(** ** The bounds writer *)

Lemma samePair_dec (i j a b : nat) : {samePair i j a b} + {~ samePair i j a b}.
Proof.
  unfold samePair.
  destruct (Nat.eq_dec a i), (Nat.eq_dec b j), (Nat.eq_dec a j), (Nat.eq_dec b i);
    first [left; lia | right; lia].
Defined.

Lemma samePair_lower (m : BoundsMatrix) (i j a b : nat) :
  samePair i j a b -> getLowerBound m a b = getLowerBound m i j.
Proof.
  intros [[-> ->]|[-> ->]]; [reflexivity | apply getLowerBound_sym].
Qed.

Lemma samePair_upper (m : BoundsMatrix) (i j a b : nat) :
  samePair i j a b -> getUpperBound m a b = getUpperBound m i j.
Proof.
  intros [[-> ->]|[-> ->]]; [reflexivity | apply getUpperBound_sym].
Qed.

(** The checks of a successful call and the matrix it returns. *)
Lemma checkAndSetBounds_ok (i j : nat) (lb ub : Q) (m m' : BoundsMatrix) :
  _checkAndSetBounds i j lb ub m = Ok m' ->
  lb < ub /\
  (DIST12_DELTA < lb \/ DIST12_DELTA < getLowerBound m i j) /\
  exists m1,
    (m1 = setLowerBound m i j lb \/ m1 = m) /\
    (m' = setUpperBound m1 i j ub \/ m' = m1).
Proof.
  unfold _checkAndSetBounds. intro H.
  destruct (Qltb lb ub) eqn:E1; cbn [negb] in H; [|discriminate].
  destruct (Qltb DIST12_DELTA lb || Qltb DIST12_DELTA (getLowerBound m i j)) eqn:E2;
    cbn [negb] in H; [|discriminate].
  injection H as H. qprop. split; [assumption|]. split.
  - apply orb_true_iff in E2. destruct E2 as [E2|E2]; qprop; [left|right]; assumption.
  - subst m'.
    destruct (Qle_bool (getLowerBound m i j) DIST12_DELTA);
      [exists (setLowerBound m i j lb)
      |destruct (Qltb lb (getLowerBound m i j) && Qltb DIST12_DELTA lb);
       [exists (setLowerBound m i j lb) | exists m]];
      (split; [first [left; reflexivity | right; reflexivity]|]);
      (destruct (Qle_bool MAX_UPPER (getUpperBound m i j));
       [left; reflexivity|];
       destruct (Qltb (getUpperBound m i j) ub && Qltb ub MAX_UPPER);
       [left; reflexivity | right; reflexivity]).
Qed.

(** A call changes no bound of another pair. *)
Lemma checkAndSetBounds_frame (i j : nat) (lb ub : Q) (m m' : BoundsMatrix)
    (a b : nat) :
  _checkAndSetBounds i j lb ub m = Ok m' ->
  ~ samePair i j a b ->
  getLowerBound m' a b = getLowerBound m a b /\
  getUpperBound m' a b = getUpperBound m a b.
Proof.
  intros H NS. apply checkAndSetBounds_ok in H.
  destruct H as (_ & _ & m1 & H1 & H2).
  assert (L1 : getLowerBound m1 a b = getLowerBound m a b).
  { destruct H1 as [->| ->]; [|reflexivity].
    apply getLowerBound_setLowerBound_other; assumption. }
  assert (U1 : getUpperBound m1 a b = getUpperBound m a b).
  { destruct H1 as [->| ->]; [|reflexivity].
    unfold samePair in NS. clear - NS. matrix_cases; exfalso; apply NS; lia. }
  destruct H2 as [->| ->]; [|split; assumption].
  split.
  - rewrite <- L1. unfold samePair in NS. clear - NS.
    matrix_cases; exfalso; apply NS; lia.
  - rewrite <- U1. apply getUpperBound_setUpperBound_other; assumption.
Qed.

Lemma checkAndSetBounds_numRows (i j : nat) (lb ub : Q) (m m' : BoundsMatrix) :
  _checkAndSetBounds i j lb ub m = Ok m' -> numRows m' = numRows m.
Proof.
  intro H. apply checkAndSetBounds_ok in H.
  destruct H as (_ & _ & m1 & H1 & H2).
  assert (numRows m1 = numRows m)
    by (destruct H1 as [->| ->]; [apply numRows_setLowerBound | reflexivity]).
  destruct H2 as [->| ->]; [rewrite numRows_setUpperBound|]; assumption.
Qed.

(** What one successful call does to the bounds of its own pair. *)
Lemma checkAndSetBounds_step (i j : nat) (lb ub : Q) (m m' : BoundsMatrix) :
  i <> j ->
  _checkAndSetBounds i j lb ub m = Ok m' ->
  (getLowerBound m i j <= DIST12_DELTA -> getLowerBound m' i j = lb) /\
  (DIST12_DELTA < getLowerBound m i j ->
     (getLowerBound m' i j = getLowerBound m i j
      /\ (getLowerBound m i j <= lb \/ lb <= DIST12_DELTA)) \/
     (getLowerBound m' i j = lb /\ lb < getLowerBound m i j /\ DIST12_DELTA < lb)) /\
  (MAX_UPPER <= getUpperBound m i j -> getUpperBound m' i j = ub) /\
  (getUpperBound m i j < MAX_UPPER ->
     (getUpperBound m' i j = getUpperBound m i j
      /\ (ub <= getUpperBound m i j \/ MAX_UPPER <= ub)) \/
     (getUpperBound m' i j = ub /\ getUpperBound m i j < ub /\ ub < MAX_UPPER)).
Proof.
  intros Hij H. unfold _checkAndSetBounds in H.
  destruct (Qltb lb ub) eqn:E1; cbn [negb] in H; [|discriminate].
  destruct (Qltb DIST12_DELTA lb || Qltb DIST12_DELTA (getLowerBound m i j)) eqn:E2;
    cbn [negb] in H; [|discriminate].
  injection H as H. subst m'.
  set (clb := getLowerBound m i j) in *. set (cub := getUpperBound m i j) in *.
  assert (LU : forall m1 v, getLowerBound (setUpperBound m1 i j v) i j = getLowerBound m1 i j)
    by (intros; apply getLowerBound_setUpperBound; assumption).
  assert (UL : forall v, getUpperBound (setLowerBound m i j v) i j = cub)
    by (intros; apply getUpperBound_setLowerBound; assumption).
  destruct (Qle_bool clb DIST12_DELTA) eqn:C1;
    [|destruct (Qltb lb clb && Qltb DIST12_DELTA lb) eqn:C2];
    (destruct (Qle_bool MAX_UPPER cub) eqn:C3;
     [|destruct (Qltb cub ub && Qltb ub MAX_UPPER) eqn:C4]);
    try (apply andb_true_iff in C2; destruct C2 as [C2a C2b]);
    try (apply andb_false_iff in C2; destruct C2 as [C2|C2]);
    try (apply andb_true_iff in C4; destruct C4 as [C4a C4b]);
    try (apply andb_false_iff in C4; destruct C4 as [C4|C4]);
    qprop;
    rewrite ?LU, ?getUpperBound_setUpperBound_same,
            ?getLowerBound_setLowerBound_same, ?UL;
    fold clb; fold cub;
    (split; [intro; try reflexivity; exfalso; lra|]);
    (split; [intro; first [left; split; [reflexivity | first [left; assumption | right; assumption]]
                          | right; repeat split; assumption
                          | exfalso; lra]|]);
    (split; [intro; try reflexivity; exfalso; lra|]);
    (intro; first [left; split; [reflexivity | first [left; assumption | right; assumption]]
                  | right; repeat split; assumption
                  | exfalso; lra]).
Qed.

(** Once the bounds of a pair are set, a successful call keeps them set, does
    not raise the lower one and does not lower the upper one. *)
Lemma checkAndSetBounds_widens (i j : nat) (lb ub : Q) (m m' : BoundsMatrix)
    (a b : nat) :
  a <> b ->
  _checkAndSetBounds i j lb ub m = Ok m' ->
  (DIST12_DELTA < getLowerBound m a b ->
     DIST12_DELTA < getLowerBound m' a b /\
     getLowerBound m' a b <= getLowerBound m a b) /\
  (getUpperBound m a b < MAX_UPPER ->
     getUpperBound m a b <= getUpperBound m' a b /\
     getUpperBound m' a b < MAX_UPPER).
Proof.
  intros Hab H.
  destruct (samePair_dec i j a b) as [S|NS].
  - assert (Hij : i <> j) by (destruct S as [[-> ->]|[-> ->]]; congruence).
    rewrite !(samePair_lower _ _ _ _ _ S), !(samePair_upper _ _ _ _ _ S).
    destruct (checkAndSetBounds_step _ _ _ _ _ _ Hij H) as (_ & L2 & _ & U2).
    split; intro P.
    + destruct (L2 P) as [[-> _]|(-> & ? & ?)]; split; lra.
    + destruct (U2 P) as [[-> _]|(-> & ? & ?)]; split; lra.
  - destruct (checkAndSetBounds_frame _ _ _ _ _ _ a b H NS) as [-> ->].
    split; intro; split; lra.
Qed.

(** C2 (as amended).  Across any sequence of successful [_checkAndSetBounds]
    calls, a lower bound that is set (above DIST12_DELTA) stays set and never
    increases, and an upper bound that is set (below MAX_UPPER) stays set and
    never decreases.  A single call on the pair installs the offered lower
    bound where none is set and the offered upper bound where none is set;
    where a bound is set it leaves it or widens it: the lower bound is
    replaced only by a smaller offer above DIST12_DELTA, the upper bound only
    by a larger offer below MAX_UPPER. *)
Theorem checkAndSetBounds_conservative (i j : nat) (Hij : i <> j) :
  (forall (cs : list CasCall) (m m' : BoundsMatrix),
      run_calls cs m = Ok m' ->
      (DIST12_DELTA < getLowerBound m i j ->
         DIST12_DELTA < getLowerBound m' i j /\
         getLowerBound m' i j <= getLowerBound m i j) /\
      (getUpperBound m i j < MAX_UPPER ->
         getUpperBound m i j <= getUpperBound m' i j /\
         getUpperBound m' i j < MAX_UPPER)) /\
  (forall (lb ub : Q) (m m' : BoundsMatrix),
      _checkAndSetBounds i j lb ub m = Ok m' ->
      (getLowerBound m i j <= DIST12_DELTA -> getLowerBound m' i j = lb) /\
      (DIST12_DELTA < getLowerBound m i j ->
         (getLowerBound m' i j = getLowerBound m i j
          /\ (getLowerBound m i j <= lb \/ lb <= DIST12_DELTA)) \/
         (getLowerBound m' i j = lb /\ lb < getLowerBound m i j
          /\ DIST12_DELTA < lb)) /\
      (MAX_UPPER <= getUpperBound m i j -> getUpperBound m' i j = ub) /\
      (getUpperBound m i j < MAX_UPPER ->
         (getUpperBound m' i j = getUpperBound m i j
          /\ (ub <= getUpperBound m i j \/ MAX_UPPER <= ub)) \/
         (getUpperBound m' i j = ub /\ getUpperBound m i j < ub
          /\ ub < MAX_UPPER))).
Proof.
  split.
  - induction cs as [|c cs IH]; intros m m' H; cbn [run_calls] in H.
    + injection H as <-. split; intro; split; lra.
    + destruct (_checkAndSetBounds (cas_i c) (cas_j c) (cas_lb c) (cas_ub c) m)
        as [m1|e] eqn:E; [|discriminate].
      destruct (checkAndSetBounds_widens _ _ _ _ _ _ i j Hij E) as [L1 U1].
      destruct (IH _ _ H) as [L2 U2].
      split; intro P.
      * destruct (L1 P) as [P1 Q1]. destruct (L2 P1) as [P2 Q2]. split; lra.
      * destruct (U1 P) as [P1 Q1]. destruct (U2 Q1) as [P2 Q2]. split; lra.
  - intros lb ub m m' H. exact (checkAndSetBounds_step _ _ _ _ _ _ Hij H).
Qed.

(** The theorem at work: the pair (0, 1) holds the bounds [2, 3]; the call
    (0, 1, 1, 4) succeeds and widens them to [1, 4]. *)
Lemma checkAndSetBounds_conservative_witness :
  0%nat <> 1%nat /\
  run_calls [Example.call_0_1_1_4] Example.onceSet = Ok Example.twiceSet /\
  DIST12_DELTA < getLowerBound Example.onceSet 0 1 /\
  getUpperBound Example.onceSet 0 1 < MAX_UPPER /\
  (DIST12_DELTA < getLowerBound Example.twiceSet 0 1 /\
   getLowerBound Example.twiceSet 0 1 <= getLowerBound Example.onceSet 0 1) /\
  (getUpperBound Example.onceSet 0 1 <= getUpperBound Example.twiceSet 0 1 /\
   getUpperBound Example.twiceSet 0 1 < MAX_UPPER).
Proof.
  assert (N : 0%nat <> 1%nat) by discriminate.
  assert (R : run_calls [Example.call_0_1_1_4] Example.onceSet
              = Ok Example.twiceSet) by reflexivity.
  assert (L : DIST12_DELTA < getLowerBound Example.onceSet 0 1) by reflexivity.
  assert (U : getUpperBound Example.onceSet 0 1 < MAX_UPPER) by reflexivity.
  split; [exact N|]. split; [exact R|]. split; [exact L|]. split; [exact U|].
  split.
  - exact (proj1 (proj1 (checkAndSetBounds_conservative 0 1 N) _ _ _ R) L).
  - exact (proj2 (proj1 (checkAndSetBounds_conservative 0 1 N) _ _ _ R) U).
Defined.

(** C2 (counterexample).  The claim as stated: a later call on a pair never
    lowers its lower bound and never raises its upper bound.  On a fresh
    matrix the call (0, 1, 2, 3) followed by the call (0, 1, 1, 4) lowers the
    lower bound from 2 to 1 and raises the upper bound from 3 to 4. *)
Lemma checkAndSetBounds_tightening_fails :
  ~ (forall (i j : nat) (lb1 ub1 lb2 ub2 : Q) (m1 m2 : BoundsMatrix),
        i <> j ->
        _checkAndSetBounds i j lb1 ub1
          (initBoundsMat (Example.zeroMatrix 2) 0 1000) = Ok m1 ->
        _checkAndSetBounds i j lb2 ub2 m1 = Ok m2 ->
        getLowerBound m1 i j <= getLowerBound m2 i j /\
        getUpperBound m2 i j <= getUpperBound m1 i j).
Proof.
  intro H.
  destruct (_checkAndSetBounds 0 1 2 3 (initBoundsMat (Example.zeroMatrix 2) 0 1000))
    as [m1|] eqn:E1; [|vm_compute in E1; discriminate].
  destruct (_checkAndSetBounds 0 1 1 4 m1) as [m2|] eqn:E2.
  - destruct (H 0%nat 1%nat 2 3 1 4 m1 m2 (fun K => O_S 0 K) E1 E2) as [HL _].
    vm_compute in E1. injection E1 as <-.
    vm_compute in E2. injection E2 as <-.
    vm_compute in HL. apply HL. reflexivity.
  - vm_compute in E1. injection E1 as <-. vm_compute in E2. discriminate.
Qed.

(** ** Effective stereo of the middle bond *)

Lemma stereo_eqb_eq (a b : BondStereo) : stereo_eqb a b = true <-> a = b.
Proof.
  unfold stereo_eqb. rewrite Nat.eqb_eq.
  split; [|intros ->; reflexivity].
  destruct a, b; cbn; intro H; first [reflexivity | discriminate].
Qed.

(** C7 (as amended).  For a bond whose stereo tag lies beyond STEREOANY and
    that stores at least two stereo atoms, [_getAtomStereo] returns the
    flipped tag (STEREOZ and STEREOE swapped, STEREOCIS and STEREOTRANS
    swapped, any other tag as it is) exactly when one of the two stored
    stereo atoms differs from its observed end atom and the other one
    matches; when both match or both differ the stored tag is returned.  A
    tag up to STEREOANY, or fewer than two stereo atoms, is returned as
    stored. *)
Theorem getAtomStereo_flips_on_one_mismatch (bnd : Bond) (aid1 aid4 : nat) :
  (flipStereo STEREOZ = STEREOE /\ flipStereo STEREOE = STEREOZ /\
   flipStereo STEREOCIS = STEREOTRANS /\ flipStereo STEREOTRANS = STEREOCIS) /\
  ((stereoRank STEREOANY < stereoRank (stereo bnd))%nat ->
   (2 <= List.length (stereoAtoms bnd))%nat ->
   stereoAtomDiffers (stereoAtoms bnd) 0 aid1
     <> stereoAtomDiffers (stereoAtoms bnd) 1 aid4 ->
   _getAtomStereo bnd aid1 aid4 = flipStereo (stereo bnd)) /\
  (stereoAtomDiffers (stereoAtoms bnd) 0 aid1
     = stereoAtomDiffers (stereoAtoms bnd) 1 aid4 ->
   _getAtomStereo bnd aid1 aid4 = stereo bnd) /\
  ((stereoRank (stereo bnd) <= stereoRank STEREOANY)%nat ->
   _getAtomStereo bnd aid1 aid4 = stereo bnd) /\
  ((List.length (stereoAtoms bnd) < 2)%nat ->
   _getAtomStereo bnd aid1 aid4 = stereo bnd).
Proof.
  split; [repeat split|].
  unfold _getAtomStereo.
  destruct (Nat.ltb_spec (stereoRank STEREOANY) (stereoRank (stereo bnd))) as [R|R];
    destruct (Nat.leb_spec 2 (List.length (stereoAtoms bnd))) as [N|N];
    cbn [andb];
    destruct (stereoAtomDiffers (stereoAtoms bnd) 0 aid1),
             (stereoAtomDiffers (stereoAtoms bnd) 1 aid4);
    cbn [xorb];
    repeat split; intros; try reflexivity; try congruence; lia.
Qed.

(** In (Z)-but-2-ene, seen from a methyl carbon and the hydrogen across the
    double bond, one stored stereo atom matches and the other differs: the
    tag is flipped to STEREOE. *)
Lemma getAtomStereo_flips_on_one_mismatch_witness :
  (stereoRank STEREOANY < stereoRank (stereo Example.buteneDoubleBond))%nat /\
  (2 <= List.length (stereoAtoms Example.buteneDoubleBond))%nat /\
  stereoAtomDiffers (stereoAtoms Example.buteneDoubleBond) 0 0
    <> stereoAtomDiffers (stereoAtoms Example.buteneDoubleBond) 1 8 /\
  _getAtomStereo Example.buteneDoubleBond 0 8 = STEREOE.
Proof.
  assert (R : (stereoRank STEREOANY
               < stereoRank (stereo Example.buteneDoubleBond))%nat)
    by (cbn; lia).
  assert (N : (2 <= List.length (stereoAtoms Example.buteneDoubleBond))%nat)
    by (cbn; lia).
  assert (D : stereoAtomDiffers (stereoAtoms Example.buteneDoubleBond) 0 0
              <> stereoAtomDiffers (stereoAtoms Example.buteneDoubleBond) 1 8)
    by (vm_compute; discriminate).
  split; [exact R|]. split; [exact N|]. split; [exact D|].
  exact (proj1 (proj2 (getAtomStereo_flips_on_one_mismatch
                         Example.buteneDoubleBond 0 8)) R N D).
Defined.

(** C7 (counterexample).  The claim as stated: whenever the stored pair of
    stereo atoms is not the pair of observed end atoms, the tag is flipped.
    In (Z)-but-2-ene the stored pair is (0, 3); seen from the two hydrogens
    (7, 8) both stored atoms differ, and the tag stays STEREOZ. *)
Lemma getAtomStereo_both_mismatch_not_flipped :
  ~ (forall (bnd : Bond) (aid1 aid4 : nat) (s0 s1 : Z),
        (stereoRank STEREOANY < stereoRank (stereo bnd))%nat ->
        stereoAtoms bnd = [s0; s1] ->
        (s0, s1) <> (Z.of_nat aid1, Z.of_nat aid4) ->
        _getAtomStereo bnd aid1 aid4 = flipStereo (stereo bnd)).
Proof.
  intro H.
  specialize (H Example.buteneDoubleBond 7%nat 8%nat 0%Z 3%Z).
  assert (E : _getAtomStereo Example.buteneDoubleBond 7 8 = STEREOZ)
    by reflexivity.
  rewrite E in H. cbn in H.
  assert (K : STEREOZ = STEREOE).
  { apply H; [lia | reflexivity | discriminate]. }
  discriminate K.
Qed.

(** ** Ring angles *)





(** ** Computations *)

Lemma bind_ok {A B : Type} (c : M A) (k : A -> M B) (st st' : State) (b : B) :
  bind c k st = (Ok b, st') ->
  exists a st1, c st = (Ok a, st1) /\ k a st1 = (Ok b, st').
Proof.
  unfold bind. destruct (c st) as [[a|e] st1]; intro H.
  - exists a, st1. split; [reflexivity | assumption].
  - discriminate.
Qed.

Lemma forM_ok_inv {A : Type} (body : A -> M unit) (x : A) (l : list A)
    (st st' : State) :
  forM_ (x :: l) body st = (Ok tt, st') ->
  exists st1, body x st = (Ok tt, st1) /\ forM_ l body st1 = (Ok tt, st').
Proof.
  cbn [forM_]. intro H. apply bind_ok in H. destruct H as ([] & st1 & H1 & H2).
  exists st1. split; assumption.
Qed.

(** An invariant of the body of a loop that holds at entry holds at exit,
    whatever the outcome. *)
Lemma forM_invariant {A : Type} (P : State -> Prop) (body : A -> M unit)
    (l : list A) :
  (forall x st, In x l -> P st -> P (snd (body x st))) ->
  forall st, P st -> P (snd (forM_ l body st)).
Proof.
  induction l as [|x l IH]; intros Hb st Hst; cbn [forM_].
  - exact Hst.
  - unfold bind. pose proof (Hb x st (or_introl eq_refl) Hst) as H1.
    destruct (body x st) as [[[]|e] st1]; cbn [snd] in *.
    + apply IH; [|assumption]. intros y s Hy. apply Hb. right. assumption.
    + assumption.
Qed.

Lemma foldM_invariant {A B : Type} (P : State -> Prop) (body : B -> A -> M B)
    (l : list A) :
  (forall b x st, In x l -> P st -> P (snd (body b x st))) ->
  forall b st, P st -> P (snd (foldM body l b st)).
Proof.
  induction l as [|x l IH]; intros Hb b st Hst; cbn [foldM].
  - exact Hst.
  - unfold bind. pose proof (Hb b x st (or_introl eq_refl) Hst) as H1.
    destruct (body b x st) as [[b'|e] st1]; cbn [snd] in *.
    + apply IH; [|assumption]. intros b0 y s Hy. apply Hb. right. assumption.
    + assumption.
Qed.

(** ** Writes routed through the bounds writer *)

Lemma replay_app (l1 l2 : list CasCall) (m : BoundsMatrix) :
  replay (l1 ++ l2) m = replay l2 (replay l1 m).
Proof. unfold replay. apply fold_left_app. Qed.

Lemma via_refl (st : State) : via_checkAndSetBounds st st.
Proof. exists []. split; [symmetry; apply app_nil_r | reflexivity]. Qed.

Lemma via_trans (st1 st2 st3 : State) :
  via_checkAndSetBounds st1 st2 -> via_checkAndSetBounds st2 st3 ->
  via_checkAndSetBounds st1 st3.
Proof.
  intros (n1 & L1 & M1) (n2 & L2 & M2). exists (n1 ++ n2). split.
  - rewrite L2, L1. symmetry. apply app_assoc.
  - rewrite M2, M1. symmetry. apply replay_app.
Qed.

Lemma disc_ret {A : Type} (a : A) : Disciplined (ret a).
Proof. intro st. apply via_refl. Qed.

Lemma disc_throw {A : Type} (e : Exn) : Disciplined (@throw A e).
Proof. intro st. apply via_refl. Qed.

Lemma disc_liftR {A : Type} (r : Result A) : Disciplined (liftR r).
Proof. intro st. apply via_refl. Qed.

Lemma disc_gets {A : Type} (f : State -> A) : Disciplined (gets f).
Proof. intro st. apply via_refl. Qed.

Lemma disc_modifyAccum (f : ComputedData -> ComputedData) :
  Disciplined (modifyAccum f).
Proof.
  intro st. exists []. split; [symmetry; apply app_nil_r | reflexivity].
Qed.

Lemma disc_check (b : bool) (msg : string) : Disciplined (CHECK_INVARIANT b msg).
Proof. destruct b; [apply disc_ret | apply disc_throw]. Qed.

Lemma disc_call (i j : nat) (lb ub : Q) :
  Disciplined (call_checkAndSetBounds i j lb ub).
Proof.
  intro st. unfold call_checkAndSetBounds.
  destruct (_checkAndSetBounds i j lb ub (mmat st)) as [m'|e] eqn:E; cbn [snd].
  - eexists. split; [reflexivity|]. cbn [mmat replay fold_left].
    unfold replay1. cbn [cas_i cas_j cas_lb cas_ub]. rewrite E. reflexivity.
  - apply via_refl.
Qed.

Lemma disc_bind {A B : Type} (c : M A) (k : A -> M B) :
  Disciplined c -> (forall a, Disciplined (k a)) -> Disciplined (bind c k).
Proof.
  intros Hc Hk st. unfold bind. specialize (Hc st).
  destruct (c st) as [[a|e] st1]; cbn [snd] in *.
  - eapply via_trans; [exact Hc | apply Hk].
  - exact Hc.
Qed.

Lemma disc_forM {A : Type} (l : list A) (body : A -> M unit) :
  (forall x, Disciplined (body x)) -> Disciplined (forM_ l body).
Proof.
  intro Hb. induction l as [|x l IH]; cbn [forM_].
  - apply disc_ret.
  - apply disc_bind; [apply Hb | intros _; exact IH].
Qed.

Lemma disc_foldM {A B : Type} (body : B -> A -> M B) (l : list A) (b : B) :
  (forall b x, Disciplined (body b x)) -> Disciplined (foldM body l b).
Proof.
  intro Hb. revert b. induction l as [|x l IH]; intro b; cbn [foldM].
  - apply disc_ret.
  - apply disc_bind; [apply Hb | intro b'; apply IH].
Qed.

Lemma disc_getAccum : Disciplined getAccum.
Proof. apply disc_gets. Qed.

Lemma disc_getMat : Disciplined getMat.
Proof. apply disc_gets. Qed.

Create HintDb disc.

#[local] Hint Resolve disc_ret disc_throw disc_liftR disc_gets disc_getAccum
  disc_getMat disc_modifyAccum disc_check disc_call : disc.

(** Walks through a computation: binds, conditionals and matches. *)
Ltac disc_step :=
  match goal with
  | |- Disciplined (bind _ _) => apply disc_bind; [|intro]
  | |- Disciplined (forM_ _ _) => apply disc_forM; intro
  | |- Disciplined (foldM _ _ _) => apply disc_foldM; intros
  | |- Disciplined (if ?b then _ else _) => destruct b
  | |- Disciplined (match ?x with _ => _ end) => destruct x
  | |- Disciplined _ => solve [auto with disc]
  end.

Ltac disc := repeat (cbv beta zeta; disc_step).

Section Discipline.

Variable O : Oracles.

Lemma disc_precondition (b : bool) (msg : string) : Disciplined (PRECONDITION b msg).
Proof. destruct b; [apply disc_ret | apply disc_throw]. Qed.

Lemma disc_insertCisPath (nb b1 b2 b3 : nat) : Disciplined (insertCisPath nb b1 b2 b3).
Proof. apply disc_modifyAccum. Qed.

Lemma disc_insertTransPath (nb b1 b2 b3 : nat) :
  Disciplined (insertTransPath nb b1 b2 b3).
Proof. apply disc_modifyAccum. Qed.

Lemma disc_push_path14 (p : Path14Configuration) : Disciplined (push_path14 p).
Proof. apply disc_modifyAccum. Qed.

Lemma disc_set_angle_adj (b1 b2 : nat) (angle : Q) (aid : nat) :
  Disciplined (set_angle_adj b1 b2 angle aid).
Proof. apply disc_modifyAccum. Qed.

Lemma disc_mark_set15Atoms (k1 k2 : N) : Disciplined (mark_set15Atoms k1 k2).
Proof. apply disc_modifyAccum. Qed.

Lemma disc_adjAtom (z : Z) : Disciplined (adjAtom z).
Proof. unfold adjAtom. disc. Qed.

Lemma disc_bondBetween (mol : ROMol) (a b : nat) : Disciplined (bondBetween mol a b).
Proof. unfold bondBetween. disc. Qed.

Hint Resolve disc_precondition disc_insertCisPath disc_insertTransPath
  disc_push_path14 disc_set_angle_adj disc_mark_set15Atoms disc_adjAtom
  disc_bondBetween : disc.

Lemma disc_set13BoundsHelper (aid1 aid aid3 : nat) (angle : Q) (mol : ROMol) :
  Disciplined (_set13BoundsHelper O aid1 aid aid3 angle mol).
Proof. unfold _set13BoundsHelper. disc. Qed.

Hint Resolve disc_set13BoundsHelper : disc.

Lemma disc_set13Bounds (mol : ROMol) : Disciplined (set13Bounds O mol).
Proof.
  unfold set13Bounds, set13Bounds_ring, set13Bounds_ringStep, set13Bounds_atom,
    forBondPairs, set13Bounds_ringAtomPair, set13Bounds_chainAtomPair.
  disc.
Qed.

Lemma disc_path14Atoms (mol : ROMol) (bnd1 bnd2 bnd3 : Bond) :
  Disciplined (path14Atoms mol bnd1 bnd2 bnd3).
Proof. unfold path14Atoms. disc. Qed.

Lemma disc_finish14 (bnd1 bnd2 bnd3 : Bond) (aid1 aid4 : nat)
    (r : Q * Q * Path14Type * bool) :
  Disciplined (finish14 bnd1 bnd2 bnd3 aid1 aid4 r).
Proof. unfold finish14. disc. Qed.

Hint Resolve disc_path14Atoms disc_finish14 : disc.

Lemma disc_setInRing14Bounds (mol : ROMol) (bnd1 bnd2 bnd3 : Bond)
    (dmat : N -> Q) (ringSize : nat) :
  Disciplined (_setInRing14Bounds O mol bnd1 bnd2 bnd3 dmat ringSize).
Proof. unfold _setInRing14Bounds. disc. Qed.

Lemma disc_setTwoInSameRing14Bounds (mol : ROMol) (bnd1 bnd2 bnd3 : Bond)
    (dmat : N -> Q) :
  Disciplined (_setTwoInSameRing14Bounds O mol bnd1 bnd2 bnd3 dmat).
Proof. unfold _setTwoInSameRing14Bounds. disc. Qed.

Lemma disc_setChain14Bounds (mol : ROMol) (bnd1 bnd2 bnd3 : Bond)
    (dmat : N -> Q) (forceTransAmides : bool) :
  Disciplined (_setChain14Bounds O mol bnd1 bnd2 bnd3 dmat forceTransAmides).
Proof. unfold _setChain14Bounds. disc. Qed.

Lemma disc_record14Path (mol : ROMol) (b1 b2 b3 : nat) :
  Disciplined (_record14Path mol b1 b2 b3).
Proof. unfold _record14Path. disc. Qed.

Lemma disc_setMacrocycleTwoInSameRing14Bounds (mol : ROMol)
    (bnd1 bnd2 bnd3 : Bond) (dmat : N -> Q) :
  Disciplined (_setMacrocycleTwoInSameRing14Bounds O mol bnd1 bnd2 bnd3 dmat).
Proof. unfold _setMacrocycleTwoInSameRing14Bounds. disc. Qed.

Lemma disc_setMacrocycleAllInSameRing14Bounds (mol : ROMol)
    (bnd1 bnd2 bnd3 : Bond) (dmat : N -> Q) :
  Disciplined (_setMacrocycleAllInSameRing14Bounds O mol bnd1 bnd2 bnd3 dmat).
Proof. unfold _setMacrocycleAllInSameRing14Bounds. disc. Qed.

Hint Resolve disc_setInRing14Bounds disc_setTwoInSameRing14Bounds
  disc_setChain14Bounds disc_record14Path
  disc_setMacrocycleTwoInSameRing14Bounds
  disc_setMacrocycleAllInSameRing14Bounds : disc.

Lemma disc_set14Bounds (mol : ROMol) (distMatrix : N -> Q)
    (useMacrocycle14config forceTransAmides : bool) :
  Disciplined (set14Bounds O mol distMatrix useMacrocycle14config forceTransAmides).
Proof.
  unfold set14Bounds, set14Bounds_ring, set14Bounds_ringStep, set14Bounds_bond,
    set14Bounds_path, _setTwoInDiffRing14Bounds, _setShareRingBond14Bounds.
  disc.
Qed.

Lemma disc_set15BoundsHelper (mol : ROMol) (b1 b2 b3 : nat) (t : Path14Type)
    (dmat : N -> Q) :
  Disciplined (_set15BoundsHelper O mol b1 b2 b3 t dmat).
Proof. unfold _set15BoundsHelper, _set15BoundsHelper_bond. disc. Qed.

Hint Resolve disc_set15BoundsHelper : disc.

Lemma disc_set15Bounds (mol : ROMol) (distMatrix : N -> Q) :
  Disciplined (set15Bounds O mol distMatrix).
Proof. unfold set15Bounds. disc. Qed.

End Discipline.

(** ** Computations that only read *)

Lemma ro_ret {A : Type} (a : A) : ReadOnly (ret a).
Proof. intro st. reflexivity. Qed.

Lemma ro_throw {A : Type} (e : Exn) : ReadOnly (@throw A e).
Proof. intro st. reflexivity. Qed.

Lemma ro_liftR {A : Type} (r : Result A) : ReadOnly (liftR r).
Proof. intro st. reflexivity. Qed.

Lemma ro_gets {A : Type} (f : State -> A) : ReadOnly (gets f).
Proof. intro st. reflexivity. Qed.

Lemma ro_getAccum : ReadOnly getAccum.
Proof. intro st. reflexivity. Qed.

Lemma ro_getMat : ReadOnly getMat.
Proof. intro st. reflexivity. Qed.

Lemma ro_check (b : bool) (msg : string) : ReadOnly (CHECK_INVARIANT b msg).
Proof. destruct b; intro st; reflexivity. Qed.

Lemma ro_precondition (b : bool) (msg : string) : ReadOnly (PRECONDITION b msg).
Proof. destruct b; intro st; reflexivity. Qed.

Lemma ro_bind {A B : Type} (c : M A) (k : A -> M B) :
  ReadOnly c -> (forall a, ReadOnly (k a)) -> ReadOnly (bind c k).
Proof.
  intros Hc Hk st. unfold bind. specialize (Hc st).
  destruct (c st) as [[a|e] st1]; cbn [snd] in *; subst st1.
  - apply Hk.
  - reflexivity.
Qed.

Lemma ro_foldM {A B : Type} (body : B -> A -> M B) (l : list A) (b : B) :
  (forall b x, ReadOnly (body b x)) -> ReadOnly (foldM body l b).
Proof.
  intro Hb. revert b. induction l as [|x l IH]; intro b; cbn [foldM].
  - apply ro_ret.
  - apply ro_bind; [apply Hb | intro b'; apply IH].
Qed.

Lemma ro_forM {A : Type} (l : list A) (body : A -> M unit) :
  (forall x, ReadOnly (body x)) -> ReadOnly (forM_ l body).
Proof.
  intro Hb. induction l as [|x l IH]; cbn [forM_].
  - apply ro_ret.
  - apply ro_bind; [apply Hb | intros _; exact IH].
Qed.

Create HintDb ro.

#[local] Hint Resolve ro_ret ro_throw ro_liftR ro_gets ro_getAccum ro_getMat
  ro_check ro_precondition : ro.

Ltac ro_step :=
  match goal with
  | |- ReadOnly (bind _ _) => apply ro_bind; [|intro]
  | |- ReadOnly (forM_ _ _) => apply ro_forM; intro
  | |- ReadOnly (foldM _ _ _) => apply ro_foldM; intros
  | |- ReadOnly (if ?b then _ else _) => destruct b
  | |- ReadOnly (match ?x with _ => _ end) => destruct x
  | |- ReadOnly _ => solve [auto with ro]
  end.

Ltac ro := repeat (cbv beta zeta; ro_step).

(** A computation that only reads either fails where it stands or returns a
    value where it stands. *)
Lemma ro_run {A : Type} (c : M A) (st : State) :
  ReadOnly c -> c st = (fst (c st), st).
Proof.
  intro H. specialize (H st). destruct (c st) as [r st1]. cbn in *. congruence.
Qed.

Lemma bind_ro_inv {A B : Type} (P : State -> Prop) (c : M A) (k : A -> M B)
    (st : State) :
  ReadOnly c -> P st -> (forall a, P (snd (k a st))) -> P (snd (bind c k st)).
Proof.
  intros Hc Hst Hk. unfold bind. specialize (Hc st).
  destruct (c st) as [[a|e] st1]; cbn [snd] in *; subst st1.
  - apply Hk.
  - exact Hst.
Qed.

(** ** Pass 1 *)

Section Pass1.

Variable O : Oracles.

Lemma ro_set12Bounds_squish (mol : ROMol) (sq : list nat) (bond : Bond) :
  ReadOnly (set12Bounds_squish mol sq bond).
Proof. unfold set12Bounds_squish. ro. Qed.

Lemma set12Bounds_bond_effect (mol : ROMol)
    (atomParams : list (option (AtomicParams O))) (squishAtoms : list nat)
    (bond : Bond) (st : State) :
  casLog (snd (set12Bounds_bond O mol atomParams squishAtoms bond st)) = casLog st /\
  (mmat (snd (set12Bounds_bond O mol atomParams squishAtoms bond st)) = mmat st \/
   wrote12 (mmat st)
           (mmat (snd (set12Bounds_bond O mol atomParams squishAtoms bond st)))
           bond).
Proof.
  assert (Crude : forall bl : Q, 0 < 0.5 * bl -> 0.5 * bl <= 1.5 * bl)
    by (intros bl H; lra).
  unfold set12Bounds_bond, bind, liftR, set_bondLength, modifyAccum,
    mmat_setUpperBound, mmat_setLowerBound.
  destruct (nth (beginAtomIdx bond) atomParams None) as [p1|];
    [destruct (nth (endAtomIdx bond) atomParams None) as [p2|];
     [destruct (Qltb 0 (bondTypeAsDouble bond))|]|];
    try (destruct (getAtomWithIdx mol (beginAtomIdx bond)) as [a1|e1];
         [destruct (getAtomWithIdx mol (endAtomIdx bond)) as [a2|e2]|]);
    cbn [snd mmat casLog];
    (split; [reflexivity|]);
    try (left; reflexivity);
    right; eexists; eexists; (split; [|reflexivity]);
    try apply Crude.
  all: destruct (memb (beginAtomIdx bond) squishAtoms
                 || memb (endAtomIdx bond) squishAtoms);
    unfold DIST12_DELTA; intro; lra.
Qed.

Lemma after12_refl (mol : ROMol) (m : BoundsMatrix) : after12 mol m m.
Proof. split; [reflexivity|]. intros a b _. left. split; reflexivity. Qed.

Lemma after12_step (mol : ROMol) (m0 m m' : BoundsMatrix) (bond : Bond) :
  In bond (bonds mol) -> after12 mol m0 m -> wrote12 m m' bond ->
  after12 mol m0 m'.
Proof.
  intros Hin [HR HE] (lo & up & Hlu & ->). split.
  - rewrite numRows_setLowerBound, numRows_setUpperBound. exact HR.
  - intros a b Hab.
    destruct (samePair_dec (beginAtomIdx bond) (endAtomIdx bond) a b) as [S|NS].
    + right. split; [exists bond; split; assumption|].
      assert (Hbe : beginAtomIdx bond <> endAtomIdx bond)
        by (destruct S as [[<- <-]|[<- <-]]; congruence).
      rewrite (samePair_lower _ _ _ _ _ S), (samePair_upper _ _ _ _ _ S).
      rewrite getLowerBound_setLowerBound_same.
      rewrite getUpperBound_setLowerBound by assumption.
      rewrite getUpperBound_setUpperBound_same. exact Hlu.
    + rewrite getLowerBound_setLowerBound_other by assumption.
      rewrite getLowerBound_setUpperBound by assumption.
      rewrite getUpperBound_setLowerBound by assumption.
      rewrite getUpperBound_setUpperBound_other by assumption.
      apply HE. assumption.
Qed.

(** [set12Bounds] makes no call of [_checkAndSetBounds]: it overwrites the
    bounds of the bonded pairs and leaves every other pair alone. *)
Lemma set12Bounds_effect (mol : ROMol) (st : State) :
  casLog (snd (set12Bounds O mol st)) = casLog st /\
  after12 mol (mmat st) (mmat (snd (set12Bounds O mol st))).
Proof.
  set (P := fun s : State => casLog s = casLog st /\ after12 mol (mmat st) (mmat s)).
  assert (P0 : P st) by (split; [reflexivity | apply after12_refl]).
  change (P (snd (set12Bounds O mol st))).
  unfold set12Bounds.
  apply bind_ro_inv; [auto with ro | exact P0 | intro npt].
  apply bind_ro_inv; [auto with ro | exact P0 | intros _].
  apply bind_ro_inv; [auto with ro | exact P0 | intro accum].
  apply bind_ro_inv; [auto with ro | exact P0 | intros _].
  cbv zeta.
  apply bind_ro_inv; [auto with ro | exact P0 | intros _].
  apply bind_ro_inv;
    [apply ro_foldM; intros; apply ro_set12Bounds_squish | exact P0 | intro sq].
  apply forM_invariant; [|exact P0].
  intros bond s Hin [HL HA].
  destruct (set12Bounds_bond_effect mol (fst (getAtomTypes O mol)) sq bond s)
    as [EL [EM|EW]].
  - split; [congruence|]. rewrite EM. exact HA.
  - split; [congruence|]. eapply after12_step; eassumption.
Qed.

End Pass1.

(** ** Pass 5 *)

Section Pass5.

Variable O : Oracles.

Lemma keepsUpper_refl (st : State) : keepsUpper st st.
Proof. repeat split. Qed.

Lemma keepsUpper_trans (st1 st2 st3 : State) :
  keepsUpper st1 st2 -> keepsUpper st2 st3 -> keepsUpper st1 st3.
Proof.
  intros (L1 & A1 & R1 & U1) (L2 & A2 & R2 & U2).
  repeat split; try congruence.
  intros a b Hab. rewrite U2, U1 by assumption. reflexivity.
Qed.

(** One pair: the lower bound is written when it is below DIST12_DELTA. *)
Lemma setLowerBoundVDW_pair_ok (mol : ROMol) (dmat : N -> Q) (npt i : nat)
    (ai : Atom) (j : nat) (st st' : State) :
  i <> j ->
  setLowerBoundVDW_pair O mol dmat npt i (getRvdw O (atomicNum ai)) j st
    = (Ok tt, st') ->
  keepsUpper st st' /\
  (exists aj, nth_error (atoms mol) j = Some aj /\
     getLowerBound (mmat st') i j
     = vdwUpdate O dmat npt i j ai aj (getLowerBound (mmat st) i j)) /\
  (forall a b, ~ samePair i j a b ->
     getLowerBound (mmat st') a b = getLowerBound (mmat st) a b).
Proof.
  intros Hij H.
  unfold setLowerBoundVDW_pair, bind, liftR, getAtomWithIdx, getMat, gets in H.
  destruct (nth_error (atoms mol) j) as [aj|] eqn:Ej; [|discriminate].
  unfold vdwUpdate, vdwLowerBound.
  destruct (Qltb (getLowerBound (mmat st) i j) DIST12_DELTA) eqn:EL.
  - assert (W : forall v, (Ok tt, st') = mmat_setLowerBound i j v st ->
                keepsUpper st st' /\
                getLowerBound (mmat st') i j = v /\
                (forall a b, ~ samePair i j a b ->
                   getLowerBound (mmat st') a b = getLowerBound (mmat st) a b)).
    { intros v E. unfold mmat_setLowerBound in E. injection E as ->.
      cbn [mmat casLog accumData]. repeat split.
      - apply numRows_setLowerBound.
      - intros a b Hab. apply getUpperBound_setLowerBound. assumption.
      - apply getLowerBound_setLowerBound_same.
      - intros a b NS. apply getLowerBound_setLowerBound_other. assumption. }
    destruct (Qeq_bool (dmat (flatIdx i npt j)) 4);
      [|destruct (Qeq_bool (dmat (flatIdx i npt j)) 5)];
      (destruct (W _ (eq_sym H)) as (K & V & F);
       split; [exact K|]; split; [exists aj; split; [reflexivity | exact V]|];
       exact F).
  - unfold ret in H. injection H as <-.
    split; [apply keepsUpper_refl|]. split; [|reflexivity].
    exists aj. split; reflexivity.
Qed.

(** The inner loop over the partners [j] of an atom [i]. *)
Lemma setLowerBoundVDW_inner (mol : ROMol) (dmat : N -> Q) (npt i : nat)
    (ai : Atom) (l : list nat) :
  NoDup l -> (forall j, In j l -> i <> j) ->
  forall st st' : State,
    forM_ l (setLowerBoundVDW_pair O mol dmat npt i (getRvdw O (atomicNum ai))) st
      = (Ok tt, st') ->
    keepsUpper st st' /\
    (forall j, In j l ->
       exists aj, nth_error (atoms mol) j = Some aj /\
         getLowerBound (mmat st') i j
         = vdwUpdate O dmat npt i j ai aj (getLowerBound (mmat st) i j)) /\
    (forall a b, (forall j, In j l -> ~ samePair i j a b) ->
       getLowerBound (mmat st') a b = getLowerBound (mmat st) a b).
Proof.
  induction l as [|j0 l IH]; intros ND Hne st st' H.
  - cbn [forM_] in H. unfold ret in H. injection H as <-.
    split; [apply keepsUpper_refl|]. split; [intros j []|reflexivity].
  - apply forM_ok_inv in H. destruct H as (st1 & H1 & H2).
    inversion ND as [|? ? Hnotin ND']; subst.
    apply setLowerBoundVDW_pair_ok in H1; [|apply Hne; left; reflexivity].
    destruct H1 as (K1 & (a0 & Ea0 & V1) & F1).
    apply IH in H2; [|assumption|intros j Hj; apply Hne; right; assumption].
    destruct H2 as (K2 & V2 & F2).
    split; [eapply keepsUpper_trans; eassumption|]. split.
    + intros j [<-|Hj].
      * exists a0. split; [assumption|]. rewrite F2; [exact V1|].
        intros j Hj [[_ E]|[E1 E2]].
        -- subst j. contradiction.
        -- apply (Hne j0); [left; reflexivity | congruence].
      * destruct (V2 j Hj) as (aj & Eaj & V). exists aj. split; [assumption|].
        rewrite V. f_equal. apply F1.
        intros [[_ E]|[E1 E2]].
        -- subst j. contradiction.
        -- apply (Hne j0); [left; reflexivity | congruence].
    + intros a b NS. rewrite F2 by (intros j Hj; apply NS; right; assumption).
      apply F1. apply NS. left. reflexivity.
Qed.

(** The outer loop over the atoms [i]. *)
Lemma setLowerBoundVDW_outer (mol : ROMol) (dmat : N -> Q) (npt : nat)
    (l : list nat) :
  NoDup l ->
  forall st st' : State,
    forM_ l (fun i =>
               ai <- liftR (getAtomWithIdx mol i) ;;
               forM_ (seq 0 i)
                     (setLowerBoundVDW_pair O mol dmat npt i
                        (getRvdw O (atomicNum ai)))) st
      = (Ok tt, st') ->
    keepsUpper st st' /\
    (forall i j, In i l -> (j < i)%nat ->
       exists ai aj,
         nth_error (atoms mol) i = Some ai /\ nth_error (atoms mol) j = Some aj /\
         getLowerBound (mmat st') i j
         = vdwUpdate O dmat npt i j ai aj (getLowerBound (mmat st) i j)) /\
    (forall a b, (forall i j, In i l -> (j < i)%nat -> ~ samePair i j a b) ->
       getLowerBound (mmat st') a b = getLowerBound (mmat st) a b).
Proof.
  induction l as [|i0 l IH]; intros ND st st' H.
  - cbn [forM_] in H. unfold ret in H. injection H as <-.
    split; [apply keepsUpper_refl|]. split; [intros i j []|reflexivity].
  - apply forM_ok_inv in H. destruct H as (st1 & H1 & H2).
    inversion ND as [|? ? Hnotin ND']; subst.
    unfold bind at 1, liftR, getAtomWithIdx in H1.
    destruct (nth_error (atoms mol) i0) as [a0|] eqn:Ea0; [|discriminate].
    apply setLowerBoundVDW_inner in H1;
      [|apply seq_NoDup|intros j Hj; apply in_seq in Hj; lia].
    destruct H1 as (K1 & V1 & F1).
    apply IH in H2; [|assumption].
    destruct H2 as (K2 & V2 & F2).
    assert (Other : forall i j j', In i l -> (j < i)%nat -> (j' < i0)%nat ->
                      ~ samePair i j i0 j').
    { intros i j j' Hi Hj Hj' [[E1 E2]|[E1 E2]].
      - subst i. contradiction.
      - lia. }
    split; [eapply keepsUpper_trans; eassumption|]. split.
    + intros i j [<-|Hi] Hj.
      * destruct (V1 j) as (aj & Eaj & V); [apply in_seq; lia|].
        exists a0, aj. split; [assumption|]. split; [assumption|].
        rewrite F2; [exact V|].
        intros i j' Hi Hj'. apply Other; assumption.
      * destruct (V2 i j Hi Hj) as (ai & aj & Eai & Eaj & V).
        exists ai, aj. split; [assumption|]. split; [assumption|].
        rewrite V. f_equal. apply F1.
        intros j' Hj' S. apply in_seq in Hj'.
        apply (Other i j j' Hi Hj); [lia|].
        destruct S as [[E1 E2]|[E1 E2]]; [left|right]; split; congruence.
    + intros a b NS.
      rewrite F2 by (intros i j Hi Hj; apply NS; [right|]; assumption).
      apply F1. intros j Hj. apply in_seq in Hj.
      apply NS; [left; reflexivity | lia].
Qed.

(** A successful [setLowerBoundVDW]: the matrix has one row per atom; every
    pair [j < i] of atoms gets its lower bound updated once; nothing else
    changes. *)
Lemma setLowerBoundVDW_ok (mol : ROMol) (b : bool) (dmat : N -> Q)
    (st st' : State) :
  setLowerBoundVDW O mol b dmat st = (Ok tt, st') ->
  numRows (mmat st) = getNumAtoms mol /\
  keepsUpper st st' /\
  forall i j, (j < i)%nat -> (i < getNumAtoms mol)%nat ->
    exists ai aj,
      nth_error (atoms mol) i = Some ai /\ nth_error (atoms mol) j = Some aj /\
      getLowerBound (mmat st') i j
      = vdwUpdate O dmat (getNumAtoms mol) i j ai aj (getLowerBound (mmat st) i j).
Proof.
  intro H. unfold setLowerBoundVDW in H.
  apply bind_ok in H. destruct H as (npt & s1 & H1 & H).
  unfold gets in H1. injection H1 as <- <-.
  apply bind_ok in H. destruct H as ([] & s2 & H2 & H).
  unfold PRECONDITION in H2.
  destruct (Nat.eqb_spec (numRows (mmat st)) (getNumAtoms mol)) as [E|E];
    [|discriminate].
  unfold ret in H2. injection H2 as <-.
  split; [exact E|].
  apply setLowerBoundVDW_outer in H; [|apply seq_NoDup].
  destruct H as (K & V & _). split; [exact K|].
  intros i j Hj Hi. rewrite <- E.
  apply V; [apply in_seq; lia | assumption].
Qed.

End Pass5.

(** ** The van der Waals pass and its switch *)

(** C10.  [setTopolBounds] (either overload) gives the same outcome and the
    same state whether [scaleVDW] is true or false: [setLowerBoundVDW] does
    not look at its boolean parameter.  Whatever that parameter, a
    successful [setLowerBoundVDW] writes the lower bound of every pair
    [j < i] whose lower bound is unset for this pass (below DIST12_DELTA),
    with the topological scaling: VDW_SCALE_15 (0.7) times the sum of the
    two radii when the atoms are 4 bonds apart, 0.85 times the sum when they
    are 5 bonds apart, and the sum otherwise; a lower bound that is not
    below DIST12_DELTA, and every upper bound, stay as they are. *)
Theorem setTopolBounds_ignores_scaleVDW (O : Oracles) (mol : ROMol)
    (set15bounds useMacrocycle14config forceTransAmides : bool) :
  (forall st : State,
      setTopolBounds O mol set15bounds true useMacrocycle14config
                     forceTransAmides st
      = setTopolBounds O mol set15bounds false useMacrocycle14config
                       forceTransAmides st) /\
  (forall st : State,
      setTopolBounds_bondsAngles O mol set15bounds true useMacrocycle14config
                                 forceTransAmides st
      = setTopolBounds_bondsAngles O mol set15bounds false
                                   useMacrocycle14config forceTransAmides st) /\
  (forall (useTopolScaling : bool) (dmat : N -> Q) (st st' : State)
          (i j : nat) (ai aj : Atom),
      setLowerBoundVDW O mol useTopolScaling dmat st = (Ok tt, st') ->
      (j < i)%nat -> (i < getNumAtoms mol)%nat ->
      nth_error (atoms mol) i = Some ai -> nth_error (atoms mol) j = Some aj ->
      (getLowerBound (mmat st) i j < DIST12_DELTA ->
         (dmat (flatIdx i (getNumAtoms mol) j) == 4 ->
            getLowerBound (mmat st') i j
            = VDW_SCALE_15 * (getRvdw O (atomicNum ai) + getRvdw O (atomicNum aj))) /\
         (~ dmat (flatIdx i (getNumAtoms mol) j) == 4 ->
          dmat (flatIdx i (getNumAtoms mol) j) == 5 ->
            getLowerBound (mmat st') i j
            = (VDW_SCALE_15 + 0.5 * (1 - VDW_SCALE_15))
              * (getRvdw O (atomicNum ai) + getRvdw O (atomicNum aj))) /\
         (~ dmat (flatIdx i (getNumAtoms mol) j) == 4 ->
          ~ dmat (flatIdx i (getNumAtoms mol) j) == 5 ->
            getLowerBound (mmat st') i j
            = getRvdw O (atomicNum ai) + getRvdw O (atomicNum aj))) /\
      (DIST12_DELTA <= getLowerBound (mmat st) i j ->
         getLowerBound (mmat st') i j = getLowerBound (mmat st) i j) /\
      getUpperBound (mmat st') i j = getUpperBound (mmat st) i j) /\
  VDW_SCALE_15 == 0.7 /\ VDW_SCALE_15 + 0.5 * (1 - VDW_SCALE_15) == 0.85.
Proof.
  split; [intro st; reflexivity|].
  split; [intro st; reflexivity|].
  split; [|split; reflexivity].
  intros b dmat st st' i j ai aj H Hj Hi Eai Eaj.
  apply setLowerBoundVDW_ok in H. destruct H as (_ & K & V).
  destruct (V i j Hj Hi) as (ai' & aj' & Eai' & Eaj' & E).
  rewrite Eai in Eai'. injection Eai' as <-.
  rewrite Eaj in Eaj'. injection Eaj' as <-.
  destruct K as (_ & _ & _ & KU).
  split; [|split; [|apply KU; lia]].
  - intro HL. apply Qltb_lt in HL.
    unfold vdwUpdate in E. rewrite HL in E. unfold vdwLowerBound in E.
    repeat split.
    + intro D4. apply Qeq_bool_iff in D4. rewrite D4 in E. exact E.
    + intros N4 D5. apply Qeq_bool_iff in D5.
      destruct (Qeq_bool (dmat (flatIdx i (getNumAtoms mol) j)) 4) eqn:E4;
        [apply Qeq_bool_iff in E4; contradiction|].
      rewrite D5 in E. exact E.
    + intros N4 N5.
      destruct (Qeq_bool (dmat (flatIdx i (getNumAtoms mol) j)) 4) eqn:E4;
        [apply Qeq_bool_iff in E4; contradiction|].
      destruct (Qeq_bool (dmat (flatIdx i (getNumAtoms mol) j)) 5) eqn:E5;
        [apply Qeq_bool_iff in E5; contradiction|].
      exact E.
  - intro HL. apply Qltb_ge in HL. unfold vdwUpdate in E. rewrite HL in E.
    exact E.
Qed.

(** Two helium atoms on a fresh matrix: the pass succeeds, the pair (1, 0)
    is unset and not 4 or 5 bonds apart, and gets the sum of the two radii. *)
Lemma setTopolBounds_ignores_scaleVDW_witness :
  setLowerBoundVDW Example.oracles Example.twoHelium true
    (Example.distanceMat Example.twoHelium) (Example.freshState 2)
  = (Ok tt, Example.heliumAfterVDW) /\
  (0 < 1)%nat /\ (1 < getNumAtoms Example.twoHelium)%nat /\
  nth_error (atoms Example.twoHelium) 1 = Some (Example.mkAtom 1 2 HYB_OTHER 0) /\
  nth_error (atoms Example.twoHelium) 0 = Some (Example.mkAtom 0 2 HYB_OTHER 0) /\
  getLowerBound (mmat (Example.freshState 2)) 1 0 < DIST12_DELTA /\
  ~ Example.distanceMat Example.twoHelium
      (flatIdx 1 (getNumAtoms Example.twoHelium) 0) == 4 /\
  ~ Example.distanceMat Example.twoHelium
      (flatIdx 1 (getNumAtoms Example.twoHelium) 0) == 5 /\
  getLowerBound (mmat Example.heliumAfterVDW) 1 0
  = getRvdw Example.oracles 2 + getRvdw Example.oracles 2.
Proof.
  assert (R : setLowerBoundVDW Example.oracles Example.twoHelium true
                (Example.distanceMat Example.twoHelium) (Example.freshState 2)
              = (Ok tt, Example.heliumAfterVDW)) by reflexivity.
  assert (H01 : (0 < 1)%nat) by lia.
  assert (H1n : (1 < getNumAtoms Example.twoHelium)%nat) by (cbn; lia).
  assert (L0 : getLowerBound (mmat (Example.freshState 2)) 1 0 < DIST12_DELTA)
    by reflexivity.
  assert (N4 : ~ Example.distanceMat Example.twoHelium
                   (flatIdx 1 (getNumAtoms Example.twoHelium) 0) == 4)
    by (vm_compute; discriminate).
  assert (N5 : ~ Example.distanceMat Example.twoHelium
                   (flatIdx 1 (getNumAtoms Example.twoHelium) 0) == 5)
    by (vm_compute; discriminate).
  split; [exact R|]. split; [exact H01|]. split; [exact H1n|].
  split; [reflexivity|]. split; [reflexivity|]. split; [exact L0|].
  split; [exact N4|]. split; [exact N5|].
  exact (proj2 (proj2 (proj1
           (proj1 (proj2 (proj2 (setTopolBounds_ignores_scaleVDW
                                   Example.oracles Example.twoHelium
                                   true false true)))
              true _ _ _ 1%nat 0%nat _ _ R H01 H1n eq_refl eq_refl) L0)) N4 N5).
Defined.

(** ** Which passes write through the bounds writer *)

Lemma setLowerBoundVDW_no_call (O : Oracles) (mol : ROMol) (b : bool)
    (dmat : N -> Q) (st : State) :
  casLog (snd (setLowerBoundVDW O mol b dmat st)) = casLog st.
Proof.
  set (P := fun s : State => casLog s = casLog st).
  change (P (snd (setLowerBoundVDW O mol b dmat st))).
  assert (P0 : P st) by reflexivity.
  unfold setLowerBoundVDW.
  apply bind_ro_inv; [auto with ro | exact P0 | intro npt].
  apply bind_ro_inv; [auto with ro | exact P0 | intros _].
  apply forM_invariant; [|exact P0].
  intros i s _ Ps.
  apply bind_ro_inv; [auto with ro | exact Ps | intro ai].
  cbv zeta. apply forM_invariant; [|exact Ps].
  intros j s' _ Ps'.
  unfold setLowerBoundVDW_pair.
  apply bind_ro_inv; [auto with ro | exact Ps' | intro aj].
  cbv zeta. apply bind_ro_inv; [auto with ro | exact Ps' | intro m].
  destruct (Qltb (getLowerBound m i j) DIST12_DELTA); [|exact Ps'].
  destruct (Qeq_bool (dmat (flatIdx i npt j)) 4);
    [|destruct (Qeq_bool (dmat (flatIdx i npt j)) 5)]; exact Ps'.
Qed.

(** C3 (as amended).  The passes Set13, Set14 and Set15 write the matrix
    only through [_checkAndSetBounds]: whatever their outcome, the matrix
    they leave is the one they were given with the calls of
    [_checkAndSetBounds] they made replayed on it in order.  The passes
    Set12 and VdwLowerBounds make no such call: they write the matrix
    directly. *)
Theorem passes_13_14_15_write_through_checkAndSetBounds (O : Oracles)
    (mol : ROMol) (distMatrix : N -> Q)
    (useMacrocycle14config forceTransAmides scaleVDW : bool) (st : State) :
  via_checkAndSetBounds st (snd (set13Bounds O mol st)) /\
  via_checkAndSetBounds st
    (snd (set14Bounds O mol distMatrix useMacrocycle14config forceTransAmides st)) /\
  via_checkAndSetBounds st (snd (set15Bounds O mol distMatrix st)) /\
  casLog (snd (set12Bounds O mol st)) = casLog st /\
  casLog (snd (setLowerBoundVDW O mol scaleVDW distMatrix st)) = casLog st.
Proof.
  split; [apply disc_set13Bounds|].
  split; [apply disc_set14Bounds|].
  split; [apply disc_set15Bounds|].
  split; [apply set12Bounds_effect | apply setLowerBoundVDW_no_call].
Qed.

(** C3 (counterexample).  The claim as stated: every pass of
    [setTopolBounds] routes every update through [_checkAndSetBounds].  For
    ethane on a fresh matrix [setTopolBounds] succeeds without a single call
    of [_checkAndSetBounds], and yet the bounds of the bonded pair (0, 1)
    have changed: [set12Bounds] wrote them. *)
Lemma setTopolBounds_writes_past_checkAndSetBounds :
  ~ (forall (O : Oracles) (mol : ROMol)
            (set15bounds scaleVDW useMacrocycle14config forceTransAmides : bool)
            (st : State),
        via_checkAndSetBounds st
          (snd (setTopolBounds O mol set15bounds scaleVDW
                               useMacrocycle14config forceTransAmides st))).
Proof.
  intro H.
  destruct (H Example.oracles Example.ethane true true false true
              (Example.freshState 2)) as (new & HL & HM).
  assert (E : casLog (snd (setTopolBounds Example.oracles Example.ethane
                             true true false true (Example.freshState 2))) = [])
    by (vm_compute; reflexivity).
  rewrite E in HL. cbn [Example.freshState Example.startState casLog app] in HL.
  subst new. cbn [replay fold_left] in HM.
  assert (U : getUpperBound
                (mmat (snd (setTopolBounds Example.oracles Example.ethane
                              true true false true (Example.freshState 2)))) 0 1
              == 1.524) by (vm_compute; reflexivity).
  rewrite HM in U. vm_compute in U. discriminate.
Qed.

(** ** The state of the matrix after a run *)

Section InitBoundsMat.

Variables (dmin dmax : Q).

Let step (i : nat) (m : BoundsMatrix) (j : nat) : BoundsMatrix :=
  setLowerBound (setUpperBound m i j dmax) i j dmin.

Let initialised (m : BoundsMatrix) (a b : nat) : Prop :=
  getLowerBound m a b = dmin /\ getUpperBound m a b = dmax.

Lemma initBoundsMat_step (m : BoundsMatrix) (i j a b : nat) :
  a <> b ->
  (samePair i j a b -> initialised (step i m j) a b) /\
  (initialised m a b -> initialised (step i m j) a b) /\
  numRows (step i m j) = numRows m.
Proof.
  intro Hab. unfold step, initialised.
  assert (R : numRows (setLowerBound (setUpperBound m i j dmax) i j dmin)
              = numRows m)
    by (rewrite numRows_setLowerBound, numRows_setUpperBound; reflexivity).
  assert (S : samePair i j a b ->
              getLowerBound (setLowerBound (setUpperBound m i j dmax) i j dmin) a b
              = dmin /\
              getUpperBound (setLowerBound (setUpperBound m i j dmax) i j dmin) a b
              = dmax).
  { intro S. rewrite (samePair_lower _ _ _ _ _ S), (samePair_upper _ _ _ _ _ S).
    assert (Hij : i <> j) by (destruct S as [[<- <-]|[<- <-]]; congruence).
    rewrite getLowerBound_setLowerBound_same.
    rewrite getUpperBound_setLowerBound by assumption.
    rewrite getUpperBound_setUpperBound_same. split; reflexivity. }
  split; [exact S|]. split; [|exact R].
  intro I. destruct (samePair_dec i j a b) as [S'|NS]; [apply S; assumption|].
  rewrite getLowerBound_setLowerBound_other by assumption.
  rewrite getLowerBound_setUpperBound by assumption.
  rewrite getUpperBound_setLowerBound by assumption.
  rewrite getUpperBound_setUpperBound_other by assumption.
  exact I.
Qed.

Lemma initBoundsMat_inner (i a b : nat) (Hab : a <> b) (l : list nat) :
  forall m : BoundsMatrix,
    numRows (fold_left (step i) l m) = numRows m /\
    (initialised m a b -> initialised (fold_left (step i) l m) a b) /\
    ((exists j, In j l /\ samePair i j a b) ->
     initialised (fold_left (step i) l m) a b).
Proof.
  induction l as [|j0 l IH]; intro m; cbn [fold_left].
  - split; [reflexivity|]. split; [tauto|]. intros (j & [] & _).
  - destruct (IH (step i m j0)) as (R & K & C).
    destruct (initBoundsMat_step m i j0 a b Hab) as (S1 & K1 & R1).
    split; [congruence|]. split; [tauto|].
    intros (j & [<-|Hj] & S).
    + apply K. apply S1. exact S.
    + apply C. exists j. split; assumption.
Qed.

Lemma initBoundsMat_outer (a b : nat) (Hab : a <> b) (l : list nat) :
  forall m : BoundsMatrix,
    numRows (fold_left (fun m i => fold_left (step i) (seq 0 i) m) l m)
    = numRows m /\
    (initialised m a b ->
     initialised (fold_left (fun m i => fold_left (step i) (seq 0 i) m) l m) a b) /\
    ((exists i j, In i l /\ (j < i)%nat /\ samePair i j a b) ->
     initialised (fold_left (fun m i => fold_left (step i) (seq 0 i) m) l m) a b).
Proof.
  induction l as [|i0 l IH]; intro m; cbn [fold_left].
  - split; [reflexivity|]. split; [tauto|]. intros (i & j & [] & _).
  - destruct (IH (fold_left (step i0) (seq 0 i0) m)) as (R & K & C).
    destruct (initBoundsMat_inner i0 a b Hab (seq 0 i0) m) as (R1 & K1 & C1).
    split; [congruence|]. split; [tauto|].
    intros (i & j & [<-|Hi] & Hj & S).
    + apply K. apply C1. exists j. split; [apply in_seq; lia | exact S].
    + apply C. exists i, j. repeat split; assumption.
Qed.

(** [initBoundsMat] gives every pair of distinct indices within the matrix
    the default bounds and keeps the size. *)
Lemma initBoundsMat_spec (m : BoundsMatrix) (a b : nat) :
  a <> b -> (a < numRows m)%nat -> (b < numRows m)%nat ->
  getLowerBound (initBoundsMat m dmin dmax) a b = dmin /\
  getUpperBound (initBoundsMat m dmin dmax) a b = dmax.
Proof.
  intros Hab Ha Hb.
  destruct (initBoundsMat_outer a b Hab (seq 1 (numRows m - 1)) m) as (_ & _ & C).
  apply C.
  destruct (Nat.lt_ge_cases a b).
  - exists b, a. split; [apply in_seq; lia|]. split; [assumption|].
    right. split; reflexivity.
  - exists a, b. split; [apply in_seq; lia|]. split; [lia|].
    left. split; reflexivity.
Qed.

Lemma initBoundsMat_numRows (m : BoundsMatrix) :
  numRows (initBoundsMat m dmin dmax) = numRows m.
Proof.
  destruct (initBoundsMat_outer 0 1 (fun H => O_S 0 H) (seq 1 (numRows m - 1)) m)
    as (R & _).
  exact R.
Qed.

End InitBoundsMat.

Section Replay.

Variables (dmin dmax : Q).
Hypothesis dmin_unset : dmin <= DIST12_DELTA.
Hypothesis dmax_unset : MAX_UPPER <= dmax.





End Replay.

Section BoundsAfterRun.

Variable O : Oracles.




End BoundsAfterRun.




(** ** The feasibility gates of the 1-4 routines *)

Lemma ro_path14Atoms (mol : ROMol) (bnd1 bnd2 bnd3 : Bond) :
  ReadOnly (path14Atoms mol bnd1 bnd2 bnd3).
Proof. unfold path14Atoms. ro. Qed.

Lemma path14Atoms_run (mol : ROMol) (bnd1 bnd2 bnd3 : Bond) (st : State)
    (r : Atom * Atom * nat * nat) :
  fst (path14Atoms mol bnd1 bnd2 bnd3 st) = Ok r ->
  path14Atoms mol bnd1 bnd2 bnd3 st = (Ok r, st).
Proof.
  intro H. rewrite (ro_run _ st (ro_path14Atoms mol bnd1 bnd2 bnd3)), H.
  reflexivity.
Qed.

Section Gates14.

Variable O : Oracles.
Variables (mol : ROMol) (bnd1 bnd2 bnd3 : Bond) (dmat : N -> Q) (st : State).
Variables (atm2 atm3 : Atom) (aid1 aid4 : nat).
Hypothesis Hpath :
  fst (path14Atoms mol bnd1 bnd2 bnd3 st) = Ok (atm2, atm3, aid1, aid4).




End Gates14.




(** ** Amides and esters on chain paths *)

Lemma checkAndSetBounds_succeeds (i j : nat) (lb ub : Q) (m : BoundsMatrix) :
  lb < ub ->
  DIST12_DELTA < lb \/ DIST12_DELTA < getLowerBound m i j ->
  exists m', _checkAndSetBounds i j lb ub m = Ok m'.
Proof.
  intros H1 H2. unfold _checkAndSetBounds.
  apply Qltb_lt in H1. rewrite H1. cbn [negb].
  assert (E : Qltb DIST12_DELTA lb || Qltb DIST12_DELTA (getLowerBound m i j)
              = true).
  { apply orb_true_iff. destruct H2 as [H2|H2]; apply Qltb_lt in H2; auto. }
  rewrite E. cbn [negb]. eexists. reflexivity.
Qed.

(** Bounds that are 2 * GEN_DIST_TOL apart are not widened. *)
Lemma widenBounds_tol (d : Q) :
  widenBounds (d - GEN_DIST_TOL) (d + GEN_DIST_TOL)
  = (d - GEN_DIST_TOL, d + GEN_DIST_TOL).
Proof.
  unfold widenBounds.
  assert (E : Qltb (Qabs (d + GEN_DIST_TOL - (d - GEN_DIST_TOL))) DIST12_DELTA
              = false).
  { apply Qltb_ge.
    assert (H : d + GEN_DIST_TOL - (d - GEN_DIST_TOL) == 0.12)
      by (unfold GEN_DIST_TOL; ring).
    rewrite H. vm_compute. discriminate. }
  rewrite E. reflexivity.
Qed.

(** The amide pattern, in either direction, has a carbon in the middle of
    the path. *)
Lemma checkAmideEster14_not_disulfide (bnd1 bnd3 : Bond)
    (atm1 atm2 atm3 atm4 : Atom) :
  _checkAmideEster14 bnd1 bnd3 atm1 atm2 atm3 atm4
  || _checkAmideEster14 bnd3 bnd1 atm4 atm3 atm2 atm1 = true ->
  (atomicNum atm2 =? 16)%nat && (atomicNum atm3 =? 16)%nat = false.
Proof.
  unfold _checkAmideEster14. intro H. apply orb_true_iff in H.
  destruct H as [H|H];
    repeat (apply andb_true_iff in H; destruct H as [H ?]);
    apply Nat.eqb_eq in H; rewrite H; cbn;
    [apply andb_false_r | reflexivity].
Qed.

(** C5 (as amended).  A chain path whose middle bond is SINGLE and that
    matches the amide/ester pattern in either direction, with
    forceTransAmides = true and a call that passes the checks of
    [_checkAndSetBounds]: the routine offers d - 0.06 and d + 0.06 for the two
    ends, where d is the trans distance, the tag TRANS and the set transPaths
    if an end atom is the hydrogen of a secondary amide nitrogen next to it,
    and the cis distance, the tag CIS and the set cisPaths otherwise; the
    path is appended with its tag, both orientations of its key are inserted
    into the set, and where the pair has no lower (upper) bound yet the
    offered one is installed. *)
Theorem setChain14Bounds_forced_amide (O : Oracles) (mol : ROMol)
    (bnd1 bnd2 bnd3 : Bond) (dmat : N -> Q) (st : State)
    (atm1 atm2 atm3 atm4 : Atom) (aid1 aid4 : nat) :
  let accum := accumData st in
  let nb := getNumBonds mol in
  let isH := isSecondaryAmideH mol atm1 atm2 || isSecondaryAmideH mol atm4 atm3 in
  let d := if isH then trans14 O accum bnd1 bnd2 bnd3
           else cis14 O accum bnd1 bnd2 bnd3 in
  let keys := [pathKey nb (bondIdx bnd3) (bondIdx bnd2) (bondIdx bnd1);
               pathKey nb (bondIdx bnd1) (bondIdx bnd2) (bondIdx bnd3)] in
  fst (path14Atoms mol bnd1 bnd2 bnd3 st) = Ok (atm2, atm3, aid1, aid4) ->
  getAtomWithIdx mol aid1 = Ok atm1 ->
  getAtomWithIdx mol aid4 = Ok atm4 ->
  0 < bondAngles accum (bondIdx bnd1) (bondIdx bnd2) ->
  0 < bondAngles accum (bondIdx bnd2) (bondIdx bnd3) ->
  bondType bnd2 = SINGLE ->
  _checkAmideEster14 bnd1 bnd3 atm1 atm2 atm3 atm4
  || _checkAmideEster14 bnd3 bnd1 atm4 atm3 atm2 atm1 = true ->
  aid1 <> aid4 ->
  DIST12_DELTA < d - GEN_DIST_TOL
  \/ DIST12_DELTA < getLowerBound (mmat st) aid1 aid4 ->
  exists st',
    _setChain14Bounds O mol bnd1 bnd2 bnd3 dmat true st = (Ok tt, st') /\
    casLog st' = casLog st ++ [{| cas_i := aid1; cas_j := aid4;
                                  cas_lb := d - GEN_DIST_TOL;
                                  cas_ub := d + GEN_DIST_TOL |}] /\
    (getLowerBound (mmat st) aid1 aid4 <= DIST12_DELTA ->
       getLowerBound (mmat st') aid1 aid4 = d - GEN_DIST_TOL) /\
    (MAX_UPPER <= getUpperBound (mmat st) aid1 aid4 ->
       getUpperBound (mmat st') aid1 aid4 = d + GEN_DIST_TOL) /\
    paths14 (accumData st')
    = paths14 accum ++ [mkPath14 bnd1 bnd2 bnd3 (if isH then TRANS else CIS)] /\
    transPaths (accumData st')
    = (if isH then keys else []) ++ transPaths accum /\
    cisPaths (accumData st')
    = (if isH then [] else keys) ++ cisPaths accum.
Proof.
  intros accum nb isH d keys Hpath H1 H4 A12 A23 HS Hpat Hne Hchk.
  assert (Hlt : d - GEN_DIST_TOL < d + GEN_DIST_TOL)
    by (unfold GEN_DIST_TOL; lra).
  destruct (checkAndSetBounds_succeeds aid1 aid4 _ _ (mmat st) Hlt Hchk)
    as [m' Hm'].
  destruct (checkAndSetBounds_step _ _ _ _ _ _ Hne Hm') as (L & _ & U & _).
  pose proof (checkAmideEster14_not_disulfide _ _ _ _ _ _ Hpat) as HSS.
  apply Qltb_lt in A12, A23.
  unfold _setChain14Bounds, bind, liftR, getAccum, gets.
  rewrite (path14Atoms_run _ _ _ _ _ _ Hpath). cbv beta iota zeta.
  rewrite H1, H4. fold accum. rewrite A12, A23. cbn [CHECK_INVARIANT ret].
  cbv beta iota. rewrite HS, HSS, Hpat.
  fold (cis14 O accum bnd1 bnd2 bnd3) (trans14 O accum bnd1 bnd2 bnd3).
  fold isH. subst d keys.
  destruct isH;
    unfold insertTransPath, insertCisPath, modifyAccum, ret, finish14;
    rewrite widenBounds_tol; unfold bind, call_checkAndSetBounds;
    cbn [mmat accumData casLog]; rewrite Hm';
    unfold push_path14, modifyAccum; cbn [mmat accumData casLog];
    (eexists; split; [reflexivity|]);
    cbn [mmat accumData casLog paths14 transPaths cisPaths app];
    repeat split; assumption.
Qed.

(** N-methylacetamide after Passes 1 and 2, the path H8-N3-C1=O2 (bonds 7, 2,
    1): the hydrogen of the secondary amide, so the trans distance. *)
Lemma setChain14Bounds_forced_amide_witness :
  let mol := Example.methylacetamide in
  let st := Example.afterPass2 mol in
  let b7 := Example.mkBond 7 3 8 SINGLE in
  let b2 := Example.mkBond 2 1 3 SINGLE in
  let b1 := Example.mkBond 1 1 2 DOUBLE in
  let aH := Example.mkAtom 8 1 HYB_OTHER 0 in
  let aN := Example.mkAtom 3 7 SP2 1 in
  let aC := Example.mkAtom 1 6 SP2 0 in
  let aO := Example.mkAtom 2 8 SP2 0 in
  let d := trans14 Example.oracles (accumData st) b7 b2 b1 in
  isSecondaryAmideH mol aH aN || isSecondaryAmideH mol aO aC = true /\
  fst (path14Atoms mol b7 b2 b1 st) = Ok (aN, aC, 8%nat, 2%nat) /\
  _checkAmideEster14 b7 b1 aH aN aC aO || _checkAmideEster14 b1 b7 aO aC aN aH
  = true /\
  DIST12_DELTA < d - GEN_DIST_TOL /\
  exists st',
    _setChain14Bounds Example.oracles mol b7 b2 b1 (Example.distanceMat mol)
                      true st = (Ok tt, st') /\
    getLowerBound (mmat st') 8 2 = d - GEN_DIST_TOL /\
    getUpperBound (mmat st') 8 2 = d + GEN_DIST_TOL /\
    paths14 (accumData st')
    = paths14 (accumData st) ++ [mkPath14 b7 b2 b1 TRANS].
Proof.
  intros mol st b7 b2 b1 aH aN aC aO d.
  assert (HH : isSecondaryAmideH mol aH aN || isSecondaryAmideH mol aO aC = true)
    by (vm_compute; reflexivity).
  assert (Hp : fst (path14Atoms mol b7 b2 b1 st) = Ok (aN, aC, 8%nat, 2%nat))
    by (vm_compute; reflexivity).
  assert (Hpat : _checkAmideEster14 b7 b1 aH aN aC aO
                 || _checkAmideEster14 b1 b7 aO aC aN aH = true)
    by (vm_compute; reflexivity).
  assert (Hd : DIST12_DELTA < d - GEN_DIST_TOL) by (vm_compute; reflexivity).
  assert (H1 : getAtomWithIdx mol 8 = Ok aH) by (vm_compute; reflexivity).
  assert (H4 : getAtomWithIdx mol 2 = Ok aO) by (vm_compute; reflexivity).
  assert (A12 : 0 < bondAngles (accumData st) (bondIdx b7) (bondIdx b2))
    by (vm_compute; reflexivity).
  assert (A23 : 0 < bondAngles (accumData st) (bondIdx b2) (bondIdx b1))
    by (vm_compute; reflexivity).
  assert (L0 : getLowerBound (mmat st) 8 2 <= DIST12_DELTA)
    by (vm_compute; discriminate).
  assert (U0 : MAX_UPPER <= getUpperBound (mmat st) 8 2)
    by (vm_compute; discriminate).
  split; [exact HH|]. split; [exact Hp|]. split; [exact Hpat|].
  split; [exact Hd|].
  pose proof (setChain14Bounds_forced_amide Example.oracles mol b7 b2 b1
                (Example.distanceMat mol) st aH aN aC aO 8 2) as T.
  cbv zeta in T. rewrite HH in T.
  destruct (T Hp H1 H4 A12 A23 eq_refl Hpat ltac:(discriminate) (or_introl Hd))
    as (st' & R & _ & L & U & P & _).
  exists st'. split; [exact R|]. split; [exact (L L0)|].
  split; [exact (U U0)|]. exact P.
Defined.

(** C5 (counterexample).  Acetamide is a primary amide: its nitrogen carries
    two hydrogens, so the paths H-N-C=O do not match the amide pattern.
    After Passes 1 to 3 with forceTransAmides = true the bounds between
    either amide hydrogen (atoms 4 and 5) and the carbonyl oxygen (atom 0)
    run from the cis to the trans distance, and no path is tagged TRANS. *)
Lemma acetamide_amide_hydrogen_not_forced_trans :
  let st := Example.afterPass3 Example.acetamide true in
  let b3 := Example.mkBond 3 2 4 SINGLE in
  let b4 := Example.mkBond 4 2 5 SINGLE in
  let b1 := Example.mkBond 1 1 2 SINGLE in
  let b0 := Example.mkBond 0 0 1 DOUBLE in
  let trans := trans14 Example.oracles (accumData st) in
  let cis := cis14 Example.oracles (accumData st) in
  ~ getLowerBound (mmat st) 4 0 == trans b3 b1 b0 - GEN_DIST_TOL /\
  ~ getUpperBound (mmat st) 4 0 == trans b3 b1 b0 + GEN_DIST_TOL /\
  ~ getLowerBound (mmat st) 5 0 == trans b4 b1 b0 - GEN_DIST_TOL /\
  ~ getUpperBound (mmat st) 5 0 == trans b4 b1 b0 + GEN_DIST_TOL /\
  getLowerBound (mmat st) 4 0 == cis b3 b1 b0 /\
  getUpperBound (mmat st) 4 0 == trans b3 b1 b0 /\
  transPaths (accumData st) = [].
Proof.
  vm_compute. repeat split; discriminate.
Qed.

(** ** The preflight of the 1-5 helper *)

Lemma membN_head2 (k1 k2 : N) (l : list N) :
  membN k1 (k2 :: k1 :: l) = true.
Proof.
  unfold membN. cbn [existsb]. rewrite N.eqb_refl, orb_true_l, orb_true_r.
  reflexivity.
Qed.

(** C6 (as amended).  For the candidate pair ([aid1], [aid5]) that the bond
    [i] adds to a 1-4 path ending in [aid4]: the helper leaves the state as
    it is when the distance-matrix entry of the pair is below 3.9, or
    [aid1 = aid5], or the pair has a lower bound of at least DIST12_DELTA and
    neither of its two set15Atoms flags is set.  Otherwise (entry at least
    3.9, distinct atoms, and no such lower bound or a flag set) it does not
    reject the pair: it offers the bounds that [bounds15] computes (with
    MAX_UPPER for the upper bound when none was computed) to
    [_checkAndSetBounds] in one call on the pair.  When that call throws,
    the exception leaves the state as it is; when it returns, the matrix is
    the one it returns, both flags of the pair are set, and the records of
    the earlier passes are as they were. *)
Theorem set15BoundsHelper_preflight (O : Oracles) (mol : ROMol)
    (bid1 bid2 bid3 : nat) (t : Path14Type) (dmat : N -> Q) (aid1 aid4 : nat)
    (d1 d2 d3 ang12 ang23 : Q) (i : nat) (st : State) (bi : Bond) (aid5 : nat) :
  let run := _set15BoundsHelper_bond O mol bid1 bid2 bid3 t dmat aid1 aid4
                                     d1 d2 d3 ang12 ang23 i st in
  let accum := accumData st in
  let pid1 := flatIdx aid1 (getNumAtoms mol) aid5 in
  let pid2 := flatIdx aid5 (getNumAtoms mol) aid1 in
  bondAdj accum bid3 i = Z.of_nat aid4 ->
  getBondWithIdx mol i = Ok bi ->
  getOtherAtomIdx bi aid4 = Ok aid5 ->
  (dmatEnds dmat (numRows (mmat st)) aid1 aid5 < 3.9 \/ aid1 = aid5 \/
   (DIST12_DELTA <= getLowerBound (mmat st) aid1 aid5 /\
    flagged15 mol accum aid1 aid5 = false) ->
   run = (Ok tt, st)) /\
  (3.9 <= dmatEnds dmat (numRows (mmat st)) aid1 aid5 -> aid1 <> aid5 ->
   getLowerBound (mmat st) aid1 aid5 < DIST12_DELTA
   \/ flagged15 mol accum aid1 aid5 = true ->
   forall a1 a5 : Atom,
     getAtomWithIdx mol aid1 = Ok a1 -> getAtomWithIdx mol aid5 = Ok a5 ->
     let computed :=
       bounds15 O accum t (pathKey (getNumBonds mol) bid2 bid3 i)
                d1 d2 d3 (bondLength accum i) ang12 ang23
                (bondAngles accum bid3 i)
                (getRvdw O (atomicNum a1)) (getRvdw O (atomicNum a5)) in
     let dl := fst computed in
     let du := if Qltb (snd computed) 0 then MAX_UPPER else snd computed in
     (forall e, _checkAndSetBounds aid1 aid5 dl du (mmat st) = Throw e ->
        run = (Throw e, st)) /\
     (forall m', _checkAndSetBounds aid1 aid5 dl du (mmat st) = Ok m' ->
        exists st',
          run = (Ok tt, st') /\
          mmat st' = m' /\
          casLog st' = casLog st ++ [{| cas_i := aid1; cas_j := aid5;
                                        cas_lb := dl; cas_ub := du |}] /\
          set15Atoms (accumData st') = pid2 :: pid1 :: set15Atoms accum /\
          membN pid1 (set15Atoms (accumData st')) = true /\
          membN pid2 (set15Atoms (accumData st')) = true /\
          pathRecords st' = pathRecords st)).
Proof.
  intros run accum pid1 pid2 Hadj Hbi H5. subst run accum pid1 pid2.
  unfold _set15BoundsHelper_bond, bind, getAccum, getMat, gets, liftR, flagged15.
  cbv beta iota zeta. rewrite Hadj, Z.eqb_refl, Hbi, H5.
  split.
  - intros [Hd|[He|[HL HF]]].
    + apply Qltb_lt in Hd. rewrite Hd. reflexivity.
    + destruct (Qltb (dmatEnds dmat (numRows (mmat st)) aid1 aid5) 3.9);
        [reflexivity|].
      apply Nat.eqb_eq in He. rewrite He. reflexivity.
    + destruct (Qltb (dmatEnds dmat (numRows (mmat st)) aid1 aid5) 3.9);
        [reflexivity|].
      destruct (negb (aid1 =? aid5)%nat); [|reflexivity].
      cbv beta. rewrite <- orb_assoc.
      apply Qltb_ge in HL. rewrite HL, HF. reflexivity.
  - intros Hd Hne HW a1 a5 Ha1 Ha5.
    apply Qltb_ge in Hd. rewrite Hd.
    apply Nat.eqb_neq in Hne. rewrite Hne. cbn [negb]. cbv beta.
    rewrite <- orb_assoc.
    assert (E : Qltb (getLowerBound (mmat st) aid1 aid5) DIST12_DELTA
                || (membN (flatIdx aid1 (getNumAtoms mol) aid5)
                          (set15Atoms (accumData st))
                    || membN (flatIdx aid5 (getNumAtoms mol) aid1)
                             (set15Atoms (accumData st))) = true).
    { destruct HW as [HW|HW]; [apply Qltb_lt in HW; rewrite HW|rewrite HW];
        auto using orb_true_r. }
    rewrite E, Ha1, Ha5. cbv beta.
    destruct (bounds15 O (accumData st) t (pathKey (getNumBonds mol) bid2 bid3 i)
                d1 d2 d3 (bondLength (accumData st) i)
                ang12 ang23 (bondAngles (accumData st) bid3 i)
                (getRvdw O (atomicNum a1)) (getRvdw O (atomicNum a5)))
      as [dl du]. cbn [fst snd].
    unfold call_checkAndSetBounds.
    split.
    + intros e He. rewrite He. reflexivity.
    + intros m' Hm. rewrite Hm. unfold mark_set15Atoms, modifyAccum.
      eexists. split; [reflexivity|].
      cbn [mmat casLog accumData set15Atoms].
      split; [reflexivity|]. split; [reflexivity|]. split; [reflexivity|].
      split; [apply membN_head2|].
      split; [|reflexivity].
      unfold membN. cbn [existsb]. rewrite N.eqb_refl. reflexivity.
Qed.

(** Two candidates.  Cyclopropane after Passes 1 and 2, the path of the
    bonds 0, 1, 2 from atom 0 to atom 0, continued by bond 0 to atom 1: the
    entry of the distance matrix for the atoms 0 and 1 is 1, and the
    candidate is rejected.  Azocine, the pair (0, 4) reached a second time
    (path of the bonds 7, 6, 5 from atom 0 to atom 5, continued by bond 4):
    its flag is set, the call succeeds and both flags are set afterwards. *)
Lemma set15BoundsHelper_preflight_witness :
  (let mol := Example.cyclopropane in
   let st := Example.afterPass2 mol in
   bondAdj (accumData st) 2 0 = 0%Z /\
   getBondWithIdx mol 0 = Ok (Example.mkBond 0 0 1 SINGLE) /\
   getOtherAtomIdx (Example.mkBond 0 0 1 SINGLE) 0 = Ok 1%nat /\
   dmatEnds (Example.distanceMat mol) (numRows (mmat st)) 0 1 < 3.9 /\
   _set15BoundsHelper_bond Example.oracles mol 0 1 2 OTHER
     (Example.distanceMat mol) 0 0 1 1 1 1 1 0 st = (Ok tt, st)) /\
  (let mol := Example.azocine in
   let st := Example.azocineOnce in
   let accum := accumData st in
   bondAdj accum 5 4 = 5%Z /\
   getBondWithIdx mol 4 = Ok (Example.mkBond 4 4 5 DOUBLE) /\
   getOtherAtomIdx (Example.mkBond 4 4 5 DOUBLE) 5 = Ok 4%nat /\
   3.9 <= dmatEnds (Example.distanceMat mol) (numRows (mmat st)) 0 4 /\
   flagged15 mol accum 0 4 = true /\
   exists st',
     _set15BoundsHelper_bond Example.oracles mol 7 6 5 CIS
       (Example.distanceMat mol) 0 5
       (bondLength accum 7) (bondLength accum 6) (bondLength accum 5)
       (bondAngles accum 7 6) (bondAngles accum 6 5) 4 st = (Ok tt, st') /\
     membN (flatIdx 0 8 4) (set15Atoms (accumData st')) = true /\
     membN (flatIdx 4 8 0) (set15Atoms (accumData st')) = true).
Proof.
  split.
  - intros mol st.
    assert (Hadj : bondAdj (accumData st) 2 0 = Z.of_nat 0)
      by (vm_compute; reflexivity).
    assert (Hbi : getBondWithIdx mol 0 = Ok (Example.mkBond 0 0 1 SINGLE))
      by (vm_compute; reflexivity).
    assert (H5 : getOtherAtomIdx (Example.mkBond 0 0 1 SINGLE) 0 = Ok 1%nat)
      by (vm_compute; reflexivity).
    assert (Hd : dmatEnds (Example.distanceMat mol) (numRows (mmat st)) 0 1 < 3.9)
      by (vm_compute; reflexivity).
    split; [exact Hadj|]. split; [exact Hbi|]. split; [exact H5|].
    split; [exact Hd|].
    exact (proj1 (set15BoundsHelper_preflight Example.oracles mol 0 1 2 OTHER
                    (Example.distanceMat mol) 0 0 1 1 1 1 1 0 st _ 1
                    Hadj Hbi H5) (or_introl Hd)).
  - intros mol st accum.
    assert (Hadj : bondAdj accum 5 4 = Z.of_nat 5) by (vm_compute; reflexivity).
    assert (Hbi : getBondWithIdx mol 4 = Ok (Example.mkBond 4 4 5 DOUBLE))
      by (vm_compute; reflexivity).
    assert (H5 : getOtherAtomIdx (Example.mkBond 4 4 5 DOUBLE) 5 = Ok 4%nat)
      by (vm_compute; reflexivity).
    assert (Hd : 3.9 <= dmatEnds (Example.distanceMat mol) (numRows (mmat st)) 0 4)
      by (vm_compute; discriminate).
    assert (Hf : flagged15 mol accum 0 4 = true) by (vm_compute; reflexivity).
    assert (Ha1 : getAtomWithIdx mol 0 = Ok (Example.mkAtom 0 6 SP2 1))
      by (vm_compute; reflexivity).
    assert (Ha5 : getAtomWithIdx mol 4 = Ok (Example.mkAtom 4 6 SP2 1))
      by (vm_compute; reflexivity).
    split; [exact Hadj|]. split; [exact Hbi|]. split; [exact H5|].
    split; [exact Hd|]. split; [exact Hf|].
    pose proof (proj2 (set15BoundsHelper_preflight Example.oracles mol 7 6 5 CIS
                    (Example.distanceMat mol) 0 5
                    (bondLength accum 7) (bondLength accum 6) (bondLength accum 5)
                    (bondAngles accum 7 6) (bondAngles accum 6 5) 4 st _ 4
                    Hadj Hbi H5) Hd (fun E => O_S 3 E) (or_intror Hf) _ _ Ha1 Ha5)
      as [_ T].
    cbv zeta in T.
    match type of T with
    | forall m', ?c = Ok m' -> _ =>
        destruct c as [m'|e] eqn:Hm;
          [|exfalso; revert Hm; vm_compute; discriminate]
    end.
    destruct (T m' eq_refl) as (st' & R & _ & _ & _ & F1 & F2 & _).
    exists st'. repeat split; assumption.
Defined.

(** C6 (counterexample).  Azocine, after the helper has dealt with the pair
    (0, 4) along the path 0-1-2-3-4: the pair has a lower bound that is set
    and its flag is set.  The helper then reaches the same pair along the
    other side of the ring (path of the bonds 7, 6, 5 from atom 0 to atom 5,
    continued by bond 4 to atom 4) and, far from rejecting it, lowers the
    lower bound of the pair. *)
Lemma set15BoundsHelper_writes_flagged_pair :
  let mol := Example.azocine in
  let st := Example.azocineOnce in
  let accum := accumData st in
  let st' :=
    snd (_set15BoundsHelper_bond Example.oracles mol 7 6 5 CIS
           (Example.distanceMat mol) 0 5
           (bondLength accum 7) (bondLength accum 6) (bondLength accum 5)
           (bondAngles accum 7 6) (bondAngles accum 6 5) 4 st) in
  bondAdj accum 5 4 = 5%Z /\
  getBondWithIdx mol 4 = Ok (Example.mkBond 4 4 5 DOUBLE) /\
  getOtherAtomIdx (Example.mkBond 4 4 5 DOUBLE) 5 = Ok 4%nat /\
  membN (flatIdx 0 (getNumAtoms mol) 4) (set15Atoms accum) = true /\
  DIST12_DELTA < getLowerBound (mmat st) 0 4 /\
  getLowerBound (mmat st') 0 4 < getLowerBound (mmat st) 0 4.
Proof.
  vm_compute. repeat split; reflexivity.
Qed.

(** ** The input checks of the two entry points *)

(** C9.  For a molecule with at least one atom and at least MAX_NUM_BONDS
    bonds: the plain entry point throws the ValueErrorException at entry,
    the state as it was; the entry point that also collects the bonds and
    the angles has no such test, runs Passes 1 and 2, and throws in the state
    they leave, the ValueErrorException coming from [set14Bounds]. *)
Theorem setTopolBounds_bond_limit (O : Oracles) (mol : ROMol)
    (set15bounds scaleVDW useMacrocycle14config forceTransAmides : bool)
    (st : State) :
  let tooMany :=
    ValueErrorException
      "Too many bonds in the molecule, cannot compute 1-4 bounds" in
  getNumAtoms mol <> 0%nat ->
  (MAX_NUM_BONDS <= N.of_nat (getNumBonds mol))%N ->
  setTopolBounds O mol set15bounds scaleVDW useMacrocycle14config
                 forceTransAmides st = (Throw tooMany, st) /\
  (forall st2, passes12 O mol st = (Ok tt, st2) ->
     setTopolBounds_bondsAngles O mol set15bounds scaleVDW
                                useMacrocycle14config forceTransAmides st
     = (Throw (if (numRows (mmat st2) =? getNumAtoms mol)%nat then tooMany
               else Invariant "Wrong size metric matrix"), st2)) /\
  (forall e st2, passes12 O mol st = (Throw e, st2) ->
     setTopolBounds_bondsAngles O mol set15bounds scaleVDW
                                useMacrocycle14config forceTransAmides st
     = (Throw e, st2)).
Proof.
  intros tooMany Hna Hnb.
  apply Nat.eqb_neq in Hna. apply N.leb_le in Hnb.
  split; [|split].
  - unfold setTopolBounds. rewrite Hna, Hnb. reflexivity.
  - intros st2 H. unfold setTopolBounds_bondsAngles. rewrite Hna.
    unfold passes12, bind in H. unfold bind.
    destruct (modifyAccum
                (fun _ => newComputedData (getNumAtoms mol) (getNumBonds mol)) st)
      as [[[]|e0] s0]; [|discriminate].
    destruct (set12Bounds O mol s0) as [[[]|e1] s1]; [|discriminate].
    rewrite H.
    unfold set14Bounds, bind, gets, CHECK_INVARIANT.
    destruct (numRows (mmat st2) =? getNumAtoms mol)%nat; cbn [ret throw].
    + rewrite Hnb. reflexivity.
    + reflexivity.
  - intros e st2 H. unfold setTopolBounds_bondsAngles. rewrite Hna.
    unfold passes12, bind in H. unfold bind.
    destruct (modifyAccum
                (fun _ => newComputedData (getNumAtoms mol) (getNumBonds mol)) st)
      as [[[]|e0] s0]; [|congruence].
    destruct (set12Bounds O mol s0) as [[[]|e1] s1]; [|congruence].
    destruct (set13Bounds O mol s1) as [[[]|e2] s2]; [discriminate | congruence].
Qed.

(** An unbranched alkane with MAX_NUM_BONDS bonds: the plain entry point
    throws at entry. *)
Lemma setTopolBounds_bond_limit_witness :
  let mol := Example.bigAlkane in
  let st := entryState mol (Example.zeroMatrix (getNumAtoms mol)) in
  getNumAtoms mol <> 0%nat /\
  (MAX_NUM_BONDS <= N.of_nat (getNumBonds mol))%N /\
  setTopolBounds Example.oracles mol true true false false st
  = (Throw (ValueErrorException
              "Too many bonds in the molecule, cannot compute 1-4 bounds"), st).
Proof.
  intros mol st.
  assert (Hna : getNumAtoms mol <> 0%nat).
  { unfold mol, Example.bigAlkane, Example.alkane, getNumAtoms. cbn [atoms].
    rewrite length_map, length_seq. discriminate. }
  assert (Hnb : (MAX_NUM_BONDS <= N.of_nat (getNumBonds mol))%N).
  { unfold mol, Example.bigAlkane, Example.alkane, getNumBonds. cbn [bonds].
    rewrite length_map, length_seq, N2Nat.id. apply N.le_refl. }
  split; [exact Hna|]. split; [exact Hnb|].
  exact (proj1 (setTopolBounds_bond_limit Example.oracles mol true true false
                  false st Hna Hnb)).
Defined.

(** ** Further properties of the bounds writer *)

(** [_checkAndSetBounds] accepts a call exactly when the offered upper bound
    exceeds the offered lower bound and the offered or the current lower
    bound exceeds DIST12_DELTA. *)
Theorem checkAndSetBounds_accepts_iff (i j : nat) (lb ub : Q) (m : BoundsMatrix) :
  (exists m', _checkAndSetBounds i j lb ub m = Ok m') <->
  lb < ub /\ (DIST12_DELTA < lb \/ DIST12_DELTA < getLowerBound m i j).
Proof.
  split.
  - intros [m' H]. apply checkAndSetBounds_ok in H.
    destruct H as (H1 & H2 & _). split; assumption.
  - intros [H1 H2]. apply checkAndSetBounds_succeeds; assumption.
Qed.

(** A successful call repeated with the same arguments succeeds again and
    changes no bound. *)
Theorem checkAndSetBounds_idempotent (i j : nat) (lb ub : Q)
    (m m' : BoundsMatrix) :
  i <> j ->
  _checkAndSetBounds i j lb ub m = Ok m' ->
  exists m'',
    _checkAndSetBounds i j lb ub m' = Ok m'' /\
    forall a b, a <> b ->
      getLowerBound m'' a b = getLowerBound m' a b /\
      getUpperBound m'' a b = getUpperBound m' a b.
Proof.
  intros Hij H.
  pose proof (checkAndSetBounds_ok _ _ _ _ _ _ H) as (Hlt & Hchk & _).
  destruct (checkAndSetBounds_step _ _ _ _ _ _ Hij H) as (L1 & L2 & U1 & U2).
  assert (Hchk' : DIST12_DELTA < lb \/ DIST12_DELTA < getLowerBound m' i j).
  { destruct (Qlt_le_dec DIST12_DELTA lb) as [G|G]; [left; exact G|right].
    destruct Hchk as [G'|G']; [lra|].
    destruct (L2 G') as [[-> _]|(_ & _ & G'')]; [exact G' | lra]. }
  destruct (checkAndSetBounds_succeeds i j lb ub m' Hlt Hchk') as [m'' H'].
  exists m''. split; [exact H'|].
  intros a b Hab.
  destruct (samePair_dec i j a b) as [S|NS].
  - rewrite !(samePair_lower _ _ _ _ _ S), !(samePair_upper _ _ _ _ _ S).
    destruct (checkAndSetBounds_step _ _ _ _ _ _ Hij H') as (L1' & L2' & U1' & U2').
    split.
    + destruct (Qlt_le_dec DIST12_DELTA (getLowerBound m' i j)) as [G|G].
      * destruct (L2' G) as [[E _]|(E & G1 & G2)]; [exact E|].
        exfalso.
        destruct (Qlt_le_dec DIST12_DELTA (getLowerBound m i j)) as [G0|G0].
        -- destruct (L2 G0) as [[E0 [G3|G3]]|(E0 & _ & _)];
             rewrite E0 in G1; lra.
        -- rewrite (L1 G0) in G1. lra.
      * rewrite (L1' G).
        destruct (Qlt_le_dec DIST12_DELTA (getLowerBound m i j)) as [G0|G0].
        -- destruct (L2 G0) as [[E0 _]|(E0 & _ & _)];
             [rewrite E0 in G; lra | symmetry; exact E0].
        -- symmetry. exact (L1 G0).
    + destruct (Qlt_le_dec (getUpperBound m' i j) MAX_UPPER) as [G|G].
      * destruct (U2' G) as [[E _]|(E & G1 & G2)]; [exact E|].
        exfalso.
        destruct (Qlt_le_dec (getUpperBound m i j) MAX_UPPER) as [G0|G0].
        -- destruct (U2 G0) as [[E0 [G3|G3]]|(E0 & _ & _)];
             rewrite E0 in G1; lra.
        -- rewrite (U1 G0) in G1. lra.
      * rewrite (U1' G).
        destruct (Qlt_le_dec (getUpperBound m i j) MAX_UPPER) as [G0|G0].
        -- destruct (U2 G0) as [[E0 _]|(E0 & _ & _)];
             [rewrite E0 in G; lra | symmetry; exact E0].
        -- symmetry. exact (U1 G0).
  - apply (checkAndSetBounds_frame _ _ _ _ _ _ a b H' NS).
Qed.

Lemma checkAndSetBounds_idempotent_witness :
  exists m'',
    _checkAndSetBounds 0 1 2 3 Example.onceSet = Ok m'' /\
    getLowerBound m'' 0 1 = getLowerBound Example.onceSet 0 1 /\
    getUpperBound m'' 0 1 = getUpperBound Example.onceSet 0 1.
Proof.
  assert (H : _checkAndSetBounds 0 1 2 3 (initBoundsMat (Example.zeroMatrix 2) 0 1000)
              = Ok Example.onceSet) by reflexivity.
  destruct (checkAndSetBounds_idempotent 0 1 2 3 _ _ ltac:(discriminate) H)
    as (m'' & H' & E).
  exists m''. split; [exact H'|]. apply E. discriminate.
Defined.

(** A call on one pair leaves the bounds of every other pair, and the size
    of the matrix, as they are. *)
Theorem checkAndSetBounds_other_pairs (i j : nat) (lb ub : Q)
    (m m' : BoundsMatrix) (a b : nat) :
  _checkAndSetBounds i j lb ub m = Ok m' ->
  ~ samePair i j a b ->
  getLowerBound m' a b = getLowerBound m a b /\
  getUpperBound m' a b = getUpperBound m a b /\
  numRows m' = numRows m.
Proof.
  intros H NS.
  destruct (checkAndSetBounds_frame _ _ _ _ _ _ a b H NS) as [E1 E2].
  split; [exact E1|]. split; [exact E2|].
  eapply checkAndSetBounds_numRows; eassumption.
Qed.

Lemma checkAndSetBounds_other_pairs_witness :
  _checkAndSetBounds 0 1 2 3 (initBoundsMat (Example.zeroMatrix 3) 0 1000)
  = Ok (setUpperBound
          (setLowerBound (initBoundsMat (Example.zeroMatrix 3) 0 1000) 0 1 2)
          0 1 3) /\
  ~ samePair 0 1 0 2 /\
  getLowerBound
    (setUpperBound
       (setLowerBound (initBoundsMat (Example.zeroMatrix 3) 0 1000) 0 1 2)
       0 1 3) 0 2
  = getLowerBound (initBoundsMat (Example.zeroMatrix 3) 0 1000) 0 2.
Proof.
  assert (H : _checkAndSetBounds 0 1 2 3
                (initBoundsMat (Example.zeroMatrix 3) 0 1000)
              = Ok (setUpperBound
                      (setLowerBound
                         (initBoundsMat (Example.zeroMatrix 3) 0 1000) 0 1 2)
                      0 1 3)) by reflexivity.
  assert (NS : ~ samePair 0 1 0 2) by (intros [[? ?]|[? ?]]; discriminate).
  split; [exact H|]. split; [exact NS|].
  exact (proj1 (checkAndSetBounds_other_pairs _ _ _ _ _ _ _ _ H NS)).
Defined.

(** ** Initialisation *)

(** [initBoundsMat] gives every pair of distinct indices within the matrix
    the default bounds and keeps the size of the matrix. *)
Theorem initBoundsMat_fills (m : BoundsMatrix) (dmin dmax : Q) (a b : nat) :
  a <> b -> (a < numRows m)%nat -> (b < numRows m)%nat ->
  getLowerBound (initBoundsMat m dmin dmax) a b = dmin /\
  getUpperBound (initBoundsMat m dmin dmax) a b = dmax /\
  numRows (initBoundsMat m dmin dmax) = numRows m.
Proof.
  intros Hab Ha Hb.
  destruct (initBoundsMat_spec dmin dmax m a b Hab Ha Hb) as [L U].
  split; [exact L|]. split; [exact U|]. apply initBoundsMat_numRows.
Qed.

Lemma initBoundsMat_fills_witness :
  getLowerBound (initBoundsMat (Example.zeroMatrix 4) 0 1000) 1 3 = 0 /\
  getUpperBound (initBoundsMat (Example.zeroMatrix 4) 0 1000) 1 3 = 1000 /\
  numRows (initBoundsMat (Example.zeroMatrix 4) 0 1000) = 4%nat.
Proof.
  apply (initBoundsMat_fills (Example.zeroMatrix 4) 0 1000 1 3);
    cbn; lia.
Defined.

(** ** The frame of Pass 1 *)

(** Whatever its outcome, [set12Bounds] records no call of
    [_checkAndSetBounds], keeps the size of the matrix, and leaves the bounds
    of every pair of distinct atoms that no bond joins as they are. *)
Theorem set12Bounds_frame (O : Oracles) (mol : ROMol) (st : State) (a b : nat) :
  a <> b ->
  (forall bond, In bond (bonds mol) ->
     ~ samePair (beginAtomIdx bond) (endAtomIdx bond) a b) ->
  casLog (snd (set12Bounds O mol st)) = casLog st /\
  numRows (mmat (snd (set12Bounds O mol st))) = numRows (mmat st) /\
  getLowerBound (mmat (snd (set12Bounds O mol st))) a b
  = getLowerBound (mmat st) a b /\
  getUpperBound (mmat (snd (set12Bounds O mol st))) a b
  = getUpperBound (mmat st) a b.
Proof.
  intros Hab Hnb.
  destruct (set12Bounds_effect O mol st) as (HL & HR & HE).
  split; [exact HL|]. split; [exact HR|].
  destruct (HE a b Hab) as [K|[(bond & Hin & S) _]]; [exact K|].
  exfalso. exact (Hnb bond Hin S).
Qed.

Lemma set12Bounds_frame_witness :
  let st := entryState Example.butane
              (initBoundsMat (Example.zeroMatrix 4) 0 1000) in
  getLowerBound (mmat (snd (set12Bounds Example.oracles Example.butane st))) 0 2
  = getLowerBound (mmat st) 0 2 /\
  getUpperBound (mmat (snd (set12Bounds Example.oracles Example.butane st))) 0 2
  = getUpperBound (mmat st) 0 2.
Proof.
  intro st.
  apply (set12Bounds_frame Example.oracles Example.butane st 0 2).
  - discriminate.
  - intros bond [<-|[<-|[<-|[]]]] [[? ?]|[? ?]]; discriminate.
Defined.

(** ** The checks at the entry of the passes *)

(** Given a matrix whose size is not the number of atoms, [set12Bounds],
    [set13Bounds], [set14Bounds] and [setLowerBoundVDW] throw at once and
    leave the state as it is. *)
Theorem passes_reject_wrong_size (O : Oracles) (mol : ROMol) (dmat : N -> Q)
    (scaleVDW useMacrocycle14config forceTransAmides : bool) (st : State) :
  numRows (mmat st) <> getNumAtoms mol ->
  let wrong := (Throw (Invariant "Wrong size metric matrix"), st) in
  set12Bounds O mol st = wrong /\
  set13Bounds O mol st = wrong /\
  set14Bounds O mol dmat useMacrocycle14config forceTransAmides st = wrong /\
  setLowerBoundVDW O mol scaleVDW dmat st = wrong.
Proof.
  intros H wrong. apply Nat.eqb_neq in H.
  unfold set12Bounds, set13Bounds, set14Bounds, setLowerBoundVDW, bind, gets.
  rewrite H. repeat split; reflexivity.
Qed.

Lemma passes_reject_wrong_size_witness :
  let st := Example.freshState 3 in
  set12Bounds Example.oracles Example.butane st
  = (Throw (Invariant "Wrong size metric matrix"), st) /\
  setLowerBoundVDW Example.oracles Example.butane true
    (Example.distanceMat Example.butane) st
  = (Throw (Invariant "Wrong size metric matrix"), st).
Proof.
  intro st.
  destruct (passes_reject_wrong_size Example.oracles Example.butane
              (Example.distanceMat Example.butane) true false false st)
    as (H1 & _ & _ & H4).
  - vm_compute. discriminate.
  - split; assumption.
Defined.



(** ** Recording a 1-4 path of a small ring *)

(** [_record14Path] never touches the matrix.  Where the two middle atoms
    exist it appends the path, tagged CIS if both are sp2 and OTHER if not,
    and in the CIS case inserts both orientations of its key into cisPaths;
    transPaths, the bond lengths, the adjacency and the angles stay as they
    are. *)
Theorem record14Path_effect (mol : ROMol) (b1 b2 b3 : nat) (st : State)
    (atm2 atm3 : Atom) :
  getAtomWithIdxZ mol (bondAdj (accumData st) b1 b2) = Ok atm2 ->
  getAtomWithIdxZ mol (bondAdj (accumData st) b2 b3) = Ok atm3 ->
  let cis := hyb_eqb (hybridization atm2) SP2
             && hyb_eqb (hybridization atm3) SP2 in
  let nb := getNumBonds mol in
  exists st',
    _record14Path mol b1 b2 b3 st = (Ok tt, st') /\
    mmat st' = mmat st /\ casLog st' = casLog st /\
    paths14 (accumData st')
    = paths14 (accumData st)
      ++ [{| bid1 := b1; bid2 := b2; bid3 := b3;
             type := if cis then CIS else OTHER |}] /\
    cisPaths (accumData st')
    = (if cis then [pathKey nb b3 b2 b1; pathKey nb b1 b2 b3] else [])
      ++ cisPaths (accumData st) /\
    transPaths (accumData st') = transPaths (accumData st) /\
    bondLengths (accumData st') = bondLengths (accumData st) /\
    bondAdj (accumData st') = bondAdj (accumData st) /\
    bondAngles (accumData st') = bondAngles (accumData st).
Proof.
  intros H2 H3 cis nb.
  unfold _record14Path, bind, getAccum, gets, liftR.
  rewrite H2, H3. fold cis. fold nb.
  destruct cis; eexists; (split; [reflexivity|]); repeat split.
Qed.

Lemma record14Path_effect_witness :
  let mol := Example.cyclopropane in
  let st := Example.afterPass2 mol in
  exists st',
    _record14Path mol 0 1 2 st = (Ok tt, st') /\
    mmat st' = mmat st /\
    paths14 (accumData st')
    = paths14 (accumData st)
      ++ [{| bid1 := 0; bid2 := 1; bid3 := 2; type := OTHER |}].
Proof.
  intros mol st.
  assert (H2 : getAtomWithIdxZ mol (bondAdj (accumData st) 0 1)
               = Ok (Example.mkAtom 1 6 SP3 2)) by (vm_compute; reflexivity).
  assert (H3 : getAtomWithIdxZ mol (bondAdj (accumData st) 1 2)
               = Ok (Example.mkAtom 2 6 SP3 2)) by (vm_compute; reflexivity).
  destruct (record14Path_effect mol 0 1 2 st _ _ H2 H3)
    as (st' & R & Mm & _ & P & _).
  exists st'. split; [exact R|]. split; [exact Mm|]. exact P.
Defined.

(** ** 1-3 bounds *)

(** Where the two bonds and the three atoms exist, [_set13BoundsHelper] is
    one call of [_checkAndSetBounds] for the two ends with the interval
    d - tol, d + tol around the 1-3 distance d, where tol is DIST13_TOL
    (0.04) doubled once for each of the three atoms that is a larger sp2
    ring atom. *)
Theorem set13BoundsHelper_offer (O : Oracles) (aid1 aid aid3 : nat) (angle : Q)
    (mol : ROMol) (st : State) (b1 b2 : Bond) (a1 a2 a3 : Atom) :
  getBondBetweenAtoms mol aid1 aid = Some b1 ->
  getBondBetweenAtoms mol aid aid3 = Some b2 ->
  getAtomWithIdx mol aid1 = Ok a1 ->
  getAtomWithIdx mol aid = Ok a2 ->
  getAtomWithIdx mol aid3 = Ok a3 ->
  let d := compute13Dist O (bondLength (accumData st) (bondIdx b1))
                         (bondLength (accumData st) (bondIdx b2)) angle in
  let k := ((if isLargerSP2Atom mol a1 then 1 else 0)
            + (if isLargerSP2Atom mol a2 then 1 else 0)
            + (if isLargerSP2Atom mol a3 then 1 else 0))%Z in
  exists tol : Q,
    tol == DIST13_TOL * 2 ^ k /\
    _set13BoundsHelper O aid1 aid aid3 angle mol st
    = call_checkAndSetBounds aid1 aid3 (d - tol) (d + tol) st.
Proof.
  intros H1 H2 E1 E2 E3 d k.
  unfold _set13BoundsHelper, bondBetween, bind, getAccum, gets, liftR, ret.
  rewrite H1, H2, E1, E2, E3. cbv beta iota zeta. fold d. subst k.
  eexists. split; [|reflexivity].
  destruct (isLargerSP2Atom mol a1), (isLargerSP2Atom mol a2),
    (isLargerSP2Atom mol a3); reflexivity.
Qed.

Lemma set13BoundsHelper_offer_witness :
  let mol := Example.butane in
  let st := snd (set12Bounds Example.oracles mol
                   (entryState mol (initBoundsMat (Example.zeroMatrix 4) 0 1000))) in
  let d := compute13Dist Example.oracles (bondLength (accumData st) 0)
                         (bondLength (accumData st) 1) 2 in
  exists tol : Q,
    tol == DIST13_TOL /\
    _set13BoundsHelper Example.oracles 0 1 2 2 mol st
    = call_checkAndSetBounds 0 2 (d - tol) (d + tol) st.
Proof.
  intros mol st d.
  destruct (set13BoundsHelper_offer Example.oracles 0 1 2 2 mol st
              (Example.mkBond 0 0 1 SINGLE) (Example.mkBond 1 1 2 SINGLE)
              (Example.mkAtom 0 6 SP3 3) (Example.mkAtom 1 6 SP3 2)
              (Example.mkAtom 2 6 SP3 2)
              eq_refl eq_refl eq_refl eq_refl eq_refl) as (tol & T & R).
  exists tol. split; [|exact R].
  rewrite T. reflexivity.
Defined.

(** The angle at a non-ring atom without non-tetrahedral stereo depends on
    its hybridization only and lies between 105 and 180 degrees: the tests
    [ba12 > 0.0] and [ba23 > 0.0] of the 1-4 routines hold for it. *)
Theorem chainAtomAngle_table (O : Oracles) (mol : ROMol) (atom a1 a3 : Atom) :
  nonTetrahedralStereo atom = false ->
  set13Bounds_chainAtomAngle O mol atom a1 a3
  = match hybridization atom with
    | SP => M_PI
    | SP2 => 2 * M_PI / 3
    | SP3 => 109.5 * M_PI / 180
    | SP3D => 105 * M_PI / 180
    | SP3D2 => 135 * M_PI / 180
    | HYB_OTHER => 120 * M_PI / 180
    end /\
  105 * M_PI / 180 <= set13Bounds_chainAtomAngle O mol atom a1 a3 /\
  set13Bounds_chainAtomAngle O mol atom a1 a3 <= M_PI.
Proof.
  intro H. unfold set13Bounds_chainAtomAngle. rewrite H.
  destruct (hybridization atom); cbn [hyb_eqb];
    (split; [reflexivity|]); split; vm_compute; congruence.
Qed.

Lemma chainAtomAngle_table_witness :
  set13Bounds_chainAtomAngle Example.oracles Example.butane
    (Example.mkAtom 1 6 SP3 2) (Example.mkAtom 0 6 SP3 3)
    (Example.mkAtom 2 6 SP3 2)
  = 109.5 * M_PI / 180.
Proof.
  exact (proj1 (chainAtomAngle_table Example.oracles Example.butane
                  (Example.mkAtom 1 6 SP3 2) (Example.mkAtom 0 6 SP3 3)
                  (Example.mkAtom 2 6 SP3 2) eq_refl)).
Defined.

(** ** The range of the ring angles *)

(** For a ring of at least three atoms the interior angle lies between 60
    degrees and 180 degrees, so the tests [ba12 > 0.0] and [ba23 > 0.0] of
    the 1-4 routines hold for the angles that [set13Bounds] records for ring
    atoms. *)
Theorem setRingAngle_range (h : HybridizationType) (r : nat) :
  (3 <= r)%nat ->
  M_PI / 3 <= _setRingAngle h r /\ _setRingAngle h r < M_PI.
Proof.
  intro Hr. unfold _setRingAngle.
  assert (Hq : 3 <= Q_of_nat r).
  { unfold Q_of_nat, Qle. cbn. lia. }
  assert (Hpi : 0 < M_PI) by reflexivity.
  remember (Q_of_nat r) as q eqn:Eq. clear Eq.
  assert (Ring : M_PI / 3 <= M_PI * (1 - 2 / q)
                 /\ M_PI * (1 - 2 / q) < M_PI).
  { assert (P : 0 < q) by lra.
    assert (I : 0 < / q) by (apply Qinv_lt_0_compat; exact P).
    assert (E : 2 / q * q == 2) by (field; lra).
    assert (B : 2 / q <= (2 # 3)).
    { apply Qle_shift_div_r; [exact P|]. lra. }
    assert (B0 : 0 < 2 / q).
    { unfold Qdiv. apply Qmult_lt_0_compat; [reflexivity | exact I]. }
    split.
    - assert (M_PI / 3 == M_PI * (1 - (2 # 3))) as -> by field.
      apply Qmult_le_l; [exact Hpi|]. lra.
    - rewrite <- (Qmult_1_r M_PI) at 2.
      apply Qmult_lt_l; [exact Hpi|]. lra. }
  destruct ((hyb_eqb h SP2 && (r <=? 8)%nat) || (r =? 3)%nat || (r =? 4)%nat);
    [exact Ring|].
  destruct h; try destruct (r =? 5)%nat; split; vm_compute; congruence.
Qed.

Lemma setRingAngle_range_witness :
  M_PI / 3 <= _setRingAngle SP3 6 /\ _setRingAngle SP3 6 < M_PI.
Proof. apply (setRingAngle_range SP3 6). lia. Defined.

(** ** The intervals of the 1-4 routines *)

(** Where a ring routine lets the torsion range from cis to trans, the
    interval it offers holds both distances and its upper end exceeds its
    lower end: the call of [_checkAndSetBounds] cannot fail its first test. *)
Theorem orderBounds_widenBounds_interval (c t : Q) :
  let '(dl, du) := orderBounds c t in
  let '(dl', du') := widenBounds dl du in
  dl' < du' /\ dl' <= c /\ dl' <= t /\ c <= du' /\ t <= du'.
Proof.
  unfold orderBounds.
  destruct (Qltb t c) eqn:E; [apply Qltb_lt in E | apply Qltb_ge in E];
    unfold widenBounds;
    match goal with
    | |- context [Qltb (Qabs ?x) DIST12_DELTA] =>
        destruct (Qltb (Qabs x) DIST12_DELTA) eqn:W;
        [|apply Qltb_ge in W; rewrite Qabs_pos in W by lra]
    end;
    unfold GEN_DIST_TOL, DIST12_DELTA in *; repeat split; lra.
Qed.

(** ** The 1-5 distances *)

(** The value handed to [acos] is always within [-1, 1], and it is the
    computed cosine where that is within the range. *)
Theorem clampCos_range (cval : Q) :
  -1 <= clampCos cval /\ clampCos cval <= 1 /\
  (-1 <= cval -> cval <= 1 -> clampCos cval = cval).
Proof.
  unfold clampCos.
  destruct (Qltb 1 cval) eqn:E1; [apply Qltb_lt in E1 | apply Qltb_ge in E1].
  - repeat split; lra.
  - destruct (Qltb cval (-1)) eqn:E2;
      [apply Qltb_lt in E2 | apply Qltb_ge in E2];
      repeat split; first [lra | intros; reflexivity].
Qed.

(** ** Amide and ester patterns *)

(** The 1-4 and the 1-5 amide/ester pattern never match the same path,
    whichever way each is tried: the order in which [_setChain14Bounds] tries
    them decides nothing. *)
Theorem amide_patterns_exclusive (mol : ROMol) (bnd1 bnd3 : Bond)
    (atm1 atm2 atm3 atm4 : Atom) :
  (_checkAmideEster14 bnd1 bnd3 atm1 atm2 atm3 atm4
   || _checkAmideEster14 bnd3 bnd1 atm4 atm3 atm2 atm1)
  && (_checkAmideEster15 mol bnd1 bnd3 atm1 atm2 atm3 atm4
      || _checkAmideEster15 mol bnd3 bnd1 atm4 atm3 atm2 atm1) = false.
Proof.
  unfold _checkAmideEster14, _checkAmideEster15.
  destruct (bondType bnd1), (bondType bnd3);
    repeat first
      [ reflexivity
      | rewrite andb_false_r | rewrite orb_false_r | rewrite andb_true_r
      | progress cbn [andb orb bt_eqb]
      | match goal with
        | |- context [if ?b then false else false] => destruct b
        end ].
Qed.

(** A path that matches the chain amide/ester pattern and does not start at
    a hydrogen matches the pattern of the macrocycle routine for two bonds
    in one ring. *)
Theorem checkAmideEster14_macrocycle (bnd1 bnd3 : Bond)
    (atm1 atm2 atm3 atm4 : Atom) :
  _checkAmideEster14 bnd1 bnd3 atm1 atm2 atm3 atm4 = true ->
  atomicNum atm1 <> 1%nat ->
  _checkMacrocycleTwoInSameRingAmideEster14 bnd1 bnd3 atm1 atm2 atm3 atm4 = true.
Proof.
  unfold _checkAmideEster14, _checkMacrocycleTwoInSameRingAmideEster14.
  intros H H1. apply Nat.eqb_neq in H1. rewrite H1. cbn [negb andb].
  repeat (apply andb_true_iff in H; destruct H as [H ?]).
  rewrite H. cbn [andb].
  repeat (apply andb_true_iff; split); try assumption.
  match goal with
  | G : _ || _ && _ = true |- _ =>
      apply orb_true_iff in G; destruct G as [G|G];
      [rewrite G; reflexivity|];
      apply andb_true_iff in G; destruct G as [G _]; rewrite G;
      apply orb_true_r
  end.
Qed.

Lemma checkAmideEster14_macrocycle_witness :
  let b1 := Example.mkBond 1 1 2 DOUBLE in
  let aC0 := Example.mkAtom 4 6 SP3 3 in
  let aN := Example.mkAtom 3 7 SP2 1 in
  let aC := Example.mkAtom 1 6 SP2 0 in
  let aO := Example.mkAtom 2 8 SP2 0 in
  _checkAmideEster14 (Example.mkBond 3 3 4 SINGLE) b1 aC0 aN aC aO = true /\
  _checkMacrocycleTwoInSameRingAmideEster14
    (Example.mkBond 3 3 4 SINGLE) b1 aC0 aN aC aO = true.
Proof.
  intros b1 aC0 aN aC aO.
  assert (H : _checkAmideEster14 (Example.mkBond 3 3 4 SINGLE) b1 aC0 aN aC aO
              = true) by reflexivity.
  split; [exact H|].
  apply (checkAmideEster14_macrocycle _ _ _ _ _ _ H). discriminate.
Defined.

(** The unused test for [!#1]~ch!@ch~[!#1] reads the same along the path
    and against it, and where it holds neither end is a hydrogen and both
    middle atoms are carbon, nitrogen or oxygen. *)
Theorem checkNhChChNh_symmetric (mol : ROMol) (atm1 atm2 atm3 atm4 : Atom) :
  _checkNhChChNh mol atm1 atm2 atm3 atm4 = _checkNhChChNh mol atm4 atm3 atm2 atm1 /\
  (_checkNhChChNh mol atm1 atm2 atm3 atm4 = true ->
   atomicNum atm1 <> 1%nat /\ atomicNum atm4 <> 1%nat /\
   (atomicNum atm2 = 6 \/ atomicNum atm2 = 7 \/ atomicNum atm2 = 8)%nat /\
   (atomicNum atm3 = 6 \/ atomicNum atm3 = 7 \/ atomicNum atm3 = 8)%nat).
Proof.
  assert (CNO : forall atm, _checkH2NX3H1OX2 mol atm = true ->
                  (atomicNum atm = 6 \/ atomicNum atm = 7 \/ atomicNum atm = 8)%nat).
  { intros atm. unfold _checkH2NX3H1OX2.
    destruct (Nat.eqb_spec (atomicNum atm) 6) as [E|_]; [auto|].
    destruct (Nat.eqb_spec (atomicNum atm) 8) as [E|_]; [auto|].
    destruct (Nat.eqb_spec (atomicNum atm) 7) as [E|_]; [auto|].
    cbn. discriminate. }
  split.
  - unfold _checkNhChChNh.
    rewrite (andb_comm (negb (atomicNum atm1 =? 1)%nat)).
    rewrite (andb_comm (_checkH2NX3H1OX2 mol atm2)).
    reflexivity.
  - unfold _checkNhChChNh.
    destruct (Nat.eqb_spec (atomicNum atm1) 1) as [|N1]; [discriminate|].
    destruct (Nat.eqb_spec (atomicNum atm4) 1) as [|N4]; [discriminate|].
    cbn [negb andb].
    destruct (_checkH2NX3H1OX2 mol atm2) eqn:C2; [|discriminate].
    destruct (_checkH2NX3H1OX2 mol atm3) eqn:C3; [|discriminate].
    intros _. auto.
Qed.

(** ** Path identifiers *)

Lemma base_digits_unique (n a b c a' b' c' : N) :
  (b < n)%N -> (c < n)%N -> (b' < n)%N -> (c' < n)%N ->
  (a * n * n + b * n + c = a' * n * n + b' * n + c')%N ->
  a = a' /\ b = b' /\ c = c'.
Proof.
  intros Hb Hc Hb' Hc' E.
  assert (C : c = c').
  { assert (E1 : ((a * n + b) * n + c = (a' * n + b') * n + c')%N) by lia.
    apply (f_equal (fun x => (x mod n)%N)) in E1.
    rewrite !(N.add_comm _ c), !(N.add_comm _ c') in E1.
    rewrite !N.Div0.mod_add in E1.
    rewrite !N.mod_small in E1 by assumption. exact E1. }
  subst c'.
  assert (E2 : ((a * n + b) * n = (a' * n + b') * n)%N) by lia.
  assert (Hn : n <> 0%N) by lia.
  apply N.mul_cancel_r in E2; [|exact Hn].
  assert (B : b = b').
  { apply (f_equal (fun x => (x mod n)%N)) in E2.
    rewrite !(N.add_comm _ b), !(N.add_comm _ b') in E2.
    rewrite !N.Div0.mod_add in E2.
    rewrite !N.mod_small in E2 by assumption. exact E2. }
  subst b'.
  assert (E3 : (a * n = a' * n)%N) by lia.
  apply N.mul_cancel_r in E3; [|exact Hn].
  auto.
Qed.

(** Below the bond limit the path identifiers of [set14Bounds] do not wrap
    around and name their paths uniquely. *)
Theorem pathKey64_injective (nb b1 b2 b3 c1 c2 c3 : nat) :
  (N.of_nat nb < MAX_NUM_BONDS)%N ->
  (b1 < nb)%nat -> (b2 < nb)%nat -> (b3 < nb)%nat ->
  (c1 < nb)%nat -> (c2 < nb)%nat -> (c3 < nb)%nat ->
  pathKey64 nb b1 b2 b3
  = (N.of_nat b1 * N.of_nat nb * N.of_nat nb + N.of_nat b2 * N.of_nat nb
     + N.of_nat b3)%N /\
  (pathKey64 nb b1 b2 b3 = pathKey64 nb c1 c2 c3 ->
   b1 = c1 /\ b2 = c2 /\ b3 = c3).
Proof.
  intros Hnb H1 H2 H3 G1 G2 G3.
  assert (Small : forall x y z : nat, (x < nb)%nat -> (y < nb)%nat -> (z < nb)%nat ->
            pathKey64 nb x y z
            = (N.of_nat x * N.of_nat nb * N.of_nat nb + N.of_nat y * N.of_nat nb
               + N.of_nat z)%N).
  { intros x y z Hx Hy Hz. unfold pathKey64, u64. apply N.mod_small.
    unfold MAX_NUM_BONDS in Hnb.
    assert (Hx' : (N.of_nat x <= N.of_nat nb - 1)%N) by lia.
    assert (Hy' : (N.of_nat y <= N.of_nat nb - 1)%N) by lia.
    assert (Hz' : (N.of_nat z <= N.of_nat nb - 1)%N) by lia.
    assert (Hn' : (N.of_nat nb <= 2642244)%N) by lia.
    assert (B1 : (N.of_nat x * N.of_nat nb * N.of_nat nb
                  <= (N.of_nat nb - 1) * N.of_nat nb * N.of_nat nb)%N).
    { apply N.mul_le_mono_r. apply N.mul_le_mono_r. exact Hx'. }
    assert (B2 : (N.of_nat y * N.of_nat nb <= (N.of_nat nb - 1) * N.of_nat nb)%N).
    { apply N.mul_le_mono_r. exact Hy'. }
    assert (B3 : ((N.of_nat nb - 1) * N.of_nat nb * N.of_nat nb
                  + (N.of_nat nb - 1) * N.of_nat nb + (N.of_nat nb - 1)
                  < N.of_nat nb * N.of_nat nb * N.of_nat nb)%N) by nia.
    assert (B4 : (N.of_nat nb * N.of_nat nb * N.of_nat nb
                  <= 2642244 * 2642244 * 2642244)%N).
    { apply N.mul_le_mono; [apply N.mul_le_mono|]; exact Hn'. }
    assert (B5 : (2642244 * 2642244 * 2642244 < 18446744073709551616)%N)
      by reflexivity.
    lia. }
  split; [apply Small; assumption|].
  rewrite !Small by assumption. intro E.
  apply base_digits_unique in E; try lia.
Qed.

Lemma pathKey64_injective_witness :
  pathKey64 10 1 2 3 = 123%N /\
  (pathKey64 10 1 2 3 = pathKey64 10 1 2 3 -> 1 = 1 /\ 2 = 2 /\ 3 = 3)%nat.
Proof.
  apply (pathKey64_injective 10 1 2 3 1 2 3); try lia. reflexivity.
Defined.

(** With at most 65536 bonds the identifiers that the 1-4 routines insert
    into [cisPaths] and [transPaths], whose middle product is a 32-bit one,
    are the identifiers of [set14Bounds]. *)
Theorem pathKey_pathKey64 (nb b1 b2 b3 : nat) :
  (N.of_nat nb <= 65536)%N -> (b2 < nb)%nat ->
  pathKey nb b1 b2 b3 = pathKey64 nb b1 b2 b3.
Proof.
  intros Hnb H2. unfold pathKey, pathKey64, u32. f_equal. f_equal. f_equal.
  apply N.mod_small.
  assert (B : (N.of_nat b2 * N.of_nat nb <= 65535 * 65536)%N).
  { apply N.mul_le_mono; lia. }
  lia.
Qed.

Lemma pathKey_pathKey64_witness : pathKey 10 1 2 3 = pathKey64 10 1 2 3.
Proof. apply pathKey_pathKey64; lia. Defined.

(** ** Bonds and angles *)

Lemma angleRecord_shape (mol : ROMol) (bondi bondj : Bond) :
  negb (beginAtomIdx bondi =? beginAtomIdx bondj)%nat
  && negb (beginAtomIdx bondi =? endAtomIdx bondj)%nat
  && negb (endAtomIdx bondi =? beginAtomIdx bondj)%nat
  && negb (endAtomIdx bondi =? endAtomIdx bondj)%nat = false ->
  exists t0 t1 t2 t3 : nat,
    angleRecord mol bondi bondj = [t0; t1; t2; t3] /\
    joins bondi t0 t1 = true /\ joins bondj t1 t2 = true /\
    (t3 = 1%nat \/ t3 = 0%nat) /\
    (t3 = 1%nat <->
     bondType bondi = TRIPLE \/ bondType bondj = TRIPLE \/
     (bondType bondi = DOUBLE /\ bondType bondj = DOUBLE
      /\ getDegree mol t1 = 2%nat)).
Proof.
  intro H. unfold angleRecord.
  assert (F : forall t1 : nat,
            let t3 := if bt_eqb (bondType bondi) TRIPLE
                         || bt_eqb (bondType bondj) TRIPLE then 1%nat
                      else if bt_eqb (bondType bondi) DOUBLE
                              && bt_eqb (bondType bondj) DOUBLE
                              && (getDegree mol t1 =? 2)%nat then 1%nat
                      else 0%nat in
            (t3 = 1%nat \/ t3 = 0%nat) /\
            (t3 = 1%nat <->
             bondType bondi = TRIPLE \/ bondType bondj = TRIPLE \/
             (bondType bondi = DOUBLE /\ bondType bondj = DOUBLE
              /\ getDegree mol t1 = 2%nat))).
  { intros t1 t3. subst t3.
    destruct (Nat.eqb_spec (getDegree mol t1) 2) as [D|D];
      destruct (bondType bondi), (bondType bondj); cbn;
      (split; [auto|]); split; intro G; try reflexivity; try discriminate;
      auto;
      try (destruct G as [G|[G|(G1 & G2 & G3)]]; congruence). }
  unfold joins.
  destruct (Nat.eqb_spec (endAtomIdx bondi) (beginAtomIdx bondj)) as [E1|E1];
    [|destruct (Nat.eqb_spec (endAtomIdx bondi) (endAtomIdx bondj)) as [E2|E2];
      [|destruct (Nat.eqb_spec (beginAtomIdx bondi) (beginAtomIdx bondj)) as [E3|E3];
        [|destruct (Nat.eqb_spec (beginAtomIdx bondi) (endAtomIdx bondj)) as [E4|E4];
          [|cbn in H; discriminate]]]];
    (do 4 eexists; split; [reflexivity|]);
    (split; [rewrite ?Nat.eqb_refl; cbn; auto using orb_true_r|]);
    (split; [rewrite ?E1, ?E2, ?E3, ?E4, ?Nat.eqb_refl; cbn;
             auto using orb_true_r|]);
    apply F.
Qed.

(** [collectBondsAndAngles]: one pair of atoms per bond, in bond order, and
    every angle record [t0, t1, t2, flag] is made of two bonds of the
    molecule that meet in [t1], the one joining [t0] and [t1], the other
    [t1] and [t2]; the flag is 1 exactly when one of the two bonds is
    TRIPLE, or both are DOUBLE and [t1] has degree 2, and 0 otherwise. *)
Theorem collectBondsAndAngles_records (mol : ROMol) :
  List.length (fst (collectBondsAndAngles mol)) = getNumBonds mol /\
  (forall k b, nth_error (bonds mol) k = Some b ->
     nth_error (fst (collectBondsAndAngles mol)) k
     = Some (beginAtomIdx b, endAtomIdx b)) /\
  forall r, In r (snd (collectBondsAndAngles mol)) ->
    exists (bondi bondj : Bond) (t0 t1 t2 t3 : nat),
      In bondi (bonds mol) /\ In bondj (bonds mol) /\
      r = [t0; t1; t2; t3] /\
      joins bondi t0 t1 = true /\ joins bondj t1 t2 = true /\
      (t3 = 1%nat \/ t3 = 0%nat) /\
      (t3 = 1%nat <->
       bondType bondi = TRIPLE \/ bondType bondj = TRIPLE \/
       (bondType bondi = DOUBLE /\ bondType bondj = DOUBLE
        /\ getDegree mol t1 = 2%nat)).
Proof.
  unfold collectBondsAndAngles. cbn [fst snd].
  split; [apply length_map|]. split.
  - intros k b H. rewrite nth_error_map, H. reflexivity.
  - intros r H. apply in_flat_map in H. destruct H as (bondi & Hi & H).
    apply in_flat_map in H. destruct H as (bondj & Hj & H).
    cbv zeta in H.
    match type of H with
    | In r (if ?c then _ else _) => destruct c eqn:C
    end; [destruct H|].
    destruct H as [<-|[]].
    destruct (angleRecord_shape mol bondi bondj C)
      as (t0 & t1 & t2 & t3 & E & J1 & J2 & F1 & F2).
    exists bondi, bondj, t0, t1, t2, t3.
    split; [exact Hi|]. split.
    + rewrite <- (firstn_skipn (bondIdx bondi + 1) (bonds mol)).
      apply in_or_app. right. exact Hj.
    + repeat split; try assumption; apply F2.
Qed.

(** ** Parts of the state that a computation leaves alone *)

Section PreservesLemmas.

Context {T : Type} (f : State -> T).

Lemma pres_ret {A : Type} (a : A) : Preserves f (ret a).
Proof. intro st. reflexivity. Qed.

Lemma pres_throw {A : Type} (e : Exn) : Preserves f (@throw A e).
Proof. intro st. reflexivity. Qed.

Lemma pres_liftR {A : Type} (r : Result A) : Preserves f (liftR r).
Proof. intro st. reflexivity. Qed.

Lemma pres_gets {A : Type} (g : State -> A) : Preserves f (gets g).
Proof. intro st. reflexivity. Qed.

Lemma pres_check (b : bool) (msg : string) : Preserves f (CHECK_INVARIANT b msg).
Proof. destruct b; intro st; reflexivity. Qed.

Lemma pres_precondition (b : bool) (msg : string) :
  Preserves f (PRECONDITION b msg).
Proof. destruct b; intro st; reflexivity. Qed.

Lemma pres_bind {A B : Type} (c : M A) (k : A -> M B) :
  Preserves f c -> (forall a, Preserves f (k a)) -> Preserves f (bind c k).
Proof.
  intros Hc Hk st. unfold bind. specialize (Hc st).
  destruct (c st) as [[a|e] st1]; cbn [snd] in *.
  - rewrite Hk. exact Hc.
  - exact Hc.
Qed.

Lemma pres_forM {A : Type} (l : list A) (body : A -> M unit) :
  (forall x, Preserves f (body x)) -> Preserves f (forM_ l body).
Proof.
  intro Hb. induction l as [|x l IH]; cbn [forM_].
  - apply pres_ret.
  - apply pres_bind; [apply Hb | intros _; exact IH].
Qed.

Lemma pres_foldM {A B : Type} (body : B -> A -> M B) (l : list A) (b : B) :
  (forall b x, Preserves f (body b x)) -> Preserves f (foldM body l b).
Proof.
  intro Hb. revert b. induction l as [|x l IH]; intro b; cbn [foldM].
  - apply pres_ret.
  - apply pres_bind; [apply Hb | intro b'; apply IH].
Qed.

End PreservesLemmas.

Lemma pres_call_sizeAndLengths (i j : nat) (lb ub : Q) :
  Preserves sizeAndLengths (call_checkAndSetBounds i j lb ub).
Proof.
  intro st. unfold call_checkAndSetBounds, sizeAndLengths.
  destruct (_checkAndSetBounds i j lb ub (mmat st)) as [m'|e] eqn:E;
    cbn [snd mmat accumData]; [|reflexivity].
  rewrite (checkAndSetBounds_numRows _ _ _ _ _ _ E). reflexivity.
Qed.

Lemma pres_call_pathRecords (i j : nat) (lb ub : Q) :
  Preserves pathRecords (call_checkAndSetBounds i j lb ub).
Proof.
  intro st. unfold call_checkAndSetBounds.
  destruct (_checkAndSetBounds i j lb ub (mmat st)); reflexivity.
Qed.

Create HintDb pres.

#[local] Hint Resolve pres_ret pres_throw pres_liftR pres_gets pres_check
  pres_precondition pres_call_sizeAndLengths pres_call_pathRecords : pres.

(** Walks through a computation; a step that only changes other parts of the
    state preserves [f] by computation. *)
Ltac pres_step :=
  match goal with
  | |- Preserves _ (bind _ _) => apply pres_bind; [|intro]
  | |- Preserves _ (forM_ _ _) => apply pres_forM; intro
  | |- Preserves _ (foldM _ _ _) => apply pres_foldM; intros
  | |- Preserves _ (if ?b then _ else _) => destruct b
  | |- Preserves _ (match ?x with _ => _ end) => destruct x
  | |- Preserves _ _ => solve [auto with pres | intro; reflexivity]
  end.

Ltac pres := repeat (cbv beta zeta; pres_step).

Section Frames.

Variable O : Oracles.

Lemma pres_numRows_mmat_setLowerBound (i j : nat) (v : Q) :
  Preserves sizeAndLengths (mmat_setLowerBound i j v).
Proof.
  intro st. unfold sizeAndLengths. cbn. rewrite numRows_setLowerBound. reflexivity.
Qed.

Hint Resolve pres_numRows_mmat_setLowerBound : pres.

Lemma sizeAndLengths_set13Bounds (mol : ROMol) :
  Preserves sizeAndLengths (set13Bounds O mol).
Proof.
  unfold set13Bounds, set13Bounds_ring, set13Bounds_ringStep, set13Bounds_atom,
    forBondPairs, set13Bounds_ringAtomPair, set13Bounds_chainAtomPair,
    _set13BoundsHelper, bondBetween, getAccum, getMat.
  pres.
Qed.

Lemma sizeAndLengths_set14Bounds (mol : ROMol) (distMatrix : N -> Q)
    (useMacrocycle14config forceTransAmides : bool) :
  Preserves sizeAndLengths
    (set14Bounds O mol distMatrix useMacrocycle14config forceTransAmides).
Proof.
  unfold set14Bounds, set14Bounds_ring, set14Bounds_ringStep, set14Bounds_bond,
    set14Bounds_path, _setTwoInDiffRing14Bounds, _setShareRingBond14Bounds,
    _setInRing14Bounds, _setTwoInSameRing14Bounds, _setChain14Bounds,
    _record14Path, _setMacrocycleTwoInSameRing14Bounds,
    _setMacrocycleAllInSameRing14Bounds, path14Atoms, finish14,
    getAccum, getMat.
  pres.
Qed.

Lemma sizeAndLengths_set15Bounds (mol : ROMol) (distMatrix : N -> Q) :
  Preserves sizeAndLengths (set15Bounds O mol distMatrix).
Proof.
  unfold set15Bounds, _set15BoundsHelper, _set15BoundsHelper_bond, adjAtom,
    getAccum, getMat.
  pres.
Qed.

Lemma sizeAndLengths_setLowerBoundVDW (mol : ROMol) (b : bool) (dmat : N -> Q) :
  Preserves sizeAndLengths (setLowerBoundVDW O mol b dmat).
Proof.
  unfold setLowerBoundVDW, setLowerBoundVDW_pair, getAccum, getMat.
  pres.
Qed.

Lemma pathRecords_set15Bounds (mol : ROMol) (distMatrix : N -> Q) :
  Preserves pathRecords (set15Bounds O mol distMatrix).
Proof.
  unfold set15Bounds, _set15BoundsHelper, _set15BoundsHelper_bond, adjAtom,
    getAccum, getMat.
  pres.
Qed.

End Frames.

(** ** What the later passes leave alone *)

Lemma widens_refl (a b : nat) (st : State) : widens a b st st.
Proof. split; intro; split; lra. Qed.

Lemma widens_trans (a b : nat) (st1 st2 st3 : State) :
  widens a b st1 st2 -> widens a b st2 st3 -> widens a b st1 st3.
Proof.
  intros [L1 U1] [L2 U2]. split; intro H.
  - destruct (L1 H) as [A B]. destruct (L2 A) as [C D]. split; lra.
  - destruct (U1 H) as [A B]. destruct (U2 B) as [C D]. split; lra.
Qed.

Lemma widens_bind {A B : Type} (a b : nat) (c : M A) (k : A -> M B) :
  (forall st, widens a b st (snd (c st))) ->
  (forall x st, widens a b st (snd (k x st))) ->
  forall st, widens a b st (snd (bind c k st)).
Proof.
  intros Hc Hk st. unfold bind. specialize (Hc st).
  destruct (c st) as [[x|e] st1]; cbn [snd] in *.
  - eapply widens_trans; [exact Hc | apply Hk].
  - exact Hc.
Qed.

Lemma replay_widens (a b : nat) (Hab : a <> b) (cs : list CasCall) :
  forall m : BoundsMatrix,
    (DIST12_DELTA < getLowerBound m a b ->
       DIST12_DELTA < getLowerBound (replay cs m) a b /\
       getLowerBound (replay cs m) a b <= getLowerBound m a b) /\
    (getUpperBound m a b < MAX_UPPER ->
       getUpperBound m a b <= getUpperBound (replay cs m) a b /\
       getUpperBound (replay cs m) a b < MAX_UPPER).
Proof.
  induction cs as [|c cs IH]; intro m.
  - split; intro; split; cbn; lra.
  - change (replay (c :: cs) m) with (replay cs (replay1 m c)).
    assert (S : (DIST12_DELTA < getLowerBound m a b ->
                   DIST12_DELTA < getLowerBound (replay1 m c) a b /\
                   getLowerBound (replay1 m c) a b <= getLowerBound m a b) /\
                (getUpperBound m a b < MAX_UPPER ->
                   getUpperBound m a b <= getUpperBound (replay1 m c) a b /\
                   getUpperBound (replay1 m c) a b < MAX_UPPER)).
    { unfold replay1.
      destruct (_checkAndSetBounds (cas_i c) (cas_j c) (cas_lb c) (cas_ub c) m)
        as [m'|e] eqn:E.
      - exact (checkAndSetBounds_widens _ _ _ _ _ _ a b Hab E).
      - split; intro; split; lra. }
    destruct S as [SL SU]. destruct (IH (replay1 m c)) as [IL IU].
    split; intro H.
    + destruct (SL H) as [A B]. destruct (IL A) as [C D]. split; lra.
    + destruct (SU H) as [A B]. destruct (IU B) as [C D]. split; lra.
Qed.

Lemma disciplined_widens {A : Type} (c : M A) (a b : nat) :
  a <> b -> Disciplined c -> forall st, widens a b st (snd (c st)).
Proof.
  intros Hab D st. destruct (D st) as (new & _ & E).
  unfold widens. rewrite E. apply replay_widens. exact Hab.
Qed.

Section LaterPasses.

Variable O : Oracles.

Lemma setLowerBoundVDW_widens (mol : ROMol) (sv : bool) (dmat : N -> Q)
    (a b : nat) :
  a <> b -> forall st, widens a b st (snd (setLowerBoundVDW O mol sv dmat st)).
Proof.
  intros Hab st.
  set (P := fun s : State =>
              (DIST12_DELTA < getLowerBound (mmat st) a b ->
               getLowerBound (mmat s) a b = getLowerBound (mmat st) a b) /\
              getUpperBound (mmat s) a b = getUpperBound (mmat st) a b).
  assert (HP : P (snd (setLowerBoundVDW O mol sv dmat st))).
  { assert (P0 : P st) by (split; [intro|]; reflexivity).
    unfold setLowerBoundVDW.
    apply bind_ro_inv; [auto with ro | exact P0 | intro npt].
    apply bind_ro_inv; [auto with ro | exact P0 | intros _].
    apply forM_invariant; [|exact P0].
    intros i s Hi Ps.
    apply bind_ro_inv; [auto with ro | exact Ps | intro ai].
    apply forM_invariant; [|exact Ps].
    intros j s' Hj Ps'. apply in_seq in Hj.
    unfold setLowerBoundVDW_pair.
    apply bind_ro_inv; [auto with ro | exact Ps' | intro aj].
    unfold bind, getMat, gets.
    destruct (Qltb (getLowerBound (mmat s') i j) DIST12_DELTA) eqn:E;
      [|exact Ps'].
    apply Qltb_lt in E. unfold P in Ps'. destruct Ps' as [PL PU].
    assert (Hij : i <> j) by lia.
    assert (W : forall v, P (snd (mmat_setLowerBound i j v s'))).
    { intro v. unfold P, mmat_setLowerBound. cbn [snd mmat]. split.
      - intro H.
        destruct (samePair_dec i j a b) as [S|NS].
        + exfalso. rewrite <- (samePair_lower _ _ _ _ _ S) in E.
          rewrite (PL H) in E. unfold DIST12_DELTA in *. lra.
        + rewrite getLowerBound_setLowerBound_other by assumption.
          apply PL. exact H.
      - rewrite getUpperBound_setLowerBound by assumption. exact PU. }
    destruct (Qeq_bool (dmat (flatIdx i npt j)) 4); [apply W|].
    destruct (Qeq_bool (dmat (flatIdx i npt j)) 5); apply W. }
  destruct HP as [HL HU]. split; intro H.
  - rewrite (HL H). split; lra.
  - rewrite HU. split; lra.
Qed.

Lemma laterPasses_widens (mol : ROMol) (dmat : N -> Q)
    (s15 sv um fa : bool) (a b : nat) :
  a <> b -> forall st, widens a b st (snd (laterPasses O mol dmat s15 sv um fa st)).
Proof.
  intro Hab. unfold laterPasses.
  apply widens_bind;
    [apply disciplined_widens; [exact Hab | apply disc_set13Bounds]|intros _].
  apply widens_bind;
    [apply disciplined_widens; [exact Hab | apply disc_set14Bounds]|intros _].
  apply widens_bind; [|intros _; apply setLowerBoundVDW_widens; exact Hab].
  destruct s15.
  - apply disciplined_widens; [exact Hab | apply disc_set15Bounds].
  - intro st. apply widens_refl.
Qed.

Lemma sizeAndLengths_laterPasses (mol : ROMol) (dmat : N -> Q)
    (s15 sv um fa : bool) :
  Preserves sizeAndLengths (laterPasses O mol dmat s15 sv um fa).
Proof.
  unfold laterPasses.
  apply pres_bind; [apply sizeAndLengths_set13Bounds|intros _].
  apply pres_bind; [apply sizeAndLengths_set14Bounds|intros _].
  apply pres_bind; [|intros _; apply sizeAndLengths_setLowerBoundVDW].
  destruct s15; [apply sizeAndLengths_set15Bounds | apply pres_ret].
Qed.

Lemma numRows_set12Bounds (mol : ROMol) :
  Preserves (fun st => numRows (mmat st)) (set12Bounds O mol).
Proof.
  intro st. destruct (set12Bounds_effect O mol st) as (_ & R & _). exact R.
Qed.

Lemma numRows_of_sizeAndLengths {A : Type} (c : M A) :
  Preserves sizeAndLengths c -> Preserves (fun st => numRows (mmat st)) c.
Proof. intros H st. exact (f_equal fst (H st)). Qed.

Lemma pathRecords_setLowerBoundVDW (mol : ROMol) (b : bool) (dmat : N -> Q) :
  Preserves pathRecords (setLowerBoundVDW O mol b dmat).
Proof.
  unfold setLowerBoundVDW, setLowerBoundVDW_pair, getAccum, getMat. pres.
Qed.

End LaterPasses.

(** Once Pass 1 has run, the bounds of a pair are only ever widened: through
    Passes 2 to 5, whatever their outcome, a lower bound that is set (above
    DIST12_DELTA) stays set and does not grow, and an upper bound that is
    set (below MAX_UPPER) stays set and does not shrink.  The interval that
    Pass 1 gave a bonded pair is within the final one. *)
Theorem later_passes_only_widen (O : Oracles) (mol : ROMol) (dmat : N -> Q)
    (set15bounds scaleVDW useMacrocycle14config forceTransAmides : bool)
    (st : State) (a b : nat) :
  a <> b ->
  let st' := snd (laterPasses O mol dmat set15bounds scaleVDW
                              useMacrocycle14config forceTransAmides st) in
  (DIST12_DELTA < getLowerBound (mmat st) a b ->
     DIST12_DELTA < getLowerBound (mmat st') a b /\
     getLowerBound (mmat st') a b <= getLowerBound (mmat st) a b) /\
  (getUpperBound (mmat st) a b < MAX_UPPER ->
     getUpperBound (mmat st) a b <= getUpperBound (mmat st') a b /\
     getUpperBound (mmat st') a b < MAX_UPPER).
Proof.
  intros Hab st'. apply laterPasses_widens. exact Hab.
Qed.

(** Cyclobutane whose ring information lists no ring: the bonded pair
    (0, 3) keeps its lower bound, and its upper bound is raised. *)
Lemma later_passes_only_widen_witness :
  let mol := Example.cyclobutaneNoRings in
  let st := snd (set12Bounds Example.oracles mol
                   (entryState mol (initBoundsMat (Example.zeroMatrix 4) 0 1000))) in
  let st' := snd (laterPasses Example.oracles mol (Example.distanceMat mol)
                              true true false false st) in
  DIST12_DELTA < getLowerBound (mmat st) 0 3 /\
  getUpperBound (mmat st) 0 3 < MAX_UPPER /\
  getLowerBound (mmat st') 0 3 <= getLowerBound (mmat st) 0 3 /\
  getUpperBound (mmat st) 0 3 <= getUpperBound (mmat st') 0 3.
Proof.
  intros mol st st'.
  assert (HL : DIST12_DELTA < getLowerBound (mmat st) 0 3)
    by (vm_compute; reflexivity).
  assert (HU : getUpperBound (mmat st) 0 3 < MAX_UPPER)
    by (vm_compute; reflexivity).
  split; [exact HL|]. split; [exact HU|].
  destruct (later_passes_only_widen Example.oracles mol
              (Example.distanceMat mol) true true false false st 0 3
              ltac:(discriminate)) as [L U].
  split; [exact (proj2 (L HL)) | exact (proj1 (U HU))].
Defined.

(** Whatever the outcome, neither entry point changes the size of the
    matrix. *)
Theorem setTopolBounds_keeps_size (O : Oracles) (mol : ROMol)
    (set15bounds scaleVDW useMacrocycle14config forceTransAmides : bool)
    (st : State) :
  numRows (mmat (snd (setTopolBounds O mol set15bounds scaleVDW
                        useMacrocycle14config forceTransAmides st)))
  = numRows (mmat st) /\
  numRows (mmat (snd (setTopolBounds_bondsAngles O mol set15bounds scaleVDW
                        useMacrocycle14config forceTransAmides st)))
  = numRows (mmat st).
Proof.
  assert (Tail : Preserves (fun s => numRows (mmat s))
                   (set12Bounds O mol ;;
                    laterPasses O mol (getDistanceMat O mol) set15bounds
                                scaleVDW useMacrocycle14config forceTransAmides)).
  { apply pres_bind; [apply numRows_set12Bounds|intros _].
    apply numRows_of_sizeAndLengths. apply sizeAndLengths_laterPasses. }
  split.
  - change ((fun s => numRows (mmat s))
              (snd (setTopolBounds O mol set15bounds scaleVDW
                      useMacrocycle14config forceTransAmides st))
            = (fun s => numRows (mmat s)) st).
    generalize st. change (Preserves (fun s => numRows (mmat s))
              (setTopolBounds O mol set15bounds scaleVDW
                      useMacrocycle14config forceTransAmides)).
    unfold setTopolBounds.
    destruct (getNumAtoms mol =? 0)%nat; [apply pres_throw|].
    destruct (MAX_NUM_BONDS <=? N.of_nat (getNumBonds mol))%N; [apply pres_throw|].
    apply pres_bind; [intro s; reflexivity|intros _]. exact Tail.
  - change ((fun s => numRows (mmat s))
              (snd (setTopolBounds_bondsAngles O mol set15bounds scaleVDW
                      useMacrocycle14config forceTransAmides st))
            = (fun s => numRows (mmat s)) st).
    generalize st. change (Preserves (fun s => numRows (mmat s))
              (setTopolBounds_bondsAngles O mol set15bounds scaleVDW
                      useMacrocycle14config forceTransAmides)).
    unfold setTopolBounds_bondsAngles.
    destruct (getNumAtoms mol =? 0)%nat; [apply pres_throw|].
    apply pres_bind; [intro s; reflexivity|intros _].
    unfold laterPasses in Tail.
    repeat (apply pres_bind; [|intros _]); try apply pres_ret.
    + apply numRows_set12Bounds.
    + apply numRows_of_sizeAndLengths, sizeAndLengths_set13Bounds.
    + apply numRows_of_sizeAndLengths, sizeAndLengths_set14Bounds.
    + apply numRows_of_sizeAndLengths.
      destruct set15bounds; [apply sizeAndLengths_set15Bounds | apply pres_ret].
    + apply numRows_of_sizeAndLengths, sizeAndLengths_setLowerBoundVDW.
Qed.

(** Only Pass 1 writes bond lengths: Passes 2 to 5 leave them as they are,
    whatever their outcome. *)
Theorem later_passes_keep_bond_lengths (O : Oracles) (mol : ROMol)
    (dmat : N -> Q)
    (set15bounds scaleVDW useMacrocycle14config forceTransAmides : bool)
    (st : State) :
  bondLengths (accumData (snd (laterPasses O mol dmat set15bounds scaleVDW
                                 useMacrocycle14config forceTransAmides st)))
  = bondLengths (accumData st).
Proof.
  exact (f_equal snd (sizeAndLengths_laterPasses O mol dmat set15bounds scaleVDW
                        useMacrocycle14config forceTransAmides st)).
Qed.

(** Passes 4 and 5 only read what Passes 1 to 3 recorded: the bond lengths,
    the adjacency and the angles of the bonds, the 1-4 paths and the sets of
    cis and trans paths are the same after them, whatever their outcome. *)
Theorem set15Bounds_setLowerBoundVDW_keep_records (O : Oracles) (mol : ROMol)
    (dmat : N -> Q) (scaleVDW : bool) (st : State) :
  let st' := snd ((set15Bounds O mol dmat ;;
                   setLowerBoundVDW O mol scaleVDW dmat) st) in
  bondLengths (accumData st') = bondLengths (accumData st) /\
  bondAdj (accumData st') = bondAdj (accumData st) /\
  bondAngles (accumData st') = bondAngles (accumData st) /\
  paths14 (accumData st') = paths14 (accumData st) /\
  cisPaths (accumData st') = cisPaths (accumData st) /\
  transPaths (accumData st') = transPaths (accumData st).
Proof.
  intro st'.
  assert (H : pathRecords st' = pathRecords st).
  { subst st'. revert st.
    change (Preserves pathRecords
              (set15Bounds O mol dmat ;; setLowerBoundVDW O mol scaleVDW dmat)).
    apply pres_bind;
      [apply pathRecords_set15Bounds
      |intros _; apply pathRecords_setLowerBoundVDW]. }
  unfold pathRecords in H. injection H as H1 H2 H3 H4 H5 H6.
  repeat split; assumption.
Qed.

(** ** The bounds of a bonded pair after Pass 1 *)

Lemma forM_app_ok {A : Type} (body : A -> M unit) (l1 l2 : list A)
    (st st' : State) :
  forM_ (l1 ++ l2) body st = (Ok tt, st') ->
  exists s1, forM_ l1 body st = (Ok tt, s1) /\ forM_ l2 body s1 = (Ok tt, st').
Proof.
  revert st. induction l1 as [|x l1 IH]; intros st H.
  - exists st. split; [reflexivity | exact H].
  - cbn [app] in H. apply forM_ok_inv in H. destruct H as (s0 & H0 & H).
    destruct (IH _ H) as (s1 & H1 & H2).
    exists s1. split; [|exact H2].
    cbn [forM_]. unfold bind. rewrite H0. exact H1.
Qed.

Section Pass1Values.

Variable O : Oracles.

(** The squish atoms are chosen among the ends of conjugated bonds. *)
Lemma set12Bounds_squish_none (mol : ROMol) (l : list Bond) (st : State) :
  (forall b, In b l -> isConjugated b = false) ->
  foldM (set12Bounds_squish mol) l [] st = (Ok [], st).
Proof.
  intro H. induction l as [|b l IH]; [reflexivity|].
  cbn [foldM]. unfold bind, set12Bounds_squish at 1.
  rewrite (H b (or_introl eq_refl)). cbn [ret].
  apply IH. intros b' Hb'. apply H. right. exact Hb'.
Qed.

Lemma set12Bounds_bond_other (mol : ROMol)
    (atomParams : list (option (AtomicParams O))) (sq : list nat)
    (bond : Bond) (st : State) (a b : nat) :
  a <> b ->
  ~ samePair (beginAtomIdx bond) (endAtomIdx bond) a b ->
  getLowerBound (mmat (snd (set12Bounds_bond O mol atomParams sq bond st))) a b
  = getLowerBound (mmat st) a b /\
  getUpperBound (mmat (snd (set12Bounds_bond O mol atomParams sq bond st))) a b
  = getUpperBound (mmat st) a b.
Proof.
  intros Hab NS.
  destruct (set12Bounds_bond_effect O mol atomParams sq bond st)
    as [_ [E|(lo & up & _ & E)]]; rewrite E; [split; reflexivity|].
  rewrite getLowerBound_setLowerBound_other by assumption.
  rewrite getLowerBound_setUpperBound by assumption.
  rewrite getUpperBound_setLowerBound by assumption.
  rewrite getUpperBound_setUpperBound_other by assumption.
  split; reflexivity.
Qed.

End Pass1Values.

(** After a successful [set12Bounds], a bond whose two atoms have force-field
    parameters, whose order is positive and whose pair of atoms no later
    bond joins again has the bounds bl + s + 0.01 above and bl - s - 0.01
    below, where bl is the rest length of the bond and s the extra squish:
    0.2 for some bonds of conjugated systems, and 0 for every bond when no
    bond of the molecule is conjugated. *)
Theorem set12Bounds_values (O : Oracles) (mol : ROMol) (st st' : State)
    (l1 l2 : list Bond) (bond : Bond) (p1 p2 : AtomicParams O) :
  set12Bounds O mol st = (Ok tt, st') ->
  bonds mol = l1 ++ bond :: l2 ->
  (forall b', In b' l2 ->
     ~ samePair (beginAtomIdx b') (endAtomIdx b')
                (beginAtomIdx bond) (endAtomIdx bond)) ->
  beginAtomIdx bond <> endAtomIdx bond ->
  nth (beginAtomIdx bond) (fst (getAtomTypes O mol)) None = Some p1 ->
  nth (endAtomIdx bond) (fst (getAtomTypes O mol)) None = Some p2 ->
  0 < bondTypeAsDouble bond ->
  let bl := calcBondRestLength O (bondTypeAsDouble bond) p1 p2 in
  exists s : Q,
    (s = 0 \/ s = 0.2) /\
    ((forall b, In b (bonds mol) -> isConjugated b = false) -> s = 0) /\
    getUpperBound (mmat st') (beginAtomIdx bond) (endAtomIdx bond)
    = bl + s + DIST12_DELTA /\
    getLowerBound (mmat st') (beginAtomIdx bond) (endAtomIdx bond)
    = bl - s - DIST12_DELTA.
Proof.
  intros H Hsplit Hlater Hne P1 P2 Hord bl.
  unfold set12Bounds in H.
  apply bind_ok in H. destruct H as (npt & s0 & H0 & H).
  unfold gets in H0. injection H0 as <- <-.
  apply bind_ok in H. destruct H as ([] & s0 & H0 & H).
  rewrite (ro_run _ st (ro_check _ _)) in H0. injection H0 as _ <-.
  apply bind_ok in H. destruct H as (accum & s0 & H0 & H).
  unfold getAccum, gets in H0. injection H0 as <- <-.
  apply bind_ok in H. destruct H as ([] & s0 & H0 & H).
  rewrite (ro_run _ st (ro_check _ _)) in H0. injection H0 as _ <-.
  cbv zeta in H.
  apply bind_ok in H. destruct H as ([] & s0 & H0 & H).
  rewrite (ro_run _ st (ro_check _ _)) in H0. injection H0 as _ <-.
  apply bind_ok in H. destruct H as (sq & s0 & Hsq & H).
  assert (Hs0 : s0 = st).
  { pose proof (ro_foldM (set12Bounds_squish mol) (bonds mol) []
                  (fun b x => ro_set12Bounds_squish mol b x) st) as R.
    rewrite Hsq in R. exact R. }
  subst s0.
  rewrite Hsplit in H. apply forM_app_ok in H. destruct H as (s1 & _ & H).
  apply forM_ok_inv in H. destruct H as (s2 & Hb & H).
  set (s := if memb (beginAtomIdx bond) sq || memb (endAtomIdx bond) sq
            then 0.2 else 0).
  exists s.
  assert (V2 : getUpperBound (mmat s2) (beginAtomIdx bond) (endAtomIdx bond)
               = bl + s + DIST12_DELTA /\
               getLowerBound (mmat s2) (beginAtomIdx bond) (endAtomIdx bond)
               = bl - s - DIST12_DELTA).
  { unfold set12Bounds_bond in Hb. rewrite P1, P2 in Hb.
    apply Qltb_lt in Hord. rewrite Hord in Hb.
    unfold bind, set_bondLength, modifyAccum, mmat_setUpperBound,
      mmat_setLowerBound in Hb.
    injection Hb as <-. cbn [mmat]. fold bl. fold s.
    rewrite getUpperBound_setLowerBound by assumption.
    rewrite getUpperBound_setUpperBound_same.
    rewrite getLowerBound_setLowerBound_same. split; reflexivity. }
  assert (F : getLowerBound (mmat st') (beginAtomIdx bond) (endAtomIdx bond)
              = getLowerBound (mmat s2) (beginAtomIdx bond) (endAtomIdx bond) /\
              getUpperBound (mmat st') (beginAtomIdx bond) (endAtomIdx bond)
              = getUpperBound (mmat s2) (beginAtomIdx bond) (endAtomIdx bond)).
  { replace st' with (snd (forM_ l2 (set12Bounds_bond O mol
                                        (fst (getAtomTypes O mol)) sq) s2))
      by (rewrite H; reflexivity).
    apply (forM_invariant
             (fun x : State =>
                getLowerBound (mmat x) (beginAtomIdx bond) (endAtomIdx bond)
                = getLowerBound (mmat s2) (beginAtomIdx bond) (endAtomIdx bond) /\
                getUpperBound (mmat x) (beginAtomIdx bond) (endAtomIdx bond)
                = getUpperBound (mmat s2) (beginAtomIdx bond) (endAtomIdx bond)));
      [|split; reflexivity].
    intros b' x Hin [IL IU].
    destruct (set12Bounds_bond_other O mol (fst (getAtomTypes O mol)) sq b' x
                _ _ Hne (Hlater b' Hin)) as [EL EU].
    rewrite EL, EU. split; assumption. }
  destruct F as [FL FU]. destruct V2 as [VU VL].
  split; [unfold s; destruct (_ || _); auto|].
  split.
  - intro Hconj.
    rewrite (set12Bounds_squish_none mol (bonds mol) st Hconj) in Hsq.
    injection Hsq as <-. reflexivity.
  - rewrite FU, FL. split; assumption.
Qed.

Lemma set12Bounds_values_witness :
  let mol := Example.butane in
  let st := entryState mol (initBoundsMat (Example.zeroMatrix 4) 0 1000) in
  let st' := snd (set12Bounds Example.oracles mol st) in
  exists s : Q,
    s = 0 /\
    getUpperBound (mmat st') 1 2 = Example.restLength 1 6 6 + s + DIST12_DELTA /\
    getLowerBound (mmat st') 1 2 = Example.restLength 1 6 6 - s - DIST12_DELTA.
Proof.
  intros mol st st'.
  assert (R : set12Bounds Example.oracles mol st = (Ok tt, st')).
  { unfold st'.
    rewrite (surjective_pairing (set12Bounds Example.oracles mol st)) at 1.
    apply (f_equal2 pair); [vm_compute; reflexivity | reflexivity]. }
  destruct (set12Bounds_values Example.oracles mol st st'
              [Example.mkBond 0 0 1 SINGLE] [Example.mkBond 2 2 3 SINGLE]
              (Example.mkBond 1 1 2 SINGLE) 6%nat 6%nat R eq_refl)
    as (s & _ & S0 & U & L).
  - intros b' [<-|[]] [[? ?]|[? ?]]; discriminate.
  - discriminate.
  - reflexivity.
  - reflexivity.
  - reflexivity.
  - exists s. split; [|split; assumption].
    apply S0. intros b [<-|[<-|[<-|[]]]]; reflexivity.
Defined.

(** ** Molecules without rings, molecules without bonds *)

Lemma foldM_ret {A B : Type} (body : B -> A -> M B) (l : list A) (b : B)
    (st : State) :
  (forall x, In x l -> body b x st = (Ok b, st)) ->
  foldM body l b st = (Ok b, st).
Proof.
  induction l as [|x l IH]; intro H; cbn [foldM]; [reflexivity|].
  unfold bind. rewrite (H x (or_introl eq_refl)).
  apply IH. intros y Hy. apply H. right. exact Hy.
Qed.

(** Where the ring information lists no ring, [set14Bounds] walks no ring
    and hands every path to [_setChain14Bounds]. *)
Theorem set14Bounds_without_rings (O : Oracles) (mol : ROMol)
    (distMatrix : N -> Q) (useMacrocycle14config forceTransAmides : bool) :
  bondRings (ringInfo mol) = [] ->
  let none := {| bidIsMacrocycle := []; ringBondPairs := [];
                 donePaths14 := [] |} in
  (forall bnd1 bond bnd3,
     set14Bounds_path O mol distMatrix useMacrocycle14config forceTransAmides
                      none bnd1 bond bnd3
     = _setChain14Bounds O mol bnd1 bond bnd3 distMatrix forceTransAmides) /\
  (forall st,
     numRows (mmat st) = getNumAtoms mol ->
     (N.of_nat (getNumBonds mol) < MAX_NUM_BONDS)%N ->
     isInitialized (ringInfo mol) = true ->
     set14Bounds O mol distMatrix useMacrocycle14config forceTransAmides st
     = forM_ (bonds mol)
             (set14Bounds_bond O mol distMatrix useMacrocycle14config
                               forceTransAmides none) st).
Proof.
  intros H none. split.
  - intros b1 b b3. unfold set14Bounds_path, numBondRings. rewrite H.
    reflexivity.
  - intros st Hn Hb Hi. unfold set14Bounds. rewrite H, Hi. cbn [foldM].
    unfold bind, ret, gets, CHECK_INVARIANT.
    apply Nat.eqb_eq in Hn. rewrite Hn.
    apply N.leb_gt in Hb. rewrite Hb. reflexivity.
Qed.

Lemma set14Bounds_without_rings_witness :
  set14Bounds_path Example.oracles Example.butane
    (Example.distanceMat Example.butane) false false
    {| bidIsMacrocycle := []; ringBondPairs := []; donePaths14 := [] |}
    (Example.mkBond 0 0 1 SINGLE) (Example.mkBond 1 1 2 SINGLE)
    (Example.mkBond 2 2 3 SINGLE)
  = _setChain14Bounds Example.oracles Example.butane
      (Example.mkBond 0 0 1 SINGLE) (Example.mkBond 1 1 2 SINGLE)
      (Example.mkBond 2 2 3 SINGLE) (Example.distanceMat Example.butane) false.
Proof.
  exact (proj1 (set14Bounds_without_rings Example.oracles Example.butane
                  (Example.distanceMat Example.butane) false false eq_refl)
           (Example.mkBond 0 0 1 SINGLE) (Example.mkBond 1 1 2 SINGLE)
           (Example.mkBond 2 2 3 SINGLE)).
Defined.

(** A molecule without bonds (and so without rings): Passes 1 to 4 change
    nothing, and the run is the van der Waals pass on the matrix as it was
    given. *)
Theorem setTopolBounds_without_bonds (O : Oracles) (mol : ROMol)
    (set15bounds scaleVDW useMacrocycle14config forceTransAmides : bool)
    (st : State) :
  bonds mol = [] ->
  atomRings (ringInfo mol) = [] -> bondRings (ringInfo mol) = [] ->
  isInitialized (ringInfo mol) = true ->
  getNumAtoms mol <> 0%nat ->
  numRows (mmat st) = getNumAtoms mol ->
  List.length (fst (getAtomTypes O mol)) = getNumAtoms mol ->
  setTopolBounds O mol set15bounds scaleVDW useMacrocycle14config
                 forceTransAmides st
  = setLowerBoundVDW O mol scaleVDW (getDistanceMat O mol)
      {| mmat := mmat st;
         accumData := newComputedData (getNumAtoms mol) 0;
         casLog := casLog st |}.
Proof.
  intros Hb Har Hbr Hi Hna Hn Ht.
  assert (Hnb : getNumBonds mol = 0%nat) by (unfold getNumBonds; rewrite Hb; reflexivity).
  unfold setTopolBounds. apply Nat.eqb_neq in Hna. rewrite Hna, Hnb.
  cbn [N.of_nat N.leb N.compare MAX_NUM_BONDS].
  unfold bind at 1. unfold modifyAccum at 1.
  set (st0 := {| mmat := mmat st;
                 accumData := newComputedData (getNumAtoms mol) 0;
                 casLog := casLog st |}).
  apply Nat.eqb_eq in Hn, Ht.
  assert (S12 : set12Bounds O mol st0 = (Ok tt, st0)).
  { unfold set12Bounds, bind, gets, getAccum, CHECK_INVARIANT.
    cbn [mmat st0]. rewrite Hn, Hnb, Ht, Hb. reflexivity. }
  assert (S13 : set13Bounds O mol st0 = (Ok tt, st0)).
  { unfold set13Bounds, bind, gets, CHECK_INVARIANT.
    cbn [mmat st0]. rewrite Hn, Hi, Har. cbn [sortBySize fold_right foldM ret].
    rewrite foldM_ret; [reflexivity|].
    intros aid2 Hin. apply in_seq in Hin. apply Nat.eqb_eq in Hn.
    unfold set13Bounds_atom, bind, liftR, getAtomWithIdx.
    destruct (nth_error (atoms mol) aid2) as [atom|] eqn:Ea.
    - unfold getDegree, atomBonds. rewrite Hb. reflexivity.
    - apply nth_error_None in Ea. unfold getNumAtoms in Hn. lia. }
  assert (S14 : set14Bounds O mol (getDistanceMat O mol) useMacrocycle14config
                            forceTransAmides st0 = (Ok tt, st0)).
  { unfold set14Bounds, bind, gets, CHECK_INVARIANT.
    cbn [mmat st0]. rewrite Hn, Hnb, Hi, Hbr, Hb. reflexivity. }
  assert (S15 : (if set15bounds then set15Bounds O mol (getDistanceMat O mol)
                 else ret tt) st0 = (Ok tt, st0)).
  { destruct set15bounds; reflexivity. }
  unfold bind. rewrite S12, S13, S14, S15. reflexivity.
Qed.

Lemma setTopolBounds_without_bonds_witness :
  setTopolBounds Example.oracles Example.twoHelium true true false false
                 (Example.freshState 2)
  = setLowerBoundVDW Example.oracles Example.twoHelium true
      (Example.distanceMat Example.twoHelium)
      {| mmat := mmat (Example.freshState 2);
         accumData := newComputedData 2 0;
         casLog := [] |}.
Proof.
  apply (setTopolBounds_without_bonds Example.oracles Example.twoHelium
           true true false false (Example.freshState 2));
    try reflexivity.
  discriminate.
Defined.

(** ** The macrocycle routine and the hydrogen of a secondary amide *)

(** On a path with a SINGLE middle bond that matches the 1-5 amide/ester
    pattern (and neither the disulfide test nor the macrocycle 1-4 amide
    pattern), [_setMacrocycleAllInSameRing14Bounds] sets no bound and
    records no path when the path starts at the hydrogen of a secondary
    amide nitrogen: the state stays as it is. *)
Theorem macrocycle_secondary_amide_hydrogen (O : Oracles) (mol : ROMol)
    (bnd1 bnd2 bnd3 : Bond) (dmat : N -> Q) (st : State)
    (atm1 atm2 atm3 atm4 : Atom) (aid1 aid4 : nat) :
  fst (path14Atoms mol bnd1 bnd2 bnd3 st) = Ok (atm2, atm3, aid1, aid4) ->
  getAtomWithIdx mol aid1 = Ok atm1 ->
  getAtomWithIdx mol aid4 = Ok atm4 ->
  0 < bondAngles (accumData st) (bondIdx bnd1) (bondIdx bnd2) ->
  0 < bondAngles (accumData st) (bondIdx bnd2) (bondIdx bnd3) ->
  bondType bnd2 = SINGLE ->
  _checkMacrocycleAllInSameRingAmideEster14 mol bnd1 bnd3 atm1 atm2 atm3 atm4
  || _checkMacrocycleAllInSameRingAmideEster14 mol bnd3 bnd1 atm4 atm3 atm2 atm1
  = false ->
  _checkAmideEster15 mol bnd1 bnd3 atm1 atm2 atm3 atm4
  || _checkAmideEster15 mol bnd3 bnd1 atm4 atm3 atm2 atm1 = true ->
  atomicNum atm1 = 1%nat -> atomicNum atm2 = 7%nat ->
  getDegree mol (atomIdx atm2) = 3%nat -> totalNumHs atm2 = 1%nat ->
  _setMacrocycleAllInSameRing14Bounds O mol bnd1 bnd2 bnd3 dmat st = (Ok tt, st).
Proof.
  intros Hpath H1 H4 A12 A23 HS Hm H15 N1 N2 D2 T2.
  apply Qltb_lt in A12, A23.
  unfold _setMacrocycleAllInSameRing14Bounds, bind, liftR, getAccum, gets.
  rewrite (path14Atoms_run _ _ _ _ _ _ Hpath). cbv beta iota zeta.
  rewrite H1, H4, A12, A23. cbn [CHECK_INVARIANT ret]. cbv beta iota.
  rewrite HS, Hm, H15, N1, N2, D2, T2. reflexivity.
Qed.

Lemma macrocycle_secondary_amide_hydrogen_witness :
  let mol := Example.methylacetamidine in
  let st := Example.afterPass2 mol in
  _setMacrocycleAllInSameRing14Bounds Example.oracles mol
    (Example.mkBond 4 3 5 SINGLE) (Example.mkBond 2 1 3 SINGLE)
    (Example.mkBond 0 0 1 SINGLE) (Example.distanceMat mol) st
  = (Ok tt, st).
Proof.
  intros mol st.
  apply (macrocycle_secondary_amide_hydrogen Example.oracles mol
           (Example.mkBond 4 3 5 SINGLE) (Example.mkBond 2 1 3 SINGLE)
           (Example.mkBond 0 0 1 SINGLE) (Example.distanceMat mol) st
           (Example.mkAtom 5 1 HYB_OTHER 0) (Example.mkAtom 3 7 SP2 1)
           (Example.mkAtom 1 6 SP2 0) (Example.mkAtom 0 6 SP3 3) 5 0);
    vm_compute; reflexivity.
Defined.
